(** * Metadata source manager and the TVDB source: a shallow embedding

    The development follows [src/metadata_manager.py] and
    [src/metadata_sources/tvdb.py].  Coroutines are modelled by the
    outcome their [await] produces; a method of an object is a
    computation in a small state, trace and exception monad, the state
    being the object ([self]). *)

From stdpp Require Import gmap strings list pretty.
From Stdlib Require Import ZArith Sorting.Sorted Permutation.

Set Warnings "-register-all".

Open Scope string_scope.
Open Scope Z_scope.

(** ** Python exceptions *)

(** The exception classes that occur in the two files.  All of them derive
    from [Exception]; [JSONDecodeError] (raised by [response.json()]) and
    [ValidationError] (raised by a pydantic model) derive from
    [ValueError].  [HTTPStatusError] is the class that
    [response.raise_for_status()] raises and that [tvdb.py] imports through
    [.base]; it carries its message, the status code of its response and
    the URL of its request. *)
Inductive exn : Type :=
| HTTPException (status_code : Z) (detail : string)
| ValueError (msg : string)
| JSONDecodeError (msg : string)
| ValidationError (msg : string)
| HTTPStatusError (msg : string) (response_status_code : Z) (request_url : string)
| TransportError (msg : string)
| KeyError (key : string)
| IndexError (msg : string)
| TypeError (msg : string)
| AttributeError (msg : string)
| NotImplementedError (msg : string)
| RuntimeError (msg : string).

(** [isinstance(e, ValueError)], as the clause [except ValueError] tests it. *)
Definition is_ValueError (e : exn) : bool :=
  match e with
  | ValueError _ | JSONDecodeError _ | ValidationError _ => true
  | _ => false
  end.


(** [str(e)]. *)
Definition exn_str (e : exn) : string :=
  match e with
  | HTTPException c d => pretty c +:+ ": " +:+ d
  | ValueError m | JSONDecodeError m | ValidationError m
  | TransportError m | IndexError m | TypeError m | AttributeError m
  | NotImplementedError m | RuntimeError m => m
  | HTTPStatusError m _ _ => m
  | KeyError k => "'" +:+ k +:+ "'"
  end.

(** What awaiting a coroutine (or calling a function) produces. *)
Inductive outcome (A : Type) : Type :=
| Returned (a : A)
| Raised (e : exn).
Arguments Returned {A} a.
Arguments Raised {A} e.

(** ** Observable effects *)

Inductive level : Type := INFO | WARNING | ERROR.

Inductive event : Type :=
| Invoked (provider method : string)
| Logged (lv : level) (msg : string)
| ConfigRead (key : string)
| DbRead (query : string)
| HttpGet (path : string).

(** ** The monad of methods *)

Record run (S A : Type) : Type := Run {
  value : outcome A;
  final : S;
  trace : list event
}.
Arguments Run {S A} value final trace.
Arguments value {S A} r.
Arguments final {S A} r.
Arguments trace {S A} r.

Definition M (S A : Type) : Type := S → run S A.

Definition ret {S A} (a : A) : M S A := λ s, Run (Returned a) s [].

Definition bind {S A B} (c : M S A) (k : A → M S B) : M S B :=
  λ s,
    let r := c s in
    match value r with
    | Returned a =>
        let r' := k a (final r) in
        Run (value r') (final r') (trace r ++ trace r')
    | Raised e => Run (Raised e) (final r) (trace r)
    end.

#[global] Instance M_ret {S} : MRet (M S) := λ A, @ret S A.
#[global] Instance M_bind {S} : MBind (M S) := λ A B k c, bind c k.

Definition raise {S A} (e : exn) : M S A := λ s, Run (Raised e) s [].
Definition emit {S} (ev : event) : M S unit := λ s, Run (Returned tt) s [ev].
Definition get_self {S} : M S S := λ s, Run (Returned s) s [].
Definition lift {S A} (o : outcome A) : M S A := λ s, Run o s [].

(** [try: c except Exception as e: h e]. *)
Definition try_except {S A} (c : M S A) (h : exn → M S A) : M S A :=
  λ s,
    let r := c s in
    match value r with
    | Returned a => r
    | Raised e =>
        let r' := h e (final r) in
        Run (value r') (final r') (trace r ++ trace r')
    end.

Definition logger {S} (lv : level) (msg : string) : M S unit := emit (Logged lv msg).

(** A list built by one [append] per iteration. *)
Fixpoint collect {S A B} (l : list A) (body : A → M S (option B)) : M S (list B) :=
  match l with
  | [] => mret []
  | x :: l' =>
      o ← body x;
      rest ← collect l' body;
      mret (from_option (λ b, b :: rest) rest o)
  end.

(** ** Python dictionaries

    A [dict] keeps its keys in insertion order, and the code relies on that
    order ([list(self.sources.keys())[i]], the stable [sorted] over
    [self.source_settings.items()]), so a dictionary is the list of its
    items. *)
Definition pydict (V : Type) : Type := list (string * V).

Fixpoint dict_get {V} (k : string) (d : pydict V) : option V :=
  match d with
  | [] => None
  | (k', v) :: d' => if decide (k = k') then Some v else dict_get k d'
  end.

Fixpoint dict_set {V} (k : string) (v : V) (d : pydict V) : pydict V :=
  match d with
  | [] => [(k, v)]
  | (k', v') :: d' =>
      if decide (k = k') then (k, v) :: d' else (k', v') :: dict_set k v d'
  end.

Definition dict_keys {V} (d : pydict V) : list string := d.*1.
Definition dict_values {V} (d : pydict V) : list V := d.*2.
Definition dict_contains {V} (k : string) (d : pydict V) : bool :=
  bool_decide (is_Some (dict_get k d)).

(** [dict(pairs)] when only lookups follow: a later pair overrides an
    earlier one with the same key. *)
Definition dict_of_pairs {V} (pairs : list (string * V)) : gmap string V :=
  foldl (λ acc kv, <[kv.1 := kv.2]> acc) ∅ pairs.

(** ** Values *)

(** An element of an alias set: a string, or [None]. *)
Abbreviation alias := (option string) (only parsing).

(** Truth value of an alias ([if alias]). *)
Definition truthy (a : alias) : bool :=
  match a with
  | Some s => negb (bool_decide (s = ""))
  | None => false
  end.

(** Decoded JSON.  A float is given by its [repr], the shortest decimal
    text that reads back as the same float, which determines it. *)
Inductive json : Type :=
| JNull
| JBool (b : bool)
| JInt (z : Z)
| JFloat (repr : string)
| JStr (s : string)
| JList (l : list json)
| JDict (d : list (string * json)).

(** [models.MetadataDetailsResponse], with the fields the TVDB source
    fills.  The class itself is declared in [models.py]. *)
Module MetadataDetailsResponse.
Record t : Type := {
  id : json;
  tvdbId : json;
  title : json;
  imageUrl : json;
  details : json;
  imdbId : json
}.
End MetadataDetailsResponse.

(** The values a provider operation can hand back to the manager, as far
    as the manager's [isinstance] tests distinguish them.  [VExc] is an
    exception object used as a value, as [asyncio.gather] with
    [return_exceptions=True] returns it. *)
Inductive pyval : Type :=
| VNone
| VStr (s : string)
| VSet (s : gset alias)
| VDetails (r : MetadataDetailsResponse.t)
| VList (l : list MetadataDetailsResponse.t)
| VJson (j : json)
| VExc (e : exn).

(** [asyncio.gather] over the tasks with [return_exceptions=True]: every
    task is awaited, and an exception becomes the task's result. *)
Definition gather_return_exceptions (tasks : list (outcome pyval)) : list pyval :=
  map (λ t, match t with Returned v => v | Raised e => VExc e end) tasks.

(** Stand-ins for [models.User], the [payload] dictionary and fastapi's
    [Request], which the two files only pass along. *)
Record User : Type := { username : string }.
Definition Payload : Type := list (string * json).
Record Request : Type := { request_path : string }.

(** ** Calling a method with keyword arguments *)

Record param : Type := { pname : string; has_default : bool }.

Record method (B : Type) : Type := {
  qualname : string;
  params : list param;
  body : B
}.
Arguments qualname {B} m.
Arguments params {B} m.
Arguments body {B} m.

Definition declares (ps : list param) (k : string) : bool :=
  bool_decide (k ∈ pname <$> ps).

(** ['a'], ['a' and 'b'], or ['a', 'b', and 'c'], as Python lists the
    names of missing arguments. *)
Definition quoted (name : string) : string := "'" +:+ name +:+ "'".

Fixpoint names_and_last (names : list string) : string :=
  match names with
  | [] => ""
  | [a] => "and " +:+ quoted a
  | a :: names' => quoted a +:+ ", " +:+ names_and_last names'
  end.

Definition format_missing (names : list string) : string :=
  match names with
  | [a] => quoted a
  | [a; b] => quoted a +:+ " and " +:+ quoted b
  | _ => names_and_last names
  end.

(** Binding [npos] positional arguments and the keyword arguments [kws] to
    the parameters [ps] ([self] excluded, but counted in the messages): the
    [TypeError] Python raises at the call, before the body runs, if there
    is one.  The keywords are bound in their order, the first that names no
    parameter or a parameter already filled by position fails; then the
    number of positional arguments is checked, then the parameters left
    without a value. *)
Definition bind_error (fname : string) (ps : list param) (npos : nat)
    (kws : list string) : option exn :=
  match List.find (λ k, negb (declares ps k) || declares (take npos ps) k) kws with
  | Some k =>
      if declares ps k then
        Some (TypeError (fname +:+ "() got multiple values for argument '" +:+ k +:+ "'"))
      else
        Some (TypeError (fname +:+ "() got an unexpected keyword argument '" +:+ k +:+ "'"))
  | None =>
      if (length ps <? npos)%nat then
        let defcount := length (filter (λ p, has_default p = true) ps) in
        let sig :=
          if (0 <? defcount)%nat
          then "from " +:+ pretty (S (length ps) - defcount)%nat +:+ " to "
               +:+ pretty (S (length ps))
          else pretty (S (length ps)) in
        let plural :=
          if (0 <? defcount)%nat || negb (length ps =? 0)%nat then "s" else "" in
        Some (TypeError (fname +:+ "() takes " +:+ sig +:+ " positional argument" +:+ plural
                         +:+ " but " +:+ pretty (S npos) +:+ " were given"))
      else
        match filter (λ p, has_default p = false ∧ pname p ∉ kws) (drop npos ps) with
        | [] => None
        | missing =>
            Some (TypeError (fname +:+ "() missing " +:+ pretty (length missing)
                             +:+ " required positional argument"
                             +:+ (if (length missing =? 1)%nat then "" else "s") +:+ ": "
                             +:+ format_missing (pname <$> missing)))
        end
  end.

(** ** Persisted source settings *)

(** A settings row as [crud] returns it: a dictionary whose keys may be
    absent ([None] here), which is why the code reads them with
    [.get(key, default)].  [use_proxy] is the key the TVDB client reads. *)
Record SourceSetting : Type := {
  providerName : string;
  isAuxSearchEnabled : option bool;
  displayOrder : option Z;
  useProxy : option bool;
  use_proxy : option bool
}.

(** What the [crud] queries produce on a session of the factory. *)
Record Database : Type := {
  get_enabled_aux_metadata_sources : outcome (list SourceSetting);
  get_all_metadata_source_settings : outcome (list SourceSetting)
}.

(** Modelled from the spec: [crud.get_enabled_aux_metadata_sources] and
    [crud.get_all_metadata_source_settings] are not part of the sources.
    Over a table of rows, the first returns the "settings rows where
    isAuxSearchEnabled", the second all rows. *)
Definition database_of_rows (rows : list SourceSetting) : Database := {|
  get_enabled_aux_metadata_sources :=
    Returned (filter (λ s, isAuxSearchEnabled s = Some true) rows);
  get_all_metadata_source_settings := Returned rows
|}.

(** [config_manager.get(key, default)]. *)
Definition ConfigManager : Type := string → string → outcome string.

Definition config_get {S} (cm : ConfigManager) (key default : string) : M S string :=
  emit (ConfigRead key);; lift (cm key default).

(** ** Metadata sources, as the manager sees them *)

(** A loaded source instance.  The manager passes a keyword argument to
    [search], [get_details] and [execute_action], so whether such a call
    binds depends on the parameters the source declares; the other three
    operations are called positionally, with the arity the plugin contract
    fixes.  Each body gives the outcome of awaiting the coroutine. *)
Module Source.
Record t : Type := {
  search_aliases : string → User → outcome pyval;
  check_connectivity : outcome pyval;
  close : outcome pyval;
  search : method (string → User → option string → outcome pyval);
  get_details : method (string → User → option string → outcome pyval);
  execute_action : method (string → Payload → User → Request → outcome pyval)
}.
End Source.

(** [instance.m(positional..., kw=...)] on the source loaded as [provider]:
    the call binds or raises [TypeError]; if it binds, the coroutine runs. *)
Definition call_method {S B} (provider name : string) (m : method B)
    (npos : nat) (kws : list string) (run_body : B → outcome pyval) : M S pyval :=
  match bind_error (qualname m) (params m) npos kws with
  | Some e => raise e
  | None => emit (Invoked provider name);; lift (run_body (body m))
  end.

(** ** [MetadataSourceManager] *)

Module MetadataSourceManager.

Record t : Type := {
  _session_factory : Database;
  _config_manager : ConfigManager;
  sources : pydict Source.t;
  source_settings : pydict SourceSetting
}.

(** A row of [get_sources_with_status]. *)
Record StatusRow : Type := {
  row_providerName : string;
  row_isAuxSearchEnabled : bool;
  row_displayOrder : Z;
  row_status : string;
  row_useProxy : bool
}.

Definition not_found {A} (provider : string) : M t A :=
  raise (HTTPException 404 ("未找到元数据源: " +:+ provider)).

(** *** [search_aliases_from_enabled_sources] *)

(** The loop that fills [tasks]. *)
Definition alias_tasks (self : t) (keyword : string) (user : User)
    (enabled_sources_settings : list SourceSetting) : M t (list (outcome pyval)) :=
  collect enabled_sources_settings (λ source_setting,
    let provider := providerName source_setting in
    match dict_get provider (sources self) with
    | Some source_instance =>
        emit (Invoked provider "search_aliases");;
        mret (Some (Source.search_aliases source_instance keyword user))
    | None =>
        logger WARNING ("已启用的元数据源 '" +:+ provider +:+ "' 未被成功加载，跳过别名搜索。");;
        mret None
    end).

(** The loop over [results]. *)
Fixpoint merge_aliases (results : list pyval) (all_aliases : gset alias)
    : M t (gset alias) :=
  match results with
  | [] => mret all_aliases
  | VSet res :: results' => merge_aliases results' (all_aliases ∪ res)
  | VExc res :: results' =>
      logger ERROR ("Auxiliary search sub-task failed: " +:+ exn_str res);;
      merge_aliases results' all_aliases
  | _ :: results' => merge_aliases results' all_aliases
  end.

Definition search_aliases_from_enabled_sources (keyword : string) (user : User)
    : M t (gset alias) :=
  self ← get_self;
  enabled_sources_settings ←
    (emit (DbRead "get_enabled_aux_metadata_sources");;
     lift (get_enabled_aux_metadata_sources (_session_factory self)));
  tasks ← alias_tasks self keyword user enabled_sources_settings;
  match tasks with
  | [] => mret ∅
  | _ =>
      let results := gather_return_exceptions tasks in
      all_aliases ← merge_aliases results ∅;
      mret (filter (λ a, truthy a = true) all_aliases)
  end.

(** *** [get_sources_with_status] *)

(** [sorted(rows, key=lambda x: x['displayOrder'])]: a stable sort, so
    rows with equal keys keep their order. *)
Fixpoint insert_by_key (x : StatusRow) (l : list StatusRow) : list StatusRow :=
  match l with
  | [] => [x]
  | y :: l' =>
      if row_displayOrder x <=? row_displayOrder y then x :: y :: l'
      else y :: insert_by_key x l'
  end.

Definition sorted_by_displayOrder (rows : list StatusRow) : list StatusRow :=
  foldr insert_by_key [] rows.

(** The loop that fills [tasks]; [self.sources[provider_name]] is a
    subscript, which raises [KeyError] on a missing key. *)
Definition connectivity_tasks (self : t) (loaded_providers : list string)
    : M t (list (outcome pyval)) :=
  collect loaded_providers (λ provider_name,
    match dict_get provider_name (sources self) with
    | Some source_instance =>
        emit (Invoked provider_name "check_connectivity");;
        mret (Some (Source.check_connectivity source_instance))
    | None => raise (KeyError provider_name)
    end).

(** One iteration of the loop over [self.source_settings.items()]. *)
Definition status_row (status_map : gmap string pyval) (provider_name : string)
    (setting : SourceSetting) : M t (option StatusRow) :=
  let status_result := status_map !! provider_name in
  status_text ←
    match status_result with
    | Some (VStr s) => mret s
    | Some (VExc e) =>
        logger ERROR ("检查 '" +:+ provider_name +:+ "' 连接状态时出错: " +:+ exn_str e);;
        mret "检查失败"
    | _ => mret "检查失败"
    end;
  mret (Some {|
    row_providerName := provider_name;
    row_isAuxSearchEnabled := default false (isAuxSearchEnabled setting);
    row_displayOrder := default 99 (displayOrder setting);
    row_status := status_text;
    row_useProxy := default false (useProxy setting)
  |}).

Definition get_sources_with_status : M t (list StatusRow) :=
  self ← get_self;
  let loaded_providers := dict_keys (sources self) in
  tasks ← connectivity_tasks self loaded_providers;
  let connectivity_statuses := gather_return_exceptions tasks in
  let status_map := dict_of_pairs (zip loaded_providers connectivity_statuses) in
  full_status_list ←
    collect (source_settings self) (λ item, status_row status_map item.1 item.2);
  mret (sorted_by_displayOrder full_status_list).

(** *** Routed operations *)

Definition search (provider keyword : string) (user : User)
    (mediaType : option string) : M t pyval :=
  self ← get_self;
  match dict_get provider (sources self) with
  | Some source_instance =>
      call_method provider "search" (Source.search source_instance) 2 ["mediaType"]
        (λ f, f keyword user mediaType)
  | None => not_found provider
  end.

Definition get_details (provider item_id : string) (user : User)
    (mediaType : option string) : M t pyval :=
  self ← get_self;
  match dict_get provider (sources self) with
  | Some source_instance =>
      call_method provider "get_details" (Source.get_details source_instance) 2 ["mediaType"]
        (λ f, f item_id user mediaType)
  | None => not_found provider
  end.

Definition execute_action (provider action_name : string) (payload : Payload)
    (user : User) (request : Request) : M t pyval :=
  self ← get_self;
  match dict_get provider (sources self) with
  | Some source_instance =>
      call_method provider "execute_action" (Source.execute_action source_instance) 3 ["request"]
        (λ f, f action_name payload user request)
  | None => not_found provider
  end.

(** *** [getProviderConfig] *)

Definition config_keys_map : pydict (list string) :=
  [ ("tmdb", ["tmdbApiKey"; "tmdbApiBaseUrl"; "tmdbImageBaseUrl"]);
    ("bangumi", ["bangumiClientId"; "bangumiClientSecret"]);
    ("douban", ["doubanCookie"]);
    ("tvdb", ["tvdbApiKey"]);
    ("imdb", []) ].

(** The dictionary comprehension over [keys_to_fetch]: one awaited
    [config_manager.get(key, "")] per key, in order. *)
Fixpoint fetch_config (self : t) (keys_to_fetch : list string)
    (config_values : pydict string) : M t (pydict string) :=
  match keys_to_fetch with
  | [] => mret config_values
  | key :: keys' =>
      v ← config_get (_config_manager self) key "";
      fetch_config self keys' (dict_set key v config_values)
  end.

Definition getProviderConfig (provider : string) : M t (pydict string) :=
  self ← get_self;
  if negb (dict_contains provider (sources self)) then not_found provider
  else
    match dict_get provider config_keys_map with
    | None =>
        logger WARNING ("提供商 '" +:+ provider +:+ "' 已加载，但没有定义的配置键。");;
        mret []
    | Some keys_to_fetch =>
        config_values ← fetch_config self keys_to_fetch [];
        if bool_decide (provider ∈ ["douban"; "tvdb"]) then
          mret [("value", default "" (head (dict_values config_values)))]
        else mret config_values
    end.

(** *** [close_all] *)

(** [traceback.format_exc()] outside an [except] block. *)
Definition format_exc : string := "NoneType: None" +:+ String (Ascii.ascii_of_nat 10) "".

(** The loop over [enumerate(results)]; [list(self.sources.keys())[i]]
    is a subscript, which raises [IndexError] out of range. *)
Fixpoint log_close_errors (self : t) (i : nat) (results : list pyval) : M t unit :=
  match results with
  | [] => mret tt
  | result :: results' =>
      match result with
      | VExc e =>
          logger ERROR ("在清理的过程中发现了错误" +:+ exn_str e +:+ " 详细信息" +:+ format_exc);;
          provider_name ←
            match dict_keys (sources self) !! i with
            | Some k => mret k
            | None => raise (IndexError "list index out of range")
            end;
          logger ERROR ("关闭元数据源 '" +:+ provider_name +:+ "' 时出错: " +:+ exn_str e)
      | _ => mret tt
      end;;
      log_close_errors self (S i) results'
  end.

Definition close_all : M t unit :=
  logger INFO "正在关闭所有元数据源...";;
  self ← get_self;
  tasks ← collect (sources self) (λ item,
            emit (Invoked item.1 "close");; mret (Some (Source.close item.2)));
  let results := gather_return_exceptions tasks in
  log_close_errors self 0 results;;
  logger INFO "所有元数据源已关闭。".

End MetadataSourceManager.

(** ** Operations on decoded JSON *)

(** [j.get(key, default)]; only a dictionary has the method. *)
Definition py_get (j : json) (key : string) (dflt : json) : outcome json :=
  match j with
  | JDict d => Returned (default dflt (dict_get key d))
  | _ => Raised (AttributeError "object has no attribute 'get'")
  end.

(** [j[key]] with a string key. *)
Definition py_subscript (j : json) (key : string) : outcome json :=
  match j with
  | JDict d =>
      match dict_get key d with
      | Some v => Returned v
      | None => Raised (KeyError key)
      end
  | JList _ | JStr _ => Raised (TypeError "indices must be integers")
  | _ => Raised (TypeError "object is not subscriptable")
  end.

Fixpoint characters (s : string) : list json :=
  match s with
  | EmptyString => []
  | String c s' => JStr (String c EmptyString) :: characters s'
  end.

(** The elements a [for] loop or a generator expression visits. *)
Definition py_iter (j : json) : outcome (list json) :=
  match j with
  | JList l => Returned l
  | JDict d => Returned (JStr <$> d.*1)
  | JStr s => Returned (characters s)
  | _ => Raised (TypeError "object is not iterable")
  end.

(** Truth value of a decoded JSON value. *)
Definition json_truthy (j : json) : bool :=
  match j with
  | JNull => false
  | JBool b => b
  | JInt z => negb (z =? 0)
  | JFloat r => negb (bool_decide (r ∈ ["0.0"; "-0.0"]))
  | JStr s => negb (bool_decide (s = ""))
  | JList l => negb (bool_decide (l = []))
  | JDict d => negb (bool_decide (d = []))
  end.

(** [j == s] for a string literal [s]. *)
Definition json_is_str (j : json) (s : string) : bool :=
  match j with
  | JStr s' => bool_decide (s' = s)
  | _ => false
  end.

(** [str.lower()], on the ASCII letters.  The source compares the result
    with ['true'] only, and no character outside ASCII lowers to one of
    the letters of that word, so the comparison comes out as with the
    Unicode mapping. *)
Definition ascii_lower (c : Ascii.ascii) : Ascii.ascii :=
  let n := Ascii.nat_of_ascii c in
  if ((65 <=? n) && (n <=? 90))%nat then Ascii.ascii_of_nat (n + 32) else c.

Fixpoint lower (s : string) : string :=
  match s with
  | EmptyString => EmptyString
  | String c s' => String (ascii_lower c) (lower s')
  end.

(** The library functions the two files call and whose definitions lie
    outside the repository: [str()] on a JSON value; the construction of
    the pydantic model, which validates its fields and may raise
    [ValidationError]; the construction of [httpx.AsyncClient] from a base
    URL, headers and a proxy (with [timeout=20.0] and
    [follow_redirects=True]), given by the exception it raises, if any: it
    raises [ValueError] on a proxy URL whose scheme it does not know; and
    [str.capitalize()], which follows the Unicode case mappings. *)
Class Runtime : Type := {
  py_str : json → string;
  new_MetadataDetailsResponse :
    MetadataDetailsResponse.t → outcome MetadataDetailsResponse.t;
  AsyncClient_error : string → list (string * string) → option string → option exn;
  str_capitalize : string → string
}.

(** ** [TvdbMetadataSource] *)

Module TvdbMetadataSource.

Definition provider_name : string := "tvdb".

(** An upstream response; [location] is its [Location] header, and
    [body_json] is what [response.json()] produces. *)
Record Response : Type := {
  status_code : Z;
  reason_phrase : string;
  url : string;
  location : option string;
  body_json : outcome json
}.

(** The [httpx.AsyncClient] that [_create_client] configures. *)
Record AsyncClient : Type := {
  base_url : string;
  headers : list (string * string);
  proxy : option string
}.

(** The instance with its collaborators: the configuration manager, the
    session factory, what a GET through a client yields, and [close],
    which the class inherits from [BaseMetadataSource]. *)
Record t : Type := {
  config_manager : ConfigManager;
  _session_factory : Database;
  http_get : AsyncClient → string → list (string * string) → outcome Response;
  close : outcome pyval
}.

Section WithRuntime.
Context `{Runtime}.

Definition _create_client : M t AsyncClient :=
  self ← get_self;
  api_key ← config_get (config_manager self) "tvdbApiKey" "";
  if bool_decide (api_key = "") then raise (ValueError "TVDB API Key not configured.")
  else
    let headers := [("Authorization", "Bearer " +:+ api_key)] in
    proxy_url ← config_get (config_manager self) "proxy_url" "";
    proxy_enabled ← config_get (config_manager self) "proxy_enabled" "false";
    let proxy_enabled_globally := bool_decide (lower proxy_enabled = "true") in
    metadata_settings ←
      (emit (DbRead "get_all_metadata_source_settings");;
       lift (get_all_metadata_source_settings (_session_factory self)));
    let provider_setting :=
      List.find (λ s, bool_decide (providerName s = provider_name)) metadata_settings in
    let use_proxy_for_this_provider :=
      match provider_setting with
      | Some s => default false (use_proxy s)
      | None => false
      end in
    let proxy_to_use :=
      if proxy_enabled_globally && use_proxy_for_this_provider
         && negb (bool_decide (proxy_url = ""))
      then Some proxy_url else None in
    match AsyncClient_error "https://api4.thetvdb.com/v4" headers proxy_to_use with
    | Some e => raise e
    | None =>
        mret {| base_url := "https://api4.thetvdb.com/v4";
                headers := headers;
                proxy := proxy_to_use |}
    end.

(** [await client.get(path, params=...)]. *)
Definition client_get (client : AsyncClient) (path : string)
    (query : list (string * string)) : M t Response :=
  self ← get_self;
  emit (HttpGet path);;
  lift (http_get self client path query).

(** The message of the [HTTPStatusError] of a response, as httpx composes
    it. *)
Definition status_error_message (response : Response) : string :=
  let error_type :=
    match status_code response `div` 100 with
    | 1 => "Informational response"
    | 3 => "Redirect response"
    | 4 => "Client error"
    | 5 => "Server error"
    | _ => "Invalid status code"
    end in
  let redirect_location :=
    match location response with
    | Some target =>
        if bool_decide (status_code response ∈ [301; 302; 303; 307; 308])
        then "Redirect location: '" +:+ target +:+ "'" +:+ String (Ascii.ascii_of_nat 10) ""
        else ""
    | None => ""
    end in
  error_type +:+ " '" +:+ pretty (status_code response) +:+ " " +:+ reason_phrase response
  +:+ "' for url '" +:+ url response +:+ "'" +:+ String (Ascii.ascii_of_nat 10) ""
  +:+ redirect_location
  +:+ "For more information check: https://developer.mozilla.org/en-US/docs/Web/HTTP/Status/"
  +:+ pretty (status_code response).

(** [response.raise_for_status()]: a status outside 2xx raises. *)
Definition raise_for_status (response : Response) : M t unit :=
  if (200 <=? status_code response) && (status_code response <? 300) then mret tt
  else raise (HTTPStatusError (status_error_message response)
                              (status_code response) (url response)).

(** The loop over [data] in [search]. *)
Fixpoint search_results (data : list json) : M t (list MetadataDetailsResponse.t) :=
  match data with
  | [] => mret []
  | item :: data' =>
      ty ← lift (py_get item "type" JNull);
      if negb (json_is_str ty "series") then search_results data'
      else
        tvdb_id ← lift (py_subscript item "tvdb_id");
        name ← lift (py_get item "name" JNull);
        image_url ← lift (py_get item "image_url" JNull);
        year ← lift (py_get item "year" JNull);
        r ← lift (new_MetadataDetailsResponse {|
               MetadataDetailsResponse.id := tvdb_id;
               MetadataDetailsResponse.tvdbId := tvdb_id;
               MetadataDetailsResponse.title := name;
               MetadataDetailsResponse.imageUrl := image_url;
               MetadataDetailsResponse.details := JStr ("Year: " +:+ py_str year);
               MetadataDetailsResponse.imdbId := JNull |});
        rest ← search_results data';
        mret (r :: rest)
  end.

(** The body of the [try] block of [search]. *)
Definition search_try (keyword : string) : M t (list MetadataDetailsResponse.t) :=
  client ← _create_client;
  response ← client_get client "/search" [("query", keyword)];
  raise_for_status response;;
  decoded ← lift (body_json response);
  data ← lift (py_get decoded "data" (JList []));
  items ← lift (py_iter data);
  search_results items.

(** The text of the 503 failure. *)
Definition upstream_detail (code : Z) : string :=
  let detail := "TVDB服务返回错误: " +:+ pretty code in
  if code =? 401 then detail +:+ "，请检查您的API Key是否正确。" else detail.

(** The three [except] clauses of [search], in their order. *)
Definition search_except (e : exn) : M t (list MetadataDetailsResponse.t) :=
  if is_ValueError e then raise (HTTPException 412 (exn_str e))
  else
    match e with
    | HTTPStatusError _ code request_url =>
        let detail := upstream_detail code in
        logger ERROR ("TVDB搜索失败，HTTP错误: " +:+ pretty code +:+ " for URL: "
                      +:+ request_url);;
        raise (HTTPException 503 detail)
    | _ =>
        logger ERROR ("TVDB搜索失败，发生意外错误: " +:+ exn_str e);;
        raise (HTTPException 500 "TVDB搜索时发生内部错误。")
    end.

Definition search (keyword : string) (user : User) (mediaType : option string)
    : M t (list MetadataDetailsResponse.t) :=
  try_except (search_try keyword) search_except.

(** [next((rid for rid in remote_ids if rid.get('sourceName') == 'IMDB'), None)]. *)
Fixpoint first_imdb (remote_ids : list json) : outcome json :=
  match remote_ids with
  | [] => Returned JNull
  | rid :: remote_ids' =>
      match py_get rid "sourceName" JNull with
      | Returned name => if json_is_str name "IMDB" then Returned rid else first_imdb remote_ids'
      | Raised e => Raised e
      end
  end.

(** The body of the [try] block of [get_details]. *)
Definition get_details_try (item_id : string)
    : M t (option MetadataDetailsResponse.t) :=
  client ← _create_client;
  response ← client_get client ("/series/" +:+ item_id +:+ "/extended") [];
  if status_code response =? 404 then mret None
  else
    raise_for_status response;;
    decoded ← lift (body_json response);
    details ← lift (py_get decoded "data" (JDict []));
    remote_ids ← lift (py_get details "remoteIds" JNull);
    imdb_id ←
      (if json_truthy remote_ids then
         rids ← lift (py_iter remote_ids);
         imdb_entry ← lift (first_imdb rids);
         if json_truthy imdb_entry then lift (py_get imdb_entry "id" JNull)
         else mret JNull
       else mret JNull);
    details_id ← lift (py_subscript details "id");
    name ← lift (py_get details "name" JNull);
    image ← lift (py_get details "image" JNull);
    overview ← lift (py_get details "overview" JNull);
    r ← lift (new_MetadataDetailsResponse {|
           MetadataDetailsResponse.id := JStr (py_str details_id);
           MetadataDetailsResponse.tvdbId := JStr (py_str details_id);
           MetadataDetailsResponse.title := name;
           MetadataDetailsResponse.imageUrl := image;
           MetadataDetailsResponse.details := overview;
           MetadataDetailsResponse.imdbId := imdb_id |});
    mret (Some r).

Definition get_details (item_id : string) (user : User) (mediaType : option string)
    : M t (option MetadataDetailsResponse.t) :=
  try_except (get_details_try item_id)
    (λ e, logger ERROR ("TVDB获取详情失败: " +:+ exn_str e);; mret None).

Definition search_aliases (keyword : string) (user : User) : M t (gset alias) :=
  mret ∅.

Definition check_connectivity : M t string :=
  try_except
    (client ← _create_client;
     response ← client_get client "/search" [("query", "test")];
     if status_code response =? 200 then mret "连接成功"
     else if status_code response =? 401 then mret "连接失败 (API Key无效)"
     else mret ("连接失败 (状态码: " +:+ pretty (status_code response) +:+ ")"))
    (λ e,
       if is_ValueError e then mret ("未配置: " +:+ exn_str e)
       else mret ("连接失败: " +:+ exn_str e)).

Definition execute_action (action_name : string) (payload : Payload) (user : User)
    : M t pyval :=
  raise (NotImplementedError ("源 '" +:+ provider_name +:+ "' 不支持任何自定义操作。")).

(** The instance as the manager holds it, each method with the
    parameters its [def] declares. *)
Definition positional (name : string) : param :=
  {| pname := name; has_default := false |}.
Definition optional (name : string) : param :=
  {| pname := name; has_default := true |}.

Definition as_source (self : t) : Source.t := {|
  Source.search_aliases := λ keyword user,
    match value (search_aliases keyword user self) with
    | Returned s => Returned (VSet s)
    | Raised e => Raised e
    end;
  Source.check_connectivity :=
    match value (check_connectivity self) with
    | Returned s => Returned (VStr s)
    | Raised e => Raised e
    end;
  Source.close := close self;
  Source.search := {|
    qualname := "TvdbMetadataSource.search";
    params := [positional "keyword"; positional "user"; optional "mediaType"];
    body := λ keyword user mediaType,
      match value (search keyword user mediaType self) with
      | Returned l => Returned (VList l)
      | Raised e => Raised e
      end |};
  Source.get_details := {|
    qualname := "TvdbMetadataSource.get_details";
    params := [positional "item_id"; positional "user"; optional "mediaType"];
    body := λ item_id user mediaType,
      match value (get_details item_id user mediaType self) with
      | Returned (Some r) => Returned (VDetails r)
      | Returned None => Returned VNone
      | Raised e => Raised e
      end |};
  Source.execute_action := {|
    qualname := "TvdbMetadataSource.execute_action";
    params := [positional "action_name"; positional "payload"; positional "user"];
    body := λ action_name payload user _,
      value (execute_action action_name payload user self) |}
|}.
End WithRuntime.

End TvdbMetadataSource.

(** ** The rest of [MetadataSourceManager] *)

(** [self] updated by [f]. *)
Definition modify_self {S} (f : S → S) : M S unit := λ s, Run (Returned tt) (f s) [].

(** An optional method or attribute of a source instance that the record
    [Source.t] does not carry: what [getattr] finds on the instance, if
    [hasattr] holds. *)
Definition capability (A : Type) : Type := Source.t → option A.

(** [update_tmdb_mappings]; the result of the delegated call is dropped. *)
Definition update_tmdb_mappings
    (update_tmdb_mappings_of : capability (Z → string → User → outcome pyval))
    (tmdb_tv_id : Z) (group_id : string) (user : User) : M MetadataSourceManager.t unit :=
  self ← get_self;
  let tmdb_source := dict_get "tmdb" (MetadataSourceManager.sources self) in
  match tmdb_source ≫= update_tmdb_mappings_of with
  | Some method_ =>
      logger INFO ("管理器: 正在为 TMDB TV ID " +:+ pretty tmdb_tv_id +:+ " 和 Group ID "
                   +:+ group_id +:+ " 委派映射更新。");;
      emit (Invoked "tmdb" "update_tmdb_mappings");;
      _ ← lift (method_ tmdb_tv_id group_id user);
      mret tt
  | None =>
      logger WARNING "TMDB 元数据源未加载或不支持 `update_tmdb_mappings` 方法。"
  end.

(** fastapi's [APIRouter], and one [app.include_router] call. *)
Record APIRouter : Type := { router_name : string }.

Record Mount : Type := {
  mount_router : APIRouter;
  mount_prefix : string;
  mount_tags : list string
}.

Section Routers.
Context `{Runtime}.

(** [register_source_routers]: the application is the list of its mounts,
    and the result is the application after the calls.  [api_router_of]
    gives the attribute [api_router] of an instance when it has one and it
    is an [APIRouter]. *)
Fixpoint mount_routers (api_router_of : capability APIRouter)
    (items : list (string * Source.t)) (app : list Mount)
    : M MetadataSourceManager.t (list Mount) :=
  match items with
  | [] => mret app
  | (provider_name, source_instance) :: items' =>
      match api_router_of source_instance with
      | Some api_router =>
          let prefix := "/api/metadata/" +:+ provider_name in
          let tag := "Metadata - " +:+ str_capitalize provider_name in
          let app' := (app ++ [ {| mount_router := api_router;
                                   mount_prefix := prefix;
                                   mount_tags := [tag] |} ])%list in
          logger INFO ("已为源 '" +:+ provider_name +:+ "' 挂载API路由，前缀: " +:+ prefix);;
          mount_routers api_router_of items' app'
      | None => mount_routers api_router_of items' app
      end
  end.

Definition register_source_routers (api_router_of : capability APIRouter)
    (app : list Mount) : M MetadataSourceManager.t (list Mount) :=
  logger INFO "正在注册元数据源提供的API路由...";;
  self ← get_self;
  mount_routers api_router_of (MetadataSourceManager.sources self) app.
End Routers.

(** A class that [inspect.getmembers(module, inspect.isclass)] lists:
    the attributes the discovery probes, the module it was defined in, and
    what calling it with the session factory and the configuration manager
    produces. *)
Record PluginClass : Type := {
  class_name : string;
  class_provider_name : option string;
  has_search_aliases : bool;
  has_get_details : bool;
  class_module : string;
  instantiate : Database → ConfigManager → outcome Source.t
}.

(** A module that [pkgutil.iter_modules] finds in [metadata_sources]:
    its name and what importing it gives, the classes in it or the
    exception of the import. *)
Record PluginModule : Type := {
  iter_name : string;
  import_module : outcome (list PluginClass)
}.

(** The whole manager object: the fields of [MetadataSourceManager.t] and
    [_source_classes], which only [load_and_sync_sources] uses. *)
Module Registry.
Record t : Type := {
  manager : MetadataSourceManager.t;
  _source_classes : pydict PluginClass
}.
End Registry.

(** A method of the manager, run on the whole object. *)
Definition on_manager {A} (c : M MetadataSourceManager.t A) : M Registry.t A :=
  λ s,
    let r := c (Registry.manager s) in
    Run (value r)
        {| Registry.manager := final r;
           Registry._source_classes := Registry._source_classes s |}
        (trace r).

Definition set_sources (d : pydict Source.t) (m : MetadataSourceManager.t)
    : MetadataSourceManager.t := {|
  MetadataSourceManager._session_factory := MetadataSourceManager._session_factory m;
  MetadataSourceManager._config_manager := MetadataSourceManager._config_manager m;
  MetadataSourceManager.sources := d;
  MetadataSourceManager.source_settings := MetadataSourceManager.source_settings m
|}.

Definition set_source_settings (d : pydict SourceSetting) (m : MetadataSourceManager.t)
    : MetadataSourceManager.t := {|
  MetadataSourceManager._session_factory := MetadataSourceManager._session_factory m;
  MetadataSourceManager._config_manager := MetadataSourceManager._config_manager m;
  MetadataSourceManager.sources := MetadataSourceManager.sources m;
  MetadataSourceManager.source_settings := d
|}.

Definition set_session_factory (db : Database) (m : MetadataSourceManager.t)
    : MetadataSourceManager.t := {|
  MetadataSourceManager._session_factory := db;
  MetadataSourceManager._config_manager := MetadataSourceManager._config_manager m;
  MetadataSourceManager.sources := MetadataSourceManager.sources m;
  MetadataSourceManager.source_settings := MetadataSourceManager.source_settings m
|}.

Definition on_manager_state (f : MetadataSourceManager.t → MetadataSourceManager.t)
    (s : Registry.t) : Registry.t := {|
  Registry.manager := f (Registry.manager s);
  Registry._source_classes := Registry._source_classes s
|}.

Definition set_source_classes (d : pydict PluginClass) (s : Registry.t) : Registry.t := {|
  Registry.manager := Registry.manager s;
  Registry._source_classes := d
|}.

(** The test that recognises a plugin class in the module [module_name]. *)
Definition is_plugin (module_name : string) (obj : PluginClass) : bool :=
  bool_decide (is_Some (class_provider_name obj))
  && has_search_aliases obj && has_get_details obj
  && bool_decide (class_module obj = module_name).

(** The loop over the classes of one imported module. *)
Fixpoint scan_classes (name module_name : string) (members : list PluginClass)
    (discovered_providers : list string) : M Registry.t (list string) :=
  match members with
  | [] => mret discovered_providers
  | obj :: members' =>
      match class_provider_name obj with
      | Some provider_name =>
          if is_plugin module_name obj then
            self ← get_self;
            (if dict_contains provider_name (Registry._source_classes self)
             then logger WARNING ("发现重复的元数据源 '" +:+ provider_name +:+ "'。将被覆盖。")
             else mret tt);;
            modify_self (λ s, set_source_classes
                                (dict_set provider_name obj (Registry._source_classes s)) s);;
            logger INFO ("元数据源 '" +:+ provider_name +:+ "' (来自模块 " +:+ name
                         +:+ ") 已发现。");;
            scan_classes name module_name members' (discovered_providers ++ [provider_name])%list
          else scan_classes name module_name members' discovered_providers
      | None => scan_classes name module_name members' discovered_providers
      end
  end.

(** The loop over the modules, each in its own [try]. *)
Fixpoint discover (modules : list PluginModule) (discovered_providers : list string)
    : M Registry.t (list string) :=
  match modules with
  | [] => mret discovered_providers
  | md :: modules' =>
      let name := iter_name md in
      if String.prefix "_" name || bool_decide (name = "base") then
        discover modules' discovered_providers
      else
        discovered ←
          try_except
            (let module_name := "src.metadata_sources." +:+ name in
             members ← lift (import_module md);
             scan_classes name module_name members discovered_providers)
            (λ e,
               logger ERROR ("从模块 " +:+ name +:+ " 加载元数据源失败: " +:+ exn_str e);;
               mret discovered_providers);
        discover modules' discovered
  end.

(** [{s['providerName']: s for s in settings_list}]. *)
Definition settings_by_name (settings_list : list SourceSetting) : pydict SourceSetting :=
  foldl (λ d s, dict_set (providerName s) s d) [] settings_list.

(** The loop that instantiates the discovered classes. *)
Fixpoint instantiate_all (items : list (string * PluginClass)) : M Registry.t unit :=
  match items with
  | [] => mret tt
  | (provider_name, source_class) :: items' =>
      self ← get_self;
      source_instance ←
        lift (instantiate source_class
                (MetadataSourceManager._session_factory (Registry.manager self))
                (MetadataSourceManager._config_manager (Registry.manager self)));
      modify_self (on_manager_state (λ m,
        set_sources (dict_set provider_name source_instance (MetadataSourceManager.sources m)) m));;
      logger INFO ("已加载元数据源 '" +:+ provider_name +:+ "'。");;
      instantiate_all items'
  end.

(** [load_and_sync_sources].  [modules] is what the scan of the package
    directory finds.  [crud.sync_metadata_sources_to_db] is not part of the
    sources: [sync] gives the database as it is after the call, and the
    session factory then leads to that database. *)
Definition load_and_sync_sources (modules : list PluginModule)
    (sync : Database → list string → outcome Database) : M Registry.t unit :=
  on_manager MetadataSourceManager.close_all;;
  modify_self (on_manager_state (set_sources []));;
  modify_self (set_source_classes []);;
  modify_self (on_manager_state (set_source_settings []));;
  discovered_providers ← discover modules [];
  self ← get_self;
  db ← (emit (DbRead "sync_metadata_sources_to_db");;
        lift (sync (MetadataSourceManager._session_factory (Registry.manager self))
                   discovered_providers));
  modify_self (on_manager_state (set_session_factory db));;
  settings_list ← (emit (DbRead "get_all_metadata_source_settings");;
                   lift (get_all_metadata_source_settings db));
  modify_self (on_manager_state (set_source_settings (settings_by_name settings_list)));;
  self ← get_self;
  instantiate_all (Registry._source_classes self).

(** [initialize]. *)
Definition initialize `{Runtime} (modules : list PluginModule)
    (sync : Database → list string → outcome Database)
    (api_router_of : capability APIRouter) (app : list Mount) : M Registry.t (list Mount) :=
  load_and_sync_sources modules sync;;
  app' ← on_manager (register_source_routers api_router_of app);
  logger INFO "元数据源管理器已初始化。";;
  mret app'.

(** * Vocabulary of the statements *)

Section Vocabulary.
Import MetadataSourceManager.

(** [c] run on [s] returns [a] and leaves [s] as it was. *)
Definition returns {S A} (c : M S A) (s : S) (a : A) : Prop :=
  value (c s) = Returned a ∧ final (c s) = s.

(** [c] run on [s] raises [e]. *)
Definition raises {S A} (c : M S A) (s : S) (e : exn) : Prop :=
  value (c s) = Raised e.

(** The order of two consecutive rows of a sorted status list. *)
Definition displayOrder_le (a b : StatusRow) : Prop :=
  row_displayOrder a ≤ row_displayOrder b.

(** The failure of a routed operation on a name that is not loaded. *)
Definition NotFound (provider : string) : exn :=
  HTTPException 404 ("未找到元数据源: " +:+ provider).

(** The status text that a row gets unless its provider reported a
    string. *)
Definition default_status : string := "检查失败".

Definition status_text_of (status_result : option pyval) : string :=
  match status_result with
  | Some (VStr s) => s
  | _ => default_status
  end.

Definition row_of (status_map : gmap string pyval) (item : string * SourceSetting)
    : StatusRow := {|
  row_providerName := item.1;
  row_isAuxSearchEnabled := default false (isAuxSearchEnabled item.2);
  row_displayOrder := default 99 (displayOrder item.2);
  row_status := status_text_of (status_map !! item.1);
  row_useProxy := default false (useProxy item.2)
|}.

Definition alias_set_of (v : pyval) : option (gset alias) :=
  match v with
  | VSet s => Some s
  | _ => None
  end.

(** The alias set an enabled row contributes: its provider is loaded and
    the call returned a set. *)
Definition successful_alias_set (m : t) (keyword : string) (user : User)
    (row : SourceSetting) : option (gset alias) :=
  match dict_get (providerName row) (sources m) with
  | Some source_instance =>
      match Source.search_aliases source_instance keyword user with
      | Returned (VSet s) => Some s
      | _ => None
      end
  | None => None
  end.

Definition alias_sets_of_successful_calls (m : t) (keyword : string) (user : User)
    (rows : list SourceSetting) : list (gset alias) :=
  omap (successful_alias_set m keyword user) rows.

Definition strip_falsy (s : gset alias) : gset alias :=
  filter (λ a, truthy a = true) s.

Definition alias_task (m : t) (keyword : string) (user : User) (row : SourceSetting)
    : option (outcome pyval) :=
  (λ source_instance, Source.search_aliases source_instance keyword user)
    <$> dict_get (providerName row) (sources m).

(** A computation that never changes [self]. *)
Definition stateless {S A} (c : M S A) : Prop := ∀ s, final (c s) = s.

(** What [search] raises for each exception of its [try] block. *)
Definition search_failure (e : exn) : exn :=
  if is_ValueError e then HTTPException 412 (exn_str e)
  else
    match e with
    | HTTPStatusError _ code _ => HTTPException 503 (TvdbMetadataSource.upstream_detail code)
    | _ => HTTPException 500 "TVDB搜索时发生内部错误。"
    end.

Definition alice : User := {| username := "alice" |}.
Definition a_request : Request := {| request_path := "/api/metadata/tvdb/actions/refresh" |}.

Definition setting_row (name : string) (enabled : bool) (order : Z) : SourceSetting := {|
  providerName := name;
  isAuxSearchEnabled := Some enabled;
  displayOrder := Some order;
  useProxy := Some false;
  use_proxy := None
|}.

(** A source that follows the plugin contract and whose alias search and
    [close] behave as given. *)
Definition plain_source (aliases closing : outcome pyval) : Source.t := {|
  Source.search_aliases := λ _ _, aliases;
  Source.check_connectivity := Returned (VStr "连接成功");
  Source.close := closing;
  Source.search := {|
    qualname := "PlainSource.search";
    params := [TvdbMetadataSource.positional "keyword"; TvdbMetadataSource.positional "user";
               TvdbMetadataSource.optional "mediaType"];
    body := λ _ _ _, Returned (VList []) |};
  Source.get_details := {|
    qualname := "PlainSource.get_details";
    params := [TvdbMetadataSource.positional "item_id"; TvdbMetadataSource.positional "user";
               TvdbMetadataSource.optional "mediaType"];
    body := λ _ _ _, Returned VNone |};
  Source.execute_action := {|
    qualname := "PlainSource.execute_action";
    params := [TvdbMetadataSource.positional "action_name";
               TvdbMetadataSource.positional "payload";
               TvdbMetadataSource.positional "user"; TvdbMetadataSource.positional "request"];
    body := λ _ _ _ _, Returned VNone |}
|}.

Definition no_config : ConfigManager := λ _ dflt, Returned dflt.

Definition manager_of (db : Database) (loaded : pydict Source.t)
    (settings : list SourceSetting) : MetadataSourceManager.t := {|
  MetadataSourceManager._session_factory := db;
  MetadataSourceManager._config_manager := no_config;
  MetadataSourceManager.sources := loaded;
  MetadataSourceManager.source_settings := (λ s, (providerName s, s)) <$> settings
|}.

Definition scenario_rows : list SourceSetting :=
  [setting_row "A" true 1; setting_row "B" false 0].

(** The scenario of the spec: A enabled, B disabled, both loaded, A's alias
    search returning the three entries. *)
Definition scenario_manager : MetadataSourceManager.t :=
  manager_of (database_of_rows scenario_rows)
    [ ("A", plain_source (Returned (VSet {[Some "foo"; Some "Foo"; Some ""]})) (Returned VNone));
      ("B", plain_source (Returned (VSet {[Some "bar"]})) (Returned VNone)) ]
    scenario_rows.

(** One enabled provider whose alias set holds only the empty string. *)
Definition blank_manager : MetadataSourceManager.t :=
  manager_of (database_of_rows [setting_row "A" true 1])
    [("A", plain_source (Returned (VSet {[Some ""]})) (Returned VNone))]
    [setting_row "A" true 1].

(** A manager whose settings read fails. *)
Definition offline_manager : MetadataSourceManager.t :=
  manager_of {| get_enabled_aux_metadata_sources := Raised (RuntimeError "connection refused");
                get_all_metadata_source_settings := Raised (RuntimeError "connection refused") |}
    [] [].

(** A in the settings but not loaded. *)
Definition unloaded_manager : MetadataSourceManager.t :=
  manager_of (database_of_rows scenario_rows)
    [("B", plain_source (Returned (VSet ∅)) (Returned VNone))] scenario_rows.

(** Two loaded providers, the first failing on [close]. *)
Definition closing_manager : MetadataSourceManager.t :=
  manager_of (database_of_rows scenario_rows)
    [ ("A", plain_source (Returned (VSet ∅)) (Raised (RuntimeError "socket already closed")));
      ("B", plain_source (Returned (VSet ∅)) (Returned VNone)) ]
    scenario_rows.

(** The scheme of a URL: the text before its first colon, if any. *)
Fixpoint url_scheme (u : string) : option string :=
  match u with
  | EmptyString => None
  | String c u' =>
      if bool_decide (Ascii.nat_of_ascii c = 58%nat) then Some EmptyString else String c <$> url_scheme u'
  end.

(** The constructor of the client on the proxies of the examples: a proxy
    URL is accepted if its scheme is one of those httpx knows. *)
Definition proxy_scheme_error (proxy : option string) : option exn :=
  match proxy with
  | Some u =>
      if bool_decide (lower (default "" (url_scheme u)) ∈ ["http"; "https"; "socks5"; "socks5h"])
      then None
      else Some (ValueError ("Unknown scheme for proxy URL URL('" +:+ u +:+ "')"))
  | None => None
  end.

(** Case mappings on the ASCII letters and, in UTF-8, on the letters of
    Latin-1 that change case within Latin-1 (à to þ, without the division
    sign). *)
Fixpoint latin_lower (after_c3 : bool) (s : string) : string :=
  match s with
  | EmptyString => EmptyString
  | String c s' =>
      let n := Ascii.nat_of_ascii c in
      if after_c3 && (128 <=? n)%nat && (n <=? 158)%nat && negb (n =? 151)%nat
      then String (Ascii.ascii_of_nat (n + 32)) (latin_lower false s')
      else String (ascii_lower c) (latin_lower (n =? 195)%nat s')
  end.

Definition latin_capitalize (s : string) : string :=
  match s with
  | EmptyString => EmptyString
  | String c s' =>
      let k := Ascii.nat_of_ascii c in
      if (k =? 195)%nat then
        match s' with
        | EmptyString => s
        | String d s'' =>
            let n := Ascii.nat_of_ascii d in
            String c (String (if (160 <=? n)%nat && (n <=? 190)%nat && negb (n =? 183)%nat
                              then Ascii.ascii_of_nat (n - 32) else d)
                             (latin_lower false s''))
        end
      else
        String (if ((97 <=? k) && (k <=? 122))%nat then Ascii.ascii_of_nat (k - 32) else c)
               (latin_lower false s')
  end.

(** A runtime for the examples: [str()] on the scalars, a model that
    accepts every record, a client constructor that checks the scheme of
    the proxy, and [capitalize] on ASCII and Latin-1 letters. *)
Definition plain_runtime : Runtime := {|
  py_str := λ j,
    match j with
    | JStr s => s
    | JInt z => pretty z
    | JFloat r => r
    | JBool true => "True"
    | JBool false => "False"
    | _ => "None"
    end;
  new_MetadataDetailsResponse := Returned;
  AsyncClient_error := λ _ _ proxy, proxy_scheme_error proxy;
  str_capitalize := latin_capitalize
|}.

Definition a_response (code : Z) (decoded : outcome json) : TvdbMetadataSource.Response := {|
  TvdbMetadataSource.status_code := code;
  TvdbMetadataSource.reason_phrase :=
    if code =? 200 then "OK" else if code =? 401 then "Unauthorized"
    else if code =? 404 then "Not Found" else "";
  TvdbMetadataSource.url := "https://api4.thetvdb.com/v4/search";
  TvdbMetadataSource.location := None;
  TvdbMetadataSource.body_json := decoded
|}.

(** A TVDB instance with the given API key and upstream answer. *)
Definition tvdb_instance (api_key : string)
    (answer : outcome TvdbMetadataSource.Response) : TvdbMetadataSource.t := {|
  TvdbMetadataSource.config_manager := λ key dflt,
    Returned (if bool_decide (key = "tvdbApiKey") then api_key else dflt);
  TvdbMetadataSource._session_factory := database_of_rows [setting_row "tvdb" true 1];
  TvdbMetadataSource.http_get := λ _ _ _, answer;
  TvdbMetadataSource.close := Returned VNone
|}.

(** An upstream that answers 200 with a body that is not JSON. *)
Definition tvdb_not_json : TvdbMetadataSource.t :=
  tvdb_instance "secret" (Returned (a_response 200 (Raised (JSONDecodeError "Expecting value")))).

Definition tvdb_unconfigured : TvdbMetadataSource.t :=
  tvdb_instance "" (Returned (a_response 200 (Returned (JDict [])))).

(** A TVDB instance whose proxy is switched on with a URL of a scheme
    that the client does not know; the upstream would answer 200. *)
Definition tvdb_bad_proxy : TvdbMetadataSource.t := {|
  TvdbMetadataSource.config_manager := λ key dflt,
    Returned (if bool_decide (key = "tvdbApiKey") then "secret"
              else if bool_decide (key = "proxy_url") then "ftp://bad"
              else if bool_decide (key = "proxy_enabled") then "true"
              else dflt);
  TvdbMetadataSource._session_factory :=
    database_of_rows [ {| providerName := "tvdb";
                          isAuxSearchEnabled := Some true;
                          displayOrder := Some 1;
                          useProxy := Some true;
                          use_proxy := Some true |} ];
  TvdbMetadataSource.http_get := λ _ _ _, Returned (a_response 200 (Returned (JDict [])));
  TvdbMetadataSource.close := Returned VNone
|}.

Definition tvdb_manager : MetadataSourceManager.t :=
  manager_of (database_of_rows [setting_row "tvdb" true 1])
    [("tvdb", @TvdbMetadataSource.as_source plain_runtime tvdb_not_json)]
    [setting_row "tvdb" true 1].

(** [c] run on [s] returns [a], leaves the state [s'] and the trace [tr]. *)
Definition runs {S A} (c : M S A) (s : S) (a : A) (s' : S) (tr : list event) : Prop :=
  c s = Run (Returned a) s' tr.

(** [c] run on [s] raises [e], leaving the state [s'] and the trace [tr]. *)
Definition fails {S A} (c : M S A) (s : S) (e : exn) (s' : S) (tr : list event) : Prop :=
  c s = Run (Raised e) s' tr.

Definition is_logged (ev : event) : bool :=
  match ev with
  | Logged _ _ => true
  | _ => false
  end.

(** What [asyncio.gather] hands back for the connectivity check of the
    source loaded as [p], if one is loaded. *)
Definition connectivity_result (m : t) (p : string) : option pyval :=
  (λ source_instance,
     match Source.check_connectivity source_instance with
     | Returned v => v
     | Raised e => VExc e
     end) <$> dict_get p (sources m).

(** The events of the task loop of the alias search for one enabled row. *)
Definition alias_task_events (m : t) (row : SourceSetting) : list event :=
  match dict_get (providerName row) (sources m) with
  | Some _ => [Invoked (providerName row) "search_aliases"]
  | None =>
      [Logged WARNING ("已启用的元数据源 '" +:+ providerName row
                       +:+ "' 未被成功加载，跳过别名搜索。")]
  end.

(** The configuration that [getProviderConfig] assembles from the keys of
    a table entry and the stored values [f]: a single entry [value] for the
    single-value providers, one entry per key for the others. *)
Definition provider_config (provider : string) (keys : list string) (f : string → string)
    : pydict string :=
  if bool_decide (provider ∈ ["douban"; "tvdb"]) then [("value", default "" (f <$> head keys))]
  else (λ k, (k, f k)) <$> keys.

(** The mount that [register_source_routers] adds for a loaded source, if
    the source has a router. *)
Definition mount_of `{Runtime} (api_router_of : capability APIRouter)
    (item : string * Source.t)
    : option Mount :=
  (λ api_router,
     {| mount_router := api_router;
        mount_prefix := "/api/metadata/" +:+ item.1;
        mount_tags := ["Metadata - " +:+ str_capitalize item.1] |})
    <$> api_router_of item.2.

(** The plugin classes of the members of a module, with their provider
    names. *)
Definition plugins_in (module_name : string) (members : list PluginClass)
    : list (string * PluginClass) :=
  omap (λ obj, if is_plugin module_name obj
               then (λ p, (p, obj)) <$> class_provider_name obj else None) members.

(** The plugin classes a module contributes: none if its name starts with
    an underscore or is [base], none if its import raises. *)
Definition plugins_of (md : PluginModule) : list (string * PluginClass) :=
  if String.prefix "_" (iter_name md) || bool_decide (iter_name md = "base") then []
  else
    match import_module md with
    | Returned members => plugins_in ("src.metadata_sources." +:+ iter_name md) members
    | Raised _ => []
    end.

(** All discovered plugin classes, in the order of discovery. *)
Definition discovered_plugins (modules : list PluginModule) : list (string * PluginClass) :=
  concat (plugins_of <$> modules).

(** A dictionary filled by one assignment per pair. *)
Definition dict_of_assignments {V} (d : pydict V) (pairs : list (string * V)) : pydict V :=
  foldl (λ d kv, dict_set kv.1 kv.2 d) d pairs.

(** The manager object after a reload that went through. *)
Definition reloaded (s : Registry.t) (db : Database) (settings_list : list SourceSetting)
    (plugins : list (string * PluginClass)) (inst : PluginClass → Source.t) : Registry.t := {|
  Registry.manager := {|
    _session_factory := db;
    _config_manager := _config_manager (Registry.manager s);
    sources := (λ kv, (kv.1, inst kv.2)) <$> dict_of_assignments [] plugins;
    source_settings := settings_by_name settings_list
  |};
  Registry._source_classes := dict_of_assignments [] plugins
|}.

(** The manager object after a reload that stopped at the database. *)
Definition emptied (s : Registry.t) (plugins : list (string * PluginClass)) : Registry.t := {|
  Registry.manager := {|
    _session_factory := _session_factory (Registry.manager s);
    _config_manager := _config_manager (Registry.manager s);
    sources := [];
    source_settings := []
  |};
  Registry._source_classes := dict_of_assignments [] plugins
|}.

Definition is_invoked (ev : event) : bool :=
  match ev with
  | Invoked _ _ => true
  | _ => false
  end.

(** An item of the upstream search answer that [search] keeps: a
    dictionary whose [type] is the string [series]. *)
Definition is_series (item : json) : bool :=
  match py_get item "type" JNull with
  | Returned ty => json_is_str ty "series"
  | Raised _ => false
  end.

(** An entry of [remoteIds] whose [sourceName] is the string [IMDB]. *)
Definition is_imdb (rid : json) : bool :=
  match py_get rid "sourceName" JNull with
  | Returned name => json_is_str name "IMDB"
  | Raised _ => false
  end.

Definition is_dict (j : json) : bool :=
  match j with
  | JDict _ => true
  | _ => false
  end.

(** The [id] of the first IMDB entry among the remote ids, [None] if there
    is no such entry. *)
Definition imdb_of (rids : list json) : json :=
  match List.find is_imdb rids with
  | Some (JDict entry) => default JNull (dict_get "id" entry)
  | _ => JNull
  end.

(** A configuration store that cannot be read. *)
Definition broken_config : ConfigManager := λ _ _, Raised (RuntimeError "config store down").

Definition broken_config_manager : MetadataSourceManager.t := {|
  _session_factory := database_of_rows [setting_row "tvdb" true 1];
  _config_manager := broken_config;
  sources := [("tvdb", plain_source (Returned (VSet ∅)) (Returned VNone))];
  source_settings := [("tvdb", setting_row "tvdb" true 1)]
|}.

(** A source with a connectivity check that raises. *)
Definition unreachable_source : Source.t := {|
  Source.search_aliases := λ _ _, Returned (VSet ∅);
  Source.check_connectivity := Raised (TransportError "connection refused");
  Source.close := Returned VNone;
  Source.search := Source.search (plain_source (Returned (VSet ∅)) (Returned VNone));
  Source.get_details := Source.get_details (plain_source (Returned (VSet ∅)) (Returned VNone));
  Source.execute_action :=
    Source.execute_action (plain_source (Returned (VSet ∅)) (Returned VNone))
|}.

Definition unreachable_manager : MetadataSourceManager.t :=
  manager_of (database_of_rows scenario_rows)
    [("A", unreachable_source); ("B", plain_source (Returned (VSet ∅)) (Returned VNone))]
    scenario_rows.

(** The classes and modules of a small plugin directory: the TVDB module,
    which also lists the base class it imports, a module whose import
    fails, the template module and a private module. *)
Definition tvdb_class : PluginClass := {|
  class_name := "TvdbMetadataSource";
  class_provider_name := Some "tvdb";
  has_search_aliases := true;
  has_get_details := true;
  class_module := "src.metadata_sources.tvdb";
  instantiate := λ _ _, Returned (plain_source (Returned (VSet ∅)) (Returned VNone))
|}.

Definition base_class : PluginClass := {|
  class_name := "BaseMetadataSource";
  class_provider_name := None;
  has_search_aliases := true;
  has_get_details := true;
  class_module := "src.metadata_sources.base";
  instantiate := λ _ _, Raised (TypeError "Can't instantiate abstract class")
|}.

Definition tvdb_module : PluginModule :=
  {| iter_name := "tvdb"; import_module := Returned [base_class; tvdb_class] |}.
Definition broken_module : PluginModule :=
  {| iter_name := "douban";
     import_module := Raised (RuntimeError "No module named 'lxml'") |}.
Definition base_module : PluginModule :=
  {| iter_name := "base"; import_module := Returned [base_class] |}.

(** A second module whose class declares the provider name of the TVDB
    source, and the instances of the classes of the directory. *)
Definition mirror_class : PluginClass := {|
  class_name := "TvdbMirrorSource";
  class_provider_name := Some "tvdb";
  has_search_aliases := true;
  has_get_details := true;
  class_module := "src.metadata_sources.tvdb_mirror";
  instantiate := λ _ _, Returned unreachable_source
|}.

Definition mirror_module : PluginModule :=
  {| iter_name := "tvdb_mirror"; import_module := Returned [mirror_class] |}.

Definition instance_of (c : PluginClass) : Source.t :=
  if bool_decide (class_name c = "TvdbMirrorSource") then unreachable_source
  else plain_source (Returned (VSet ∅)) (Returned VNone).

(** A synchronisation that leaves one default row per discovered name. *)
Definition sync_defaults (db : Database) (names : list string) : outcome Database :=
  Returned (database_of_rows ((λ name, setting_row name false 99) <$> names)).

Definition sync_offline (db : Database) (names : list string) : outcome Database :=
  Raised (RuntimeError "connection refused").

Definition a_registry : Registry.t :=
  {| Registry.manager := closing_manager; Registry._source_classes := [] |}.

Definition a_client : TvdbMetadataSource.AsyncClient := {|
  TvdbMetadataSource.base_url := "https://api4.thetvdb.com/v4";
  TvdbMetadataSource.headers := [("Authorization", "Bearer secret")];
  TvdbMetadataSource.proxy := None
|}.

(** An upstream search answer with one series and one movie. *)
Definition search_answer : json :=
  JDict [("data", JList [ JDict [("type", JStr "series"); ("tvdb_id", JStr "121361");
                                 ("name", JStr "Game of Thrones"); ("year", JStr "2011")];
                          JDict [("type", JStr "movie"); ("name", JStr "Dune")] ])].

Definition tvdb_searching : TvdbMetadataSource.t :=
  tvdb_instance "secret" (Returned (a_response 200 (Returned search_answer))).

Definition tvdb_empty_answer : TvdbMetadataSource.t :=
  tvdb_instance "secret" (Returned (a_response 200 (Returned (JDict [])))).

(** An upstream details answer with two remote ids. *)
Definition series_details : list (string * json) :=
  [ ("id", JInt 121361); ("name", JStr "Game of Thrones");
    ("remoteIds", JList [ JDict [("id", JStr "1399"); ("sourceName", JStr "TheMovieDB.com")];
                          JDict [("id", JStr "tt0944947"); ("sourceName", JStr "IMDB")] ]) ].

Definition tvdb_detailing : TvdbMetadataSource.t :=
  tvdb_instance "secret"
    (Returned (a_response 200 (Returned (JDict [("data", JDict series_details)])))).

End Vocabulary.

Ltac by_decide := apply (bool_decide_unpack _); vm_compute; exact I.

(** * Properties *)

(** ** The monad *)

Lemma bind_run {S A B} (c : M S A) (k : A → M S B) (s : S) :
  (c ≫= k) s =
    match value (c s) with
    | Returned a =>
        Run (value (k a (final (c s)))) (final (k a (final (c s))))
            (trace (c s) ++ trace (k a (final (c s))))
    | Raised e => Run (Raised e) (final (c s)) (trace (c s))
    end.
Proof. reflexivity. Qed.

Lemma returns_bind {S A B} (c : M S A) (k : A → M S B) (s : S) a b :
  returns c s a → returns (k a) s b → returns (c ≫= k) s b.
Proof. intros [Hv Hf] [Hkv Hkf]. unfold returns. by rewrite bind_run, Hv, Hf. Qed.

Lemma raises_bind_l {S A B} (c : M S A) (k : A → M S B) (s : S) e :
  raises c s e → raises (c ≫= k) s e.
Proof. intros Hc. unfold raises. by rewrite bind_run, Hc. Qed.

Lemma raises_bind_r {S A B} (c : M S A) (k : A → M S B) (s : S) a e :
  returns c s a → raises (k a) s e → raises (c ≫= k) s e.
Proof. intros [Hv Hf] Hk. unfold raises. by rewrite bind_run, Hv, Hf. Qed.

Lemma returns_mret {S A} (s : S) (a : A) : returns (mret a) s a.
Proof. done. Qed.

Lemma returns_get_self {S} (s : S) : returns get_self s s.
Proof. done. Qed.

Lemma returns_emit {S} (s : S) ev : returns (emit ev) s tt.
Proof. done. Qed.

Lemma returns_logger {S} (s : S) lv msg : returns (logger lv msg) s tt.
Proof. done. Qed.

Lemma returns_lift {S A} (s : S) (o : outcome A) a : o = Returned a → returns (lift o) s a.
Proof. by intros ->. Qed.

Lemma raises_lift {S A} (s : S) (o : outcome A) e : o = Raised e → raises (lift o) s e.
Proof. by intros ->. Qed.

Lemma raises_raise {S A} (s : S) e : raises (@raise S A e) s e.
Proof. done. Qed.

Lemma returns_config_get {S} (s : S) (cm : ConfigManager) key dflt v :
  cm key dflt = Returned v → returns (config_get cm key dflt) s v.
Proof.
  intros Hcm. eapply returns_bind; [apply returns_emit|]. by apply returns_lift.
Qed.

Lemma raises_config_get {S} (s : S) (cm : ConfigManager) key dflt e :
  cm key dflt = Raised e → raises (config_get cm key dflt) s e.
Proof.
  intros Hcm. eapply raises_bind_r; [apply returns_emit|]. by apply raises_lift.
Qed.

(** A [try] whose block returns, and one whose block raises. *)
Lemma try_except_returned {S A} (c : M S A) (h : exn → M S A) (s : S) a :
  value (c s) = Returned a → value (try_except c h s) = Returned a.
Proof. intros Hc. unfold try_except. by rewrite Hc. Qed.

Lemma try_except_raised {S A} (c : M S A) (h : exn → M S A) (s : S) e :
  value (c s) = Raised e → value (try_except c h s) = value (h e (final (c s))).
Proof. intros Hc. unfold try_except. by rewrite Hc. Qed.

(** A loop whose body returns and leaves [self] alone. *)
Lemma collect_pure {S A B} (l : list A) (body : A → M S (option B))
    (f : A → option B) (s : S) :
  (∀ x, x ∈ l → returns (body x) s (f x)) →
  returns (collect l body) s (omap f l).
Proof.
  induction l as [|x l IH]; intros Hbody; [done|].
  cbn [collect]. eapply returns_bind; [apply Hbody; left|].
  eapply returns_bind; [apply IH; intros y Hy; apply Hbody; by right|].
  cbn. destruct (f x); apply returns_mret.
Qed.

(** ** Dictionaries *)

Lemma dict_get_None {V} (k : string) (d : pydict V) :
  dict_get k d = None ↔ k ∉ dict_keys d.
Proof.
  induction d as [|[k' v] d IH]; cbn.
  - split; [intros _; apply not_elem_of_nil | done].
  - rewrite not_elem_of_cons. destruct (decide (k = k')) as [->|Hne].
    + split; [done | by intros [? _]].
    + rewrite IH. tauto.
Qed.

Lemma dict_get_is_Some {V} (k : string) (d : pydict V) :
  is_Some (dict_get k d) ↔ k ∈ dict_keys d.
Proof.
  rewrite <- not_eq_None_Some, dict_get_None.
  destruct (decide (k ∈ dict_keys d)); tauto.
Qed.

Lemma dict_contains_true {V} (k : string) (d : pydict V) :
  dict_contains k d = true ↔ k ∈ dict_keys d.
Proof.
  unfold dict_contains. rewrite <- dict_get_is_Some.
  split; [apply bool_decide_eq_true_1 | apply bool_decide_eq_true_2].
Qed.

Lemma dict_of_pairs_None {V} (pairs : list (string * V)) (k : string) :
  k ∉ pairs.*1 → dict_of_pairs pairs !! k = None.
Proof.
  unfold dict_of_pairs.
  assert (∀ acc : gmap string V, acc !! k = None → k ∉ pairs.*1 →
            foldl (λ acc kv, <[kv.1 := kv.2]> acc) acc pairs !! k = None) as Hgen.
  { induction pairs as [|[k' v] pairs IH]; intros acc Hacc Hk; [done|].
    cbn in *. apply not_elem_of_cons in Hk as [Hne Hk].
    apply IH; [|done]. by rewrite lookup_insert_ne. }
  apply Hgen, lookup_empty.
Qed.

Lemma zip_keys_subseteq {A B} (ks : list A) (vs : list B) (k : A) :
  k ∈ (zip ks vs).*1 → k ∈ ks.
Proof.
  revert vs. induction ks as [|k' ks IH]; intros [|v vs]; cbn; try done.
  - intros Hin; by apply elem_of_nil in Hin.
  - rewrite !elem_of_cons. intros [->|Hin]; [by left | right; by eapply IH].
Qed.

(** ** Sorting by [displayOrder] *)

Section Sorting.
Import MetadataSourceManager.

Lemma insert_by_key_perm x l : insert_by_key x l ≡ₚ x :: l.
Proof.
  induction l as [|y l IH]; cbn; [done|].
  destruct (row_displayOrder x <=? row_displayOrder y); [done|].
  rewrite IH. apply perm_swap.
Qed.

Lemma insert_by_key_hd x l a :
  displayOrder_le a x → HdRel displayOrder_le a l →
  HdRel displayOrder_le a (insert_by_key x l).
Proof.
  intros Hax Hal. destruct l as [|y l]; cbn; [by constructor|].
  destruct (row_displayOrder x <=? row_displayOrder y); constructor; [done|].
  by inversion Hal.
Qed.

Lemma insert_by_key_sorted x l :
  Sorted displayOrder_le l → Sorted displayOrder_le (insert_by_key x l).
Proof.
  induction 1 as [|y l Hs IH Hhd]; cbn; [by repeat constructor|].
  destruct (Z.leb_spec (row_displayOrder x) (row_displayOrder y)) as [Hle|Hgt].
  - constructor; [by constructor|]. by constructor.
  - constructor; [done|]. apply insert_by_key_hd; [|done].
    unfold displayOrder_le. lia.
Qed.

Lemma sorted_by_displayOrder_sorted rows :
  Sorted displayOrder_le (sorted_by_displayOrder rows).
Proof.
  induction rows as [|x rows IH]; cbn; [constructor|].
  by apply insert_by_key_sorted.
Qed.

Lemma sorted_by_displayOrder_perm rows : sorted_by_displayOrder rows ≡ₚ rows.
Proof.
  induction rows as [|x rows IH]; cbn; [done|].
  by rewrite insert_by_key_perm, IH.
Qed.

(** The sort is stable: rows of one [displayOrder] keep their order. *)
Lemma insert_by_key_filter x l k :
  Sorted displayOrder_le l →
  filter (λ r, row_displayOrder r = k) (insert_by_key x l) =
  filter (λ r, row_displayOrder r = k) (x :: l).
Proof.
  induction 1 as [|y l Hs IH Hhd]; cbn; [done|].
  destruct (Z.leb_spec (row_displayOrder x) (row_displayOrder y)) as [Hle|Hgt]; [done|].
  rewrite !filter_cons in *.
  destruct (decide (row_displayOrder y = k)), (decide (row_displayOrder x = k));
    try lia; by rewrite IH.
Qed.

Lemma sorted_by_displayOrder_stable rows k :
  filter (λ r, row_displayOrder r = k) (sorted_by_displayOrder rows) =
  filter (λ r, row_displayOrder r = k) rows.
Proof.
  induction rows as [|x rows IH]; [done|].
  change (sorted_by_displayOrder (x :: rows))
    with (insert_by_key x (sorted_by_displayOrder rows)).
  rewrite insert_by_key_filter by apply sorted_by_displayOrder_sorted.
  by rewrite !filter_cons, IH.
Qed.
End Sorting.

(** ** Routed operations on a name that is not loaded *)

Section Manager.
Import MetadataSourceManager.

(** C2. For a provider name that is not a key of the loaded sources,
    [search], [get_details] and [execute_action] each raise the 404
    [HTTPException]; the trace is empty, so no operation of any provider
    was invoked, and the manager is unchanged. *)
Theorem C2_unknown_provider_not_found (m : t) (provider keyword item_id action_name : string)
    (payload : Payload) (user : User) (mediaType : option string) (request : Request) :
  provider ∉ dict_keys (sources m) →
  search provider keyword user mediaType m = Run (Raised (NotFound provider)) m []
  ∧ get_details provider item_id user mediaType m = Run (Raised (NotFound provider)) m []
  ∧ execute_action provider action_name payload user request m
      = Run (Raised (NotFound provider)) m [].
Proof.
  intros Hnot%dict_get_None.
  unfold search, get_details, execute_action.
  rewrite !bind_run. cbn. rewrite Hnot. done.
Qed.

(** C9. For a provider name that is not a key of the loaded sources,
    [getProviderConfig] raises the 404 [HTTPException], whether or not
    the name is in the configuration-key table; nothing is logged and no
    configuration key is read. *)
Theorem C9_getProviderConfig_not_loaded (m : t) (provider : string) :
  provider ∉ dict_keys (sources m) →
  getProviderConfig provider m = Run (Raised (NotFound provider)) m [].
Proof.
  intros Hnot. unfold getProviderConfig. rewrite bind_run. cbn.
  destruct (dict_contains provider (sources m)) eqn:Hc; [|done].
  by apply dict_contains_true in Hc.
Qed.

(** C8, as amended. For a provider name that is loaded and is not a key
    of the configuration-key table, [getProviderConfig] returns the empty
    dictionary and logs one warning; nothing else happens. *)
Theorem C8_getProviderConfig_outside_table (m : t) (provider : string) :
  provider ∈ dict_keys (sources m) →
  provider ∉ dict_keys config_keys_map →
  getProviderConfig provider m =
    Run (Returned []) m
        [Logged WARNING ("提供商 '" +:+ provider +:+ "' 已加载，但没有定义的配置键。")].
Proof.
  intros Hin%dict_contains_true Hnot%dict_get_None.
  unfold getProviderConfig. rewrite bind_run.
  cbn [get_self value final trace]. rewrite Hin. cbn [negb]. rewrite Hnot. done.
Qed.
End Manager.

(** ** [get_sources_with_status] *)

Section Status.
Import MetadataSourceManager.

Lemma omap_Some_map {A B} (g : A → B) (l : list A) : omap (λ x, Some (g x)) l = g <$> l.
Proof. induction l as [|x l IH]; cbn; [done|]. by rewrite IH. Qed.

Lemma status_row_pure status_map (item : string * SourceSetting) (m : t) :
  returns (status_row status_map item.1 item.2) m (Some (row_of status_map item)).
Proof.
  unfold returns, status_row, row_of, status_text_of.
  destruct (status_map !! item.1) as [[]|]; done.
Qed.

Lemma connectivity_tasks_pure (m : t) :
  returns (connectivity_tasks m (dict_keys (sources m))) m
    (omap (λ name, Source.check_connectivity <$> dict_get name (sources m))
          (dict_keys (sources m))).
Proof.
  unfold connectivity_tasks.
  apply (collect_pure _ _
           (λ name, Source.check_connectivity <$> dict_get name (sources m))).
  intros name [inst Hinst]%dict_get_is_Some. rewrite Hinst.
  eapply returns_bind; [apply returns_emit | apply returns_mret].
Qed.

Lemma dict_of_pairs_zip_fmap {V} (h : string → V) (ks : list string) (p : string) :
  dict_of_pairs (zip ks (h <$> ks)) !! p = if decide (p ∈ ks) then Some (h p) else None.
Proof.
  unfold dict_of_pairs.
  assert (∀ acc : gmap string V,
            foldl (λ acc kv, <[kv.1 := kv.2]> acc) acc (zip ks (h <$> ks)) !! p
            = if decide (p ∈ ks) then Some (h p) else acc !! p) as Hgen.
  { induction ks as [|k ks IH]; intros acc; cbn.
    - destruct (decide (p ∈ [])) as [Hin|]; [by apply elem_of_nil in Hin | done].
    - rewrite IH. destruct (decide (p ∈ ks)) as [Hin|Hnin].
      + rewrite decide_True; [done | by right].
      + destruct (decide (p = k)) as [->|Hne].
        * rewrite decide_True by left. cbn. by rewrite lookup_insert_eq.
        * rewrite decide_False by (rewrite elem_of_cons; tauto).
          cbn. by rewrite lookup_insert_ne. }
  rewrite Hgen. by rewrite lookup_empty.
Qed.

Lemma gathered_connectivity (m : t) (ks : list string) :
  Forall (λ k, k ∈ dict_keys (sources m)) ks →
  gather_return_exceptions
    (omap (λ name, Source.check_connectivity <$> dict_get name (sources m)) ks)
  = (λ k, default VNone (connectivity_result m k)) <$> ks.
Proof.
  induction 1 as [|k ks Hk _ IH]; [done|].
  apply dict_get_is_Some in Hk as [inst Hinst].
  rewrite fmap_cons, <- IH. unfold connectivity_result. cbn. by rewrite Hinst.
Qed.

Lemma get_sources_with_status_value (m : t) :
  ∃ status_map : gmap string pyval,
    (∀ p, status_map !! p = connectivity_result m p)
    ∧ returns get_sources_with_status m
        (sorted_by_displayOrder (row_of status_map <$> source_settings m)).
Proof.
  exists (dict_of_pairs (zip (dict_keys (sources m))
            (gather_return_exceptions
               (omap (λ name, Source.check_connectivity <$> dict_get name (sources m))
                     (dict_keys (sources m)))))).
  split.
  - intros p. rewrite gathered_connectivity by (by apply Forall_forall).
    rewrite dict_of_pairs_zip_fmap. unfold connectivity_result.
    destruct (decide (p ∈ dict_keys (sources m))) as [[inst Hinst]%dict_get_is_Some|Hnot].
    + by rewrite Hinst.
    + apply dict_get_None in Hnot. by rewrite Hnot.
  - unfold get_sources_with_status.
    eapply returns_bind; [apply returns_get_self|].
    eapply returns_bind; [apply connectivity_tasks_pure|].
    set (status_map := dict_of_pairs _).
    eapply returns_bind.
    + apply (collect_pure _ _ (λ item, Some (row_of status_map item))).
      intros item _. apply status_row_pure.
    + rewrite omap_Some_map. apply returns_mret.
Qed.

(** C3. [get_sources_with_status] returns a list; the list is sorted
    non-decreasing by [displayOrder]; its rows are, up to their order, the
    rows built from the entries of the settings cache, one per entry,
    loaded or not: each carries the name of its entry, the persisted
    [isAuxSearchEnabled], [displayOrder] and [useProxy] of the entry (with
    the defaults [False], 99 and [False]) and the status text computed from
    the connectivity check of the source loaded under that name.  So the
    provider names of the rows are those of the settings cache; and for an
    entry whose name is not loaded, the row built from that entry carries
    the default status text. *)
Theorem C3_status_rows_sorted_and_complete (m : t) :
  ∃ rows,
    value (get_sources_with_status m) = Returned rows
    ∧ Sorted displayOrder_le rows
    ∧ rows ≡ₚ (λ item : string * SourceSetting,
                 {| row_providerName := item.1;
                    row_isAuxSearchEnabled := default false (isAuxSearchEnabled item.2);
                    row_displayOrder := default 99 (displayOrder item.2);
                    row_status := status_text_of (connectivity_result m item.1);
                    row_useProxy := default false (useProxy item.2) |})
              <$> source_settings m
    ∧ row_providerName <$> rows ≡ₚ dict_keys (source_settings m)
    ∧ ∀ p setting,
        (p, setting) ∈ source_settings m → p ∉ dict_keys (sources m) →
        {| row_providerName := p;
           row_isAuxSearchEnabled := default false (isAuxSearchEnabled setting);
           row_displayOrder := default 99 (displayOrder setting);
           row_status := default_status;
           row_useProxy := default false (useProxy setting) |} ∈ rows.
Proof.
  destruct (get_sources_with_status_value m) as (status_map & Hmap & Hval & _).
  eexists. split; [exact Hval|]. split; [apply sorted_by_displayOrder_sorted|].
  split; [|split].
  - rewrite sorted_by_displayOrder_perm.
    assert (row_of status_map <$> source_settings m
            = (λ item : string * SourceSetting,
                 {| row_providerName := item.1;
                    row_isAuxSearchEnabled := default false (isAuxSearchEnabled item.2);
                    row_displayOrder := default 99 (displayOrder item.2);
                    row_status := status_text_of (connectivity_result m item.1);
                    row_useProxy := default false (useProxy item.2) |})
              <$> source_settings m) as ->; [|done].
    apply list_fmap_ext. intros i item _. unfold row_of. by rewrite Hmap.
  - rewrite sorted_by_displayOrder_perm. unfold dict_keys.
    by rewrite <- list_fmap_compose.
  - intros p setting Hin Hnot.
    rewrite sorted_by_displayOrder_perm.
    apply list_elem_of_fmap. exists (p, setting). split; [|done].
    unfold row_of, status_text_of. cbn. rewrite Hmap. unfold connectivity_result.
    apply dict_get_None in Hnot. by rewrite Hnot.
Qed.
End Status.

(** ** [search_aliases_from_enabled_sources] *)

Section Aliases.
Import MetadataSourceManager.

Lemma strip_falsy_empty : strip_falsy ∅ = ∅.
Proof. unfold strip_falsy. apply leibniz_equiv. set_solver. Qed.

Lemma alias_tasks_pure (m : t) keyword user rows :
  returns (alias_tasks m keyword user rows) m (omap (alias_task m keyword user) rows).
Proof.
  apply collect_pure. intros row _. unfold alias_task.
  destruct (dict_get (providerName row) (sources m)); cbn.
  - eapply returns_bind; [apply returns_emit | apply returns_mret].
  - eapply returns_bind; [apply returns_logger | apply returns_mret].
Qed.

Lemma merge_aliases_pure (m : t) results acc :
  returns (merge_aliases results acc) m (acc ∪ ⋃ omap alias_set_of results).
Proof.
  revert acc. induction results as [|v results IH]; intros acc.
  - cbn. rewrite (right_id_L ∅ (∪)). apply returns_mret.
  - destruct v as [| | s | | | |e]; cbn.
    3: rewrite (assoc_L (∪)).
    1-6: apply IH.
    eapply returns_bind; [apply returns_logger | apply IH].
Qed.

Lemma gathered_alias_sets (m : t) keyword user rows :
  omap alias_set_of (gather_return_exceptions (omap (alias_task m keyword user) rows))
  = alias_sets_of_successful_calls m keyword user rows.
Proof.
  induction rows as [|row rows IH]; [done|].
  unfold alias_sets_of_successful_calls in *. cbn.
  unfold successful_alias_set, alias_task at 1.
  destruct (dict_get (providerName row) (sources m)) as [inst|]; cbn; [|exact IH].
  destruct (Source.search_aliases inst keyword user) as [[]|]; cbn;
    first [exact IH | f_equal; exact IH].
Qed.

Lemma search_aliases_returns (m : t) keyword user rows :
  get_enabled_aux_metadata_sources (_session_factory m) = Returned rows →
  returns (search_aliases_from_enabled_sources keyword user) m
    (strip_falsy (⋃ alias_sets_of_successful_calls m keyword user rows)).
Proof.
  intros Hdb. unfold search_aliases_from_enabled_sources.
  eapply returns_bind; [apply returns_get_self|].
  eapply returns_bind.
  { eapply returns_bind; [apply returns_emit | apply returns_lift, Hdb]. }
  eapply returns_bind; [apply alias_tasks_pure|].
  rewrite <- gathered_alias_sets.
  destruct (omap (alias_task m keyword user) rows) as [|task tasks].
  { cbn. rewrite strip_falsy_empty. apply returns_mret. }
  eapply returns_bind; [apply merge_aliases_pure|].
  rewrite (left_id_L ∅ (∪)). apply returns_mret.
Qed.

Lemma search_aliases_db_failure (m : t) keyword user e :
  get_enabled_aux_metadata_sources (_session_factory m) = Raised e →
  raises (search_aliases_from_enabled_sources keyword user) m e.
Proof.
  intros Hdb. unfold search_aliases_from_enabled_sources.
  eapply raises_bind_r; [apply returns_get_self|].
  apply raises_bind_l.
  eapply raises_bind_r; [apply returns_emit | apply raises_lift, Hdb].
Qed.

Lemma strip_falsy_truthy (s : gset alias) (a : alias) : a ∈ strip_falsy s → truthy a = true.
Proof. unfold strip_falsy. by intros [? _]%elem_of_filter. Qed.

Lemma no_successful_calls (m : t) keyword user rows :
  (∀ row source_instance,
     row ∈ rows → dict_get (providerName row) (sources m) = Some source_instance →
     ∃ e, Source.search_aliases source_instance keyword user = Raised e) →
  alias_sets_of_successful_calls m keyword user rows = [].
Proof.
  unfold alias_sets_of_successful_calls.
  induction rows as [|row rows IH]; intros Hfail; [done|]. cbn.
  rewrite IH by (intros row' inst' Hin; apply Hfail; by right).
  unfold successful_alias_set.
  destruct (dict_get (providerName row) (sources m)) as [inst|] eqn:Hinst; [|done].
  by destruct (Hfail row inst ltac:(left) Hinst) as [e ->].
Qed.

(** C1, as amended. When the read of the enabled settings returns its
    rows, [search_aliases_from_enabled_sources] does not raise and leaves
    the manager unchanged; it returns the union of the alias sets of the
    successful calls among the enabled and loaded providers, with the
    falsy entries removed; and if every call made raises (in particular
    if no provider is enabled) it returns the empty set. *)
Theorem C1_alias_union_without_falsy (m : t) (keyword : string) (user : User)
    (rows : list SourceSetting) :
  get_enabled_aux_metadata_sources (_session_factory m) = Returned rows →
  value (search_aliases_from_enabled_sources keyword user m)
    = Returned (strip_falsy (⋃ alias_sets_of_successful_calls m keyword user rows))
  ∧ final (search_aliases_from_enabled_sources keyword user m) = m
  ∧ ((∀ row source_instance,
        row ∈ rows → dict_get (providerName row) (sources m) = Some source_instance →
        ∃ e, Source.search_aliases source_instance keyword user = Raised e) →
     value (search_aliases_from_enabled_sources keyword user m) = Returned ∅).
Proof.
  intros Hdb. destruct (search_aliases_returns m keyword user rows Hdb) as [Hv Hf].
  split; [done|]. split; [done|]. intros Hfail. rewrite Hv. f_equal.
  rewrite no_successful_calls by done.
  cbn. by rewrite strip_falsy_empty.
Qed.
End Aliases.

(** ** The TVDB source *)

Lemma stateless_bind {S A B} (c : M S A) (k : A → M S B) :
  stateless c → (∀ a, stateless (k a)) → stateless (c ≫= k).
Proof.
  intros Hc Hk s. rewrite bind_run. destruct (value (c s)); cbn; rewrite Hc; [apply Hk | done].
Qed.

Lemma stateless_mret {S A} (a : A) : stateless (mret a : M S A).
Proof. done. Qed.
Lemma stateless_raise {S A} e : stateless (@raise S A e).
Proof. done. Qed.
Lemma stateless_emit {S} ev : stateless (@emit S ev).
Proof. done. Qed.
Lemma stateless_lift {S A} (o : outcome A) : stateless (@lift S A o).
Proof. done. Qed.
Lemma stateless_get_self {S} : stateless (@get_self S).
Proof. done. Qed.
Lemma stateless_config_get {S} cm key dflt : stateless (@config_get S cm key dflt).
Proof. apply stateless_bind; [apply stateless_emit | intros; apply stateless_lift]. Qed.

Lemma stateless_returns {S A} (c : M S A) (s : S) a :
  stateless c → value (c s) = Returned a → returns c s a.
Proof. intros Hc Hv. split; [done | apply Hc]. Qed.

Section Tvdb.
Import TvdbMetadataSource.
Context `{Runtime}.

Lemma stateless_create_client : stateless _create_client.
Proof.
  unfold _create_client.
  apply stateless_bind; [apply stateless_get_self | intros self].
  apply stateless_bind; [apply stateless_config_get | intros api_key].
  case_bool_decide; [apply stateless_raise|].
  apply stateless_bind; [apply stateless_config_get | intros proxy_url].
  apply stateless_bind; [apply stateless_config_get | intros proxy_enabled].
  apply stateless_bind;
    [|intros; destruct (AsyncClient_error _ _ _); [apply stateless_raise | apply stateless_mret]].
  apply stateless_bind; [apply stateless_emit | intros; apply stateless_lift].
Qed.

Lemma create_client_unconfigured (self : t) :
  config_manager self "tvdbApiKey" "" = Returned "" →
  raises _create_client self (ValueError "TVDB API Key not configured.").
Proof.
  intros Hkey. unfold _create_client.
  eapply raises_bind_r; [apply returns_get_self|].
  eapply raises_bind_r; [by apply returns_config_get|].
  apply raises_raise.
Qed.

Lemma returns_client_get (self : t) client path query response :
  http_get self client path query = Returned response →
  returns (client_get client path query) self response.
Proof.
  intros Hget. unfold client_get.
  eapply returns_bind; [apply returns_get_self|].
  eapply returns_bind; [apply returns_emit | by apply returns_lift].
Qed.


Lemma search_except_value (e : exn) (self : t) :
  value (search_except e self) = Raised (search_failure e).
Proof. unfold search_except, search_failure. destruct e; done. Qed.




(** C10. [get_details] never raises: it always returns, and it returns
    [None] whenever its [try] block raises, in particular when the API
    key is missing, and when the upstream answers 404. *)
Theorem C10_get_details_never_raises (self : t) (item_id : string) (user : User)
    (mediaType : option string) :
  (∃ r, value (get_details item_id user mediaType self) = Returned r)
  ∧ (∀ e, value (get_details_try item_id self) = Raised e →
          value (get_details item_id user mediaType self) = Returned None)
  ∧ (config_manager self "tvdbApiKey" "" = Returned "" →
     value (get_details item_id user mediaType self) = Returned None)
  ∧ (∀ client response,
       returns _create_client self client →
       http_get self client ("/series/" +:+ item_id +:+ "/extended") [] = Returned response →
       status_code response = 404 →
       value (get_details item_id user mediaType self) = Returned None).
Proof.
  assert (∀ e, value (get_details_try item_id self) = Raised e →
               value (get_details item_id user mediaType self) = Returned None) as Hexc.
  { intros e He. unfold get_details. by rewrite (try_except_raised _ _ _ e). }
  repeat split.
  - destruct (value (get_details_try item_id self)) as [r|e] eqn:Htry.
    + exists r. unfold get_details. by rewrite (try_except_returned _ _ _ r).
    + exists None. by apply (Hexc e).
  - exact Hexc.
  - intros Hkey. apply (Hexc (ValueError "TVDB API Key not configured.")).
    apply raises_bind_l. by apply create_client_unconfigured.
  - intros client response Hclient Hget H404.
    unfold get_details. apply try_except_returned.
    assert (returns (get_details_try item_id) self None) as [Hv _]; [|done].
    unfold get_details_try.
    eapply returns_bind; [exact Hclient|].
    eapply returns_bind; [by apply returns_client_get|].
    rewrite H404. apply returns_mret.
Qed.
End Tvdb.

(** ** [close_all] *)

Section Closing.
Import MetadataSourceManager.

Lemma log_close_errors_returns (m : t) (results : list pyval) (i : nat) :
  (i + length results ≤ length (sources m))%nat →
  returns (log_close_errors m i results) m tt.
Proof.
  revert i. induction results as [|result results IH]; intros i Hlen; [done|].
  cbn [log_close_errors]. cbn [length] in Hlen.
  eapply returns_bind; [|apply IH; lia].
  destruct result; try apply returns_mret.
  eapply returns_bind; [apply returns_logger|].
  destruct (lookup_lt_is_Some_2 (dict_keys (sources m)) i) as [k Hk].
  { unfold dict_keys. rewrite length_fmap. lia. }
  rewrite Hk. eapply returns_bind; [apply returns_mret | apply returns_logger].
Qed.

(** Whatever the sources do when closed, [close_all] returns and leaves
    the manager, and so its loaded sources, as they were. *)
Lemma close_all_returns (m : t) : returns close_all m tt.
Proof.
  unfold close_all.
  eapply returns_bind; [apply returns_logger|].
  eapply returns_bind; [apply returns_get_self|].
  eapply returns_bind.
  { apply (collect_pure _ _ (λ item, Some (Source.close item.2))).
    intros item _. eapply returns_bind; [apply returns_emit | apply returns_mret]. }
  eapply returns_bind; [|apply returns_logger].
  apply log_close_errors_returns. cbn.
  unfold gather_return_exceptions. rewrite omap_Some_map, length_map, length_fmap. lia.
Qed.

(** C4, as amended. With two loaded providers, the first of which raises
    on [close] and the second of which returns, [close_all] invokes both
    [close] operations, logs the failure of the first and returns without
    raising; the manager is unchanged, so both providers are still in its
    map of loaded sources. *)
Theorem C4_close_all_isolates_failure (m : t) (name_a name_b : string)
    (a b : Source.t) (e : exn) :
  sources m = [(name_a, a); (name_b, b)] →
  Source.close a = Raised e →
  Source.close b = Returned VNone →
  close_all m =
    Run (Returned tt) m
      [ Logged INFO "正在关闭所有元数据源...";
        Invoked name_a "close";
        Invoked name_b "close";
        Logged ERROR ("在清理的过程中发现了错误" +:+ exn_str e +:+ " 详细信息" +:+ format_exc);
        Logged ERROR ("关闭元数据源 '" +:+ name_a +:+ "' 时出错: " +:+ exn_str e);
        Logged INFO "所有元数据源已关闭。" ]
  ∧ sources (final (close_all m)) = [(name_a, a); (name_b, b)].
Proof.
  intros Hsources Ha Hb.
  assert (close_all m = Run (Returned tt) m
      [ Logged INFO "正在关闭所有元数据源...";
        Invoked name_a "close";
        Invoked name_b "close";
        Logged ERROR ("在清理的过程中发现了错误" +:+ exn_str e +:+ " 详细信息" +:+ format_exc);
        Logged ERROR ("关闭元数据源 '" +:+ name_a +:+ "' 时出错: " +:+ exn_str e);
        Logged INFO "所有元数据源已关闭。" ]) as Hrun.
  { destruct m, a, b. cbn in Hsources, Ha, Hb. subst. reflexivity. }
  split; [done|]. by rewrite Hrun.
Qed.
End Closing.

(** ** The TVDB source behind the manager *)

Section TvdbDispatch.
Import MetadataSourceManager.
Context `{Runtime}.

(** Called on its own, with the three arguments it declares, the TVDB
    [execute_action] raises [NotImplementedError]. *)
Lemma tvdb_execute_action_unsupported (self : TvdbMetadataSource.t) action_name payload user :
  value (TvdbMetadataSource.execute_action action_name payload user self)
    = Raised (NotImplementedError "源 'tvdb' 不支持任何自定义操作。").
Proof. reflexivity. Qed.

(** Through the manager the call carries [request=request], which the
    TVDB method does not declare. *)
Lemma tvdb_execute_action_through_manager (m : t) (self : TvdbMetadataSource.t)
    action_name payload user request :
  dict_get "tvdb" (sources m) = Some (TvdbMetadataSource.as_source self) →
  execute_action "tvdb" action_name payload user request m =
    Run (Raised (TypeError
           "TvdbMetadataSource.execute_action() got an unexpected keyword argument 'request'"))
        m [].
Proof.
  intros Hloaded. unfold execute_action. rewrite bind_run.
  cbn [get_self value final trace]. rewrite Hloaded. reflexivity.
Qed.
End TvdbDispatch.

(** C5. With the TVDB source loaded, [execute_action] through the manager
    does not reach the [NotImplementedError] of the TVDB method: the call
    raises [TypeError] while binding the keyword argument [request]. *)
Theorem C5_tvdb_execute_action_type_error :
  MetadataSourceManager.execute_action "tvdb" "refresh" [] alice a_request tvdb_manager =
    Run (Raised (TypeError
           "TvdbMetadataSource.execute_action() got an unexpected keyword argument 'request'"))
        tvdb_manager [].
Proof.
  by apply (@tvdb_execute_action_through_manager plain_runtime tvdb_manager tvdb_not_json).
Qed.

(** ** The alias scenario *)

Section Scenario.
Import MetadataSourceManager.

Lemma aliases_never_falsy (m : t) (keyword : string) (user : User)
    (s : gset (option string)) (a : option string) :
  value (search_aliases_from_enabled_sources keyword user m) = Returned s →
  a ∈ s → truthy a = true.
Proof.
  intros Hv Hin.
  destruct (get_enabled_aux_metadata_sources (_session_factory m)) as [rows|e] eqn:Hdb.
  - destruct (search_aliases_returns m keyword user rows Hdb) as [Hv' _].
    rewrite Hv' in Hv. injection Hv as <-. by eapply strip_falsy_truthy.
  - by rewrite (search_aliases_db_failure m keyword user e Hdb) in Hv.
Qed.

(** C6. In the scenario (A enabled with display order 1, B disabled with
    display order 0, both loaded, A answering "x" with foo, Foo and the
    empty string) the result is exactly foo and Foo, and the only
    provider operation invoked is A's alias search, so B is never called.
    In every state, an alias in the returned set is truthy: neither
    [None] nor the empty string occurs in it. *)
Theorem C6_scenario_and_no_falsy (m : t) (A B : Source.t) (user : User) :
  _session_factory m = database_of_rows scenario_rows →
  sources m = [("A", A); ("B", B)] →
  Source.search_aliases A "x" user
    = Returned (VSet {[Some "foo"; Some "Foo"; Some ""]}) →
  value (search_aliases_from_enabled_sources "x" user m)
    = Returned {[Some "foo"; Some "Foo"]}
  ∧ trace (search_aliases_from_enabled_sources "x" user m)
    = [DbRead "get_enabled_aux_metadata_sources"; Invoked "A" "search_aliases"]
  ∧ (∀ op, Invoked "B" op ∉ trace (search_aliases_from_enabled_sources "x" user m))
  ∧ (∀ (m' : t) (keyword' : string) (user' : User) (s : gset (option string))
       (a : option string),
       value (search_aliases_from_enabled_sources keyword' user' m') = Returned s →
       a ∈ s → truthy a = true).
Proof.
  intros Hdb Hsources HA.
  assert (search_aliases_from_enabled_sources "x" user m
          = Run (Returned {[Some "foo"; Some "Foo"]}) m
                [DbRead "get_enabled_aux_metadata_sources"; Invoked "A" "search_aliases"])
    as Hrun.
  { destruct m, A. cbn in Hdb, Hsources, HA. subst.
    vm_compute. rewrite HA. by vm_compute. }
  rewrite Hrun. cbn [value trace]. split; [done|]. split; [done|]. split.
  - intros op. rewrite !elem_of_cons, elem_of_nil. by intros [?|[?|[]]].
  - apply aliases_never_falsy.
Qed.
End Scenario.

(** ** The claims at concrete inputs *)

(** C1, the claim as stated fails.  With one enabled and loaded provider
    whose successful call returns the set holding the empty string, the
    union of the successful alias sets holds the empty string but the
    result does not; and when the read of the enabled settings raises, the
    call raises. *)
Lemma C1_counterexample :
  (get_enabled_aux_metadata_sources
     (MetadataSourceManager._session_factory blank_manager)
     = Returned [setting_row "A" true 1]
   ∧ ⋃ alias_sets_of_successful_calls blank_manager "x" alice [setting_row "A" true 1]
     = {[Some ""]}
   ∧ value (MetadataSourceManager.search_aliases_from_enabled_sources "x" alice blank_manager)
     = Returned ∅
   ∧ value (MetadataSourceManager.search_aliases_from_enabled_sources "x" alice blank_manager)
     ≠ Returned (⋃ alias_sets_of_successful_calls blank_manager "x" alice
                     [setting_row "A" true 1]))
  ∧ value (MetadataSourceManager.search_aliases_from_enabled_sources "x" alice offline_manager)
    = Raised (RuntimeError "connection refused").
Proof.
  split; [|reflexivity].
  assert (value (MetadataSourceManager.search_aliases_from_enabled_sources
                   "x" alice blank_manager) = Returned ∅) as Hv by (by vm_compute).
  assert (⋃ alias_sets_of_successful_calls blank_manager "x" alice [setting_row "A" true 1]
          = ({[Some ""]} : gset (option string))) as Hu by (by vm_compute).
  split; [reflexivity|]. split; [exact Hu|]. split; [exact Hv|].
  rewrite Hv, Hu. by intros [=Heq].
Qed.

Lemma C1_witness :
  value (MetadataSourceManager.search_aliases_from_enabled_sources "x" alice scenario_manager)
  = Returned (strip_falsy (⋃ alias_sets_of_successful_calls scenario_manager "x" alice
                               [setting_row "A" true 1])).
Proof.
  apply (C1_alias_union_without_falsy scenario_manager "x" alice [setting_row "A" true 1]).
  reflexivity.
Defined.

Lemma C2_witness :
  MetadataSourceManager.search "nonexistent" "x" alice None scenario_manager
  = Run (Raised (NotFound "nonexistent")) scenario_manager [].
Proof.
  apply (C2_unknown_provider_not_found scenario_manager "nonexistent" "x" "1" "refresh"
           [] alice None a_request).
  by_decide.
Defined.

Lemma C3_witness :
  ∃ rows,
    value (MetadataSourceManager.get_sources_with_status unloaded_manager) = Returned rows
    ∧ {| MetadataSourceManager.row_providerName := "A";
         MetadataSourceManager.row_isAuxSearchEnabled := true;
         MetadataSourceManager.row_displayOrder := 1;
         MetadataSourceManager.row_status := default_status;
         MetadataSourceManager.row_useProxy := false |} ∈ rows
    ∧ {| MetadataSourceManager.row_providerName := "B";
         MetadataSourceManager.row_isAuxSearchEnabled := false;
         MetadataSourceManager.row_displayOrder := 0;
         MetadataSourceManager.row_status := "连接成功";
         MetadataSourceManager.row_useProxy := false |} ∈ rows.
Proof.
  destruct (C3_status_rows_sorted_and_complete unloaded_manager)
    as (rows & Hv & _ & Hrows & _ & Hrow).
  exists rows. split; [exact Hv|]. split.
  - apply (Hrow "A" (setting_row "A" true 1)); [left | by_decide].
  - rewrite Hrows. right. left.
Defined.

(** C4, the claim as stated fails.  A's [close] raises and B's returns;
    [close_all] returns, and afterwards the manager still holds both
    providers, not zero. *)
Lemma C4_counterexample :
  (∃ a b e,
     MetadataSourceManager.sources closing_manager = [("A", a); ("B", b)]
     ∧ Source.close a = Raised e ∧ Source.close b = Returned VNone)
  ∧ value (MetadataSourceManager.close_all closing_manager) = Returned tt
  ∧ length (MetadataSourceManager.sources
              (final (MetadataSourceManager.close_all closing_manager))) = 2%nat
  ∧ MetadataSourceManager.sources
      (final (MetadataSourceManager.close_all closing_manager)) ≠ [].
Proof.
  split; [by eexists _, _, _|]. by repeat split.
Qed.

Lemma C4_witness :
  length (MetadataSourceManager.sources
            (final (MetadataSourceManager.close_all closing_manager))) = 2%nat.
Proof.
  destruct (C4_close_all_isolates_failure closing_manager "A" "B"
              (plain_source (Returned (VSet ∅)) (Raised (RuntimeError "socket already closed")))
              (plain_source (Returned (VSet ∅)) (Returned VNone))
              (RuntimeError "socket already closed")
              eq_refl eq_refl eq_refl) as [_ ->].
  reflexivity.
Defined.

Lemma C6_witness :
  value (MetadataSourceManager.search_aliases_from_enabled_sources "x" alice scenario_manager)
  = Returned {[Some "foo"; Some "Foo"]}.
Proof.
  apply (C6_scenario_and_no_falsy scenario_manager
           (plain_source (Returned (VSet {[Some "foo"; Some "Foo"; Some ""]})) (Returned VNone))
           (plain_source (Returned (VSet {[Some "bar"]})) (Returned VNone))
           alice); reflexivity.
Defined.



(** C8, the claim as stated fails.  The name is not in the
    configuration-key table and is not loaded: [getProviderConfig] raises
    the 404 failure instead of returning an empty configuration. *)
Lemma C8_counterexample :
  ("nonexistent" ∉ dict_keys MetadataSourceManager.config_keys_map)
  ∧ (MetadataSourceManager.getProviderConfig "nonexistent" scenario_manager
     = Run (Raised (NotFound "nonexistent")) scenario_manager []).
Proof. split; [by_decide | reflexivity]. Qed.

Lemma C8_witness :
  MetadataSourceManager.getProviderConfig "A" scenario_manager
  = Run (Returned []) scenario_manager
        [Logged WARNING "提供商 'A' 已加载，但没有定义的配置键。"].
Proof. apply (C8_getProviderConfig_outside_table scenario_manager "A"); by_decide. Defined.

Lemma C9_witness :
  MetadataSourceManager.getProviderConfig "tvdb" scenario_manager
  = Run (Raised (NotFound "tvdb")) scenario_manager [].
Proof. apply (C9_getProviderConfig_not_loaded scenario_manager "tvdb"). by_decide. Defined.

Lemma C10_witness :
  value (@TvdbMetadataSource.get_details plain_runtime "121361" alice None tvdb_unconfigured)
  = Returned None.
Proof.
  apply (@C10_get_details_never_raises plain_runtime tvdb_unconfigured "121361" alice None).
  reflexivity.
Defined.

(** * Further properties *)

(** ** Runs with their traces *)

Lemma runs_bind {S A B} (c : M S A) (k : A → M S B) (s s1 s2 : S) a b tr1 tr2 :
  runs c s a s1 tr1 → runs (k a) s1 b s2 tr2 → runs (c ≫= k) s b s2 (tr1 ++ tr2).
Proof. unfold runs. intros Hc Hk. rewrite bind_run, Hc. cbn. by rewrite Hk. Qed.

Lemma fails_bind_l {S A B} (c : M S A) (k : A → M S B) (s s1 : S) e tr :
  fails c s e s1 tr → fails (c ≫= k) s e s1 tr.
Proof. unfold fails. intros Hc. by rewrite bind_run, Hc. Qed.

Lemma fails_bind_r {S A B} (c : M S A) (k : A → M S B) (s s1 s2 : S) a e tr1 tr2 :
  runs c s a s1 tr1 → fails (k a) s1 e s2 tr2 → fails (c ≫= k) s e s2 (tr1 ++ tr2).
Proof. unfold runs, fails. intros Hc Hk. rewrite bind_run, Hc. cbn. by rewrite Hk. Qed.

Lemma runs_mret {S A} (s : S) (a : A) : runs (mret a) s a s [].
Proof. done. Qed.

Lemma runs_get_self {S} (s : S) : runs get_self s s s [].
Proof. done. Qed.

Lemma runs_emit {S} (s : S) ev : runs (emit ev) s tt s [ev].
Proof. done. Qed.

Lemma runs_logger {S} (s : S) lv msg : runs (logger lv msg) s tt s [Logged lv msg].
Proof. done. Qed.

Lemma runs_modify_self {S} (f : S → S) (s : S) : runs (modify_self f) s tt (f s) [].
Proof. done. Qed.

Lemma runs_lift {S A} (s : S) (o : outcome A) a : o = Returned a → runs (lift o) s a s [].
Proof. by intros ->. Qed.

Lemma fails_lift {S A} (s : S) (o : outcome A) e : o = Raised e → fails (lift o) s e s [].
Proof. by intros ->. Qed.

Lemma runs_returns {S A} (c : M S A) (s : S) a tr : runs c s a s tr → returns c s a.
Proof. unfold runs, returns. by intros ->. Qed.

Lemma runs_config_get {S} (s : S) (cm : ConfigManager) key dflt v :
  cm key dflt = Returned v → runs (config_get cm key dflt) s v s [ConfigRead key].
Proof.
  intros Hcm. unfold config_get.
  apply (runs_bind _ _ s s s tt v [ConfigRead key] []); [apply runs_emit|].
  by apply runs_lift.
Qed.

Lemma fails_config_get {S} (s : S) (cm : ConfigManager) key dflt e :
  cm key dflt = Raised e → fails (config_get cm key dflt) s e s [ConfigRead key].
Proof.
  intros Hcm. unfold config_get.
  apply (fails_bind_r _ _ s s s tt e [ConfigRead key] []); [apply runs_emit|].
  by apply fails_lift.
Qed.

Lemma collect_runs {S A B} (l : list A) (body : A → M S (option B))
    (f : A → option B) (g : A → list event) (s : S) :
  (∀ x, x ∈ l → runs (body x) s (f x) s (g x)) →
  runs (collect l body) s (omap f l) s (concat (g <$> l)).
Proof.
  induction l as [|x l IH]; intros Hbody; [done|].
  cbn [collect fmap list_fmap concat].
  eapply runs_bind; [apply Hbody; left|].
  rewrite <- (app_nil_r (concat _)).
  eapply runs_bind; [apply IH; intros y Hy; apply Hbody; by right|].
  cbn. destruct (f x); apply runs_mret.
Qed.

Lemma concat_singletons {A B} (g : A → B) (l : list A) :
  concat ((λ x, [g x]) <$> l) = g <$> l.
Proof. induction l as [|x l IH]; cbn; [done|]. by rewrite IH. Qed.

(** ** More on [close_all] *)

Section MoreClosing.
Import MetadataSourceManager.

Lemma log_close_errors_runs (m : t) (results : list pyval) (i : nat) :
  (i + length results ≤ length (sources m))%nat →
  ∃ logs, runs (log_close_errors m i results) m tt m logs
          ∧ Forall (λ ev, is_logged ev = true) logs.
Proof.
  revert i. induction results as [|result results IH]; intros i Hlen.
  { exists []. by split. }
  cbn [length] in Hlen. destruct (IH (S i)) as (logs & Hrest & Hlogs); [lia|].
  destruct (lookup_lt_is_Some_2 (dict_keys (sources m)) i) as [k Hk].
  { unfold dict_keys. rewrite length_fmap. lia. }
  assert (∃ logs0, runs (match result with
                         | VExc e =>
                             logger ERROR ("在清理的过程中发现了错误" +:+ exn_str e
                                           +:+ " 详细信息" +:+ format_exc);;
                             provider_name ←
                               match dict_keys (sources m) !! i with
                               | Some k => mret k
                               | None => raise (IndexError "list index out of range")
                               end;
                             logger ERROR ("关闭元数据源 '" +:+ provider_name +:+ "' 时出错: "
                                           +:+ exn_str e)
                         | _ => mret tt
                         end) m tt m logs0
                  ∧ Forall (λ ev, is_logged ev = true) logs0) as (logs0 & Hhead & Hlogs0).
  { destruct result; try (exists []; split; [apply runs_mret | constructor]).
    rewrite Hk. eexists. split.
    - eapply runs_bind; [apply runs_logger|].
      eapply runs_bind; [apply runs_mret | apply runs_logger].
    - by repeat constructor. }
  exists (logs0 ++ logs)%list. split; [|by apply Forall_app].
  cbn [log_close_errors]. eapply runs_bind; [exact Hhead | exact Hrest].
Qed.

(** The whole run of [close_all]. *)
Lemma close_all_run (m : t) :
  ∃ logs,
    close_all m =
      Run (Returned tt) m
          (Logged INFO "正在关闭所有元数据源..."
           :: ((λ k, Invoked k "close") <$> dict_keys (sources m))
           ++ logs ++ [Logged INFO "所有元数据源已关闭。"])
    ∧ Forall (λ ev, is_logged ev = true) logs.
Proof.
  destruct (log_close_errors_runs m
              (gather_return_exceptions (omap (λ item, Some (Source.close item.2)) (sources m)))
              0) as (logs & Hlogs & Hall).
  { cbn. unfold gather_return_exceptions.
    rewrite omap_Some_map, length_map, length_fmap. lia. }
  exists logs. split; [|done].
  assert (runs close_all m tt m
            ([Logged INFO "正在关闭所有元数据源..."]
             ++ [] ++ concat ((λ item : string * Source.t, [Invoked item.1 "close"]) <$> sources m)
             ++ logs ++ [Logged INFO "所有元数据源已关闭。"])) as Hrun.
  { unfold close_all.
    eapply runs_bind; [apply runs_logger|].
    eapply runs_bind; [apply runs_get_self|].
    eapply runs_bind.
    { apply (collect_runs _ _ (λ item, Some (Source.close item.2))
               (λ item, [Invoked item.1 "close"])).
      intros item _. rewrite <- (app_nil_r [_]).
      eapply runs_bind; [apply runs_emit | apply runs_mret]. }
    eapply runs_bind; [exact Hlogs | apply runs_logger]. }
  rewrite concat_singletons in Hrun. unfold dict_keys.
  rewrite <- list_fmap_compose. exact Hrun.
Qed.

(** X1. Whatever the loaded sources do on [close], [close_all] returns
    without raising and leaves the manager as it was; its trace is the
    opening log line, one [close] invocation per loaded source in the order
    of the map, then only log lines, the last being the closing line. *)
Theorem close_all_closes_every_source (m : t) :
  ∃ logs,
    close_all m =
      Run (Returned tt) m
          (Logged INFO "正在关闭所有元数据源..."
           :: ((λ k, Invoked k "close") <$> dict_keys (sources m))
           ++ logs ++ [Logged INFO "所有元数据源已关闭。"])
    ∧ Forall (λ ev, is_logged ev = true) logs.
Proof. apply close_all_run. Qed.
End MoreClosing.

(** ** More on [get_sources_with_status] *)

Section MoreStatus.
Import MetadataSourceManager.

Lemma connectivity_tasks_runs (m : t) :
  runs (connectivity_tasks m (dict_keys (sources m))) m
    (omap (λ name, Source.check_connectivity <$> dict_get name (sources m))
          (dict_keys (sources m)))
    m ((λ k, Invoked k "check_connectivity") <$> dict_keys (sources m)).
Proof.
  rewrite <- concat_singletons. unfold connectivity_tasks.
  apply (collect_runs _ _
           (λ name, Source.check_connectivity <$> dict_get name (sources m))
           (λ name, [Invoked name "check_connectivity"])).
  intros name [inst Hinst]%dict_get_is_Some. rewrite Hinst.
  rewrite <- (app_nil_r [_]). eapply runs_bind; [apply runs_emit | apply runs_mret].
Qed.

Lemma status_row_runs status_map (item : string * SourceSetting) (m : t) :
  ∃ logs, runs (status_row status_map item.1 item.2) m (Some (row_of status_map item)) m logs
          ∧ Forall (λ ev, is_logged ev = true) logs.
Proof.
  unfold runs, status_row, row_of, status_text_of.
  destruct (status_map !! item.1) as [[]|]; try (exists []; split; [done | constructor]).
  eexists [_]. split; [done | by repeat constructor].
Qed.

Lemma status_rows_run status_map (items : list (string * SourceSetting)) (m : t) :
  ∃ logs, runs (collect items (λ item, status_row status_map item.1 item.2)) m
               (row_of status_map <$> items) m logs
          ∧ Forall (λ ev, is_logged ev = true) logs.
Proof.
  induction items as [|item items (logs & Hrest & Hlogs)].
  { exists []. by split. }
  destruct (status_row_runs status_map item m) as (logs0 & Hhead & Hlogs0).
  exists (logs0 ++ logs)%list. split; [|by apply Forall_app].
  cbn [collect fmap list_fmap]. eapply runs_bind; [exact Hhead|].
  rewrite <- (app_nil_r logs). eapply runs_bind; [exact Hrest | apply runs_mret].
Qed.

(** The whole run of [get_sources_with_status]. *)
Lemma get_sources_with_status_run (m : t) :
  ∃ (status_map : gmap string pyval) logs,
    (∀ p, status_map !! p = connectivity_result m p)
    ∧ get_sources_with_status m =
        Run (Returned (sorted_by_displayOrder (row_of status_map <$> source_settings m))) m
            (((λ k, Invoked k "check_connectivity") <$> dict_keys (sources m)) ++ logs)
    ∧ Forall (λ ev, is_logged ev = true) logs.
Proof.
  set (status_map :=
         dict_of_pairs (zip (dict_keys (sources m))
           (gather_return_exceptions
              (omap (λ name, Source.check_connectivity <$> dict_get name (sources m))
                    (dict_keys (sources m)))))).
  destruct (status_rows_run status_map (source_settings m) m) as (logs & Hrows & Hlogs).
  exists status_map, logs. split; [|split; [|done]].
  - intros p. unfold status_map.
    rewrite gathered_connectivity by (by apply Forall_forall).
    rewrite dict_of_pairs_zip_fmap. unfold connectivity_result.
    destruct (decide (p ∈ dict_keys (sources m))) as [[inst Hinst]%dict_get_is_Some|Hnot].
    + by rewrite Hinst.
    + apply dict_get_None in Hnot. by rewrite Hnot.
  - assert (runs get_sources_with_status m
              (sorted_by_displayOrder (row_of status_map <$> source_settings m)) m
              ([] ++ ((λ k, Invoked k "check_connectivity") <$> dict_keys (sources m))
               ++ logs ++ [])) as Hrun.
    { unfold get_sources_with_status.
      eapply runs_bind; [apply runs_get_self|].
      eapply runs_bind; [apply connectivity_tasks_runs|].
      eapply runs_bind; [exact Hrows | apply runs_mret]. }
    by rewrite app_nil_r in Hrun.
Qed.

(** X2. A provider of the settings cache that is loaded gets the string
    its connectivity check returned as status; if the check raised, or
    returned something that is not a string, it gets the default text. *)
Theorem status_reports_connectivity (m : t) (p : string) (setting : SourceSetting)
    (source_instance : Source.t) :
  (p, setting) ∈ source_settings m →
  dict_get p (sources m) = Some source_instance →
  ∃ rows,
    value (get_sources_with_status m) = Returned rows
    ∧ {| row_providerName := p;
         row_isAuxSearchEnabled := default false (isAuxSearchEnabled setting);
         row_displayOrder := default 99 (displayOrder setting);
         row_status :=
           match Source.check_connectivity source_instance with
           | Returned (VStr s) => s
           | _ => default_status
           end;
         row_useProxy := default false (useProxy setting) |} ∈ rows.
Proof.
  intros Hin Hloaded.
  destruct (get_sources_with_status_run m) as (status_map & logs & Hmap & Hrun & _).
  eexists. split; [by rewrite Hrun|].
  rewrite sorted_by_displayOrder_perm.
  apply list_elem_of_fmap. exists (p, setting). split; [|done].
  unfold row_of, status_text_of. cbn. rewrite Hmap. unfold connectivity_result.
  rewrite Hloaded. cbn.
  by destruct (Source.check_connectivity source_instance) as [[]|].
Qed.

(** X3. [get_sources_with_status] never raises and leaves the manager as
    it was; it invokes [check_connectivity] once on every loaded source, in
    the order of the map, and on nothing else: the rest of its trace is log
    lines. *)
Theorem status_checks_loaded_sources_once (m : t) :
  ∃ rows logs,
    get_sources_with_status m =
      Run (Returned rows) m
          (((λ k, Invoked k "check_connectivity") <$> dict_keys (sources m)) ++ logs)
    ∧ Forall (λ ev, is_logged ev = true) logs.
Proof.
  destruct (get_sources_with_status_run m) as (status_map & logs & _ & Hrun & Hlogs).
  by eexists _, logs.
Qed.

Lemma filter_fmap_names (k : Z) (f : string * SourceSetting → StatusRow)
    (items : list (string * SourceSetting)) :
  (∀ item, row_providerName (f item) = item.1) →
  (∀ item, row_displayOrder (f item) = default 99 (displayOrder item.2)) →
  row_providerName <$> filter (λ r, row_displayOrder r = k) (f <$> items)
  = (filter (λ item, default 99 (displayOrder item.2) = k) items).*1.
Proof.
  intros Hname Horder. induction items as [|item items IH]; [done|].
  cbn [fmap list_fmap]. rewrite !filter_cons, Horder.
  destruct (decide (default 99 (displayOrder item.2) = k)); cbn; [|done].
  by rewrite Hname, IH.
Qed.

(** X4. The sort of [get_sources_with_status] is stable: the rows with
    one [displayOrder] (99 when the setting has none) come in the order
    their providers have in the settings cache. *)
Theorem status_rows_keep_cache_order (m : t) (k : Z) :
  ∃ rows,
    value (get_sources_with_status m) = Returned rows
    ∧ row_providerName <$> filter (λ r, row_displayOrder r = k) rows
      = (filter (λ item, default 99 (displayOrder item.2) = k) (source_settings m)).*1.
Proof.
  destruct (get_sources_with_status_run m) as (status_map & logs & _ & Hrun & _).
  eexists. split; [by rewrite Hrun|].
  rewrite sorted_by_displayOrder_stable. by apply filter_fmap_names.
Qed.
End MoreStatus.

(** ** More on the alias search *)

Section MoreAliases.
Import MetadataSourceManager.

Lemma alias_tasks_runs (m : t) keyword user rows :
  runs (alias_tasks m keyword user rows) m (omap (alias_task m keyword user) rows) m
       (concat (alias_task_events m <$> rows)).
Proof.
  apply collect_runs. intros row _. unfold alias_task, alias_task_events.
  destruct (dict_get (providerName row) (sources m)); cbn;
    rewrite <- (app_nil_r [_]); (eapply runs_bind; [|apply runs_mret]).
  - apply runs_emit.
  - apply runs_logger.
Qed.

Lemma merge_aliases_runs (m : t) (results : list pyval) (acc : gset (option string)) :
  ∃ logs, runs (merge_aliases results acc) m (acc ∪ ⋃ omap alias_set_of results) m logs
          ∧ Forall (λ ev, is_logged ev = true) logs.
Proof.
  revert acc. induction results as [|v results IH]; intros acc.
  { exists []. split; [|done]. cbn. rewrite (right_id_L ∅ (∪)). apply runs_mret. }
  destruct v as [| | s | | | |e]; cbn.
  3: { destruct (IH (acc ∪ s)) as (logs & Hrun & Hlogs). exists logs.
       rewrite (assoc_L (∪)). by split. }
  1-5: by apply IH.
  destruct (IH acc) as (logs & Hrun & Hlogs).
  exists ([Logged ERROR ("Auxiliary search sub-task failed: " +:+ exn_str e)] ++ logs)%list.
  split; [|by constructor].
  eapply runs_bind; [apply runs_logger | exact Hrun].
Qed.

(** X5. When the read of the enabled settings returns its rows, the alias
    search leaves the manager unchanged, and after the read its trace has,
    row by row, one [search_aliases] invocation for a row whose provider is
    loaded and one warning for a row whose provider is not; what follows is
    log lines only.  So a provider that is not among the returned rows is
    never called. *)
Theorem alias_search_calls_enabled_loaded_only (m : t) (keyword : string) (user : User)
    (rows : list SourceSetting) :
  get_enabled_aux_metadata_sources (_session_factory m) = Returned rows →
  ∃ logs,
    search_aliases_from_enabled_sources keyword user m =
      Run (Returned (strip_falsy (⋃ alias_sets_of_successful_calls m keyword user rows))) m
          (DbRead "get_enabled_aux_metadata_sources"
           :: concat (alias_task_events m <$> rows) ++ logs)
    ∧ Forall (λ ev, is_logged ev = true) logs.
Proof.
  intros Hdb. rewrite <- gathered_alias_sets.
  destruct (merge_aliases_runs m
              (gather_return_exceptions (omap (alias_task m keyword user) rows)) ∅)
    as (logs & Hmerge & Hlogs).
  exists (match omap (alias_task m keyword user) rows with [] => [] | _ => logs end).
  split; [|by destruct (omap _ rows)].
  change (runs (search_aliases_from_enabled_sources keyword user) m
            (strip_falsy (⋃ omap alias_set_of
               (gather_return_exceptions (omap (alias_task m keyword user) rows)))) m
            ([] ++ ([DbRead "get_enabled_aux_metadata_sources"] ++ [])
             ++ concat (alias_task_events m <$> rows)
             ++ match omap (alias_task m keyword user) rows with [] => [] | _ => logs end)).
  unfold search_aliases_from_enabled_sources.
  eapply runs_bind; [apply runs_get_self|].
  eapply runs_bind.
  { eapply runs_bind; [apply runs_emit | apply runs_lift, Hdb]. }
  eapply runs_bind; [apply alias_tasks_runs|].
  destruct (omap (alias_task m keyword user) rows) as [|task tasks].
  { cbn. rewrite strip_falsy_empty. apply runs_mret. }
  rewrite <- (app_nil_r logs).
  eapply runs_bind; [exact Hmerge|].
  rewrite (left_id_L ∅ (∪)). apply runs_mret.
Qed.
End MoreAliases.

(** ** [getProviderConfig] on the providers of the table *)

Section ProviderConfig.
Import MetadataSourceManager.

Lemma dict_set_fresh {V} (k : string) (v : V) (d : pydict V) :
  k ∉ dict_keys d → dict_set k v d = (d ++ [(k, v)])%list.
Proof.
  induction d as [|[k' v'] d IH]; cbn; [done|].
  rewrite not_elem_of_cons. intros [Hne Hnot].
  rewrite decide_False by done. by rewrite IH.
Qed.

Lemma foldl_dict_set_fresh (f : string → string) (keys : list string) (acc : pydict string) :
  NoDup (dict_keys acc ++ keys) →
  foldl (λ d k, dict_set k (f k) d) acc keys = (acc ++ ((λ k, (k, f k)) <$> keys))%list.
Proof.
  revert acc. induction keys as [|k keys IH]; intros acc Hnd; cbn.
  { by rewrite app_nil_r. }
  apply NoDup_app in Hnd as (Hacc & Hdisj & Hkeys).
  apply NoDup_cons in Hkeys as [Hk Hkeys].
  rewrite dict_set_fresh by (intros Hin; apply (Hdisj k Hin); left).
  rewrite IH.
  - by rewrite <- app_assoc.
  - unfold dict_keys. rewrite fmap_app. cbn. rewrite <- app_assoc. cbn.
    apply NoDup_app. split; [done|]. split; [|by apply NoDup_cons].
    intros x Hx. apply Hdisj. done.
Qed.

Lemma fetch_config_runs (m : t) (f : string → string) (keys : list string)
    (acc : pydict string) :
  (∀ k, k ∈ keys → _config_manager m k "" = Returned (f k)) →
  runs (fetch_config m keys acc) m (foldl (λ d k, dict_set k (f k) d) acc keys) m
       (ConfigRead <$> keys).
Proof.
  revert acc. induction keys as [|k keys IH]; intros acc Hcm; [done|].
  cbn [fetch_config foldl fmap list_fmap].
  change (ConfigRead k :: (ConfigRead <$> keys)) with ([ConfigRead k] ++ (ConfigRead <$> keys))%list.
  eapply runs_bind; [apply runs_config_get, Hcm; left|].
  apply IH. intros k' Hk'. apply Hcm. by right.
Qed.

Lemma config_keys_NoDup (provider : string) (keys : list string) :
  dict_get provider config_keys_map = Some keys → NoDup keys.
Proof.
  unfold config_keys_map. cbn.
  repeat (case_decide; [intros [= <-]; by_decide|]). done.
Qed.

(** X6. For a loaded provider of the configuration-key table whose keys
    can all be read, [getProviderConfig] reads each key of the entry once,
    in order and with the default [""]; it returns one entry per key with
    the stored value, or for douban and tvdb the single entry [value]
    holding the value of their key; it logs nothing and leaves the manager
    unchanged.  For imdb this is the empty dictionary without any read. *)
Theorem getProviderConfig_reads_table_keys (m : t) (provider : string)
    (keys : list string) (f : string → string) :
  provider ∈ dict_keys (sources m) →
  dict_get provider config_keys_map = Some keys →
  (∀ k, k ∈ keys → _config_manager m k "" = Returned (f k)) →
  getProviderConfig provider m =
    Run (Returned (provider_config provider keys f)) m (ConfigRead <$> keys).
Proof.
  intros Hin%dict_contains_true Htable Hcm.
  assert (runs (getProviderConfig provider) m (provider_config provider keys f) m
            ([] ++ (ConfigRead <$> keys) ++ [])) as Hrun.
  { unfold getProviderConfig.
    eapply runs_bind; [apply runs_get_self|].
    rewrite Hin. cbn [negb]. rewrite Htable.
    eapply runs_bind; [by apply fetch_config_runs|].
    rewrite foldl_dict_set_fresh by (cbn; by eapply config_keys_NoDup).
    unfold provider_config. cbn [app].
    case_bool_decide; [|apply runs_mret].
    unfold dict_values. rewrite <- list_fmap_compose.
    destruct keys; apply runs_mret. }
  by rewrite app_nil_r in Hrun.
Qed.

Lemma fetch_config_fails (m : t) (f : string → string) (before after : list string)
    (k : string) (e : exn) (acc : pydict string) :
  (∀ k', k' ∈ before → _config_manager m k' "" = Returned (f k')) →
  _config_manager m k "" = Raised e →
  fails (fetch_config m (before ++ k :: after)%list acc) m e m (ConfigRead <$> (before ++ [k])%list).
Proof.
  revert acc. induction before as [|k0 before IH]; intros acc Hcm Hk.
  - cbn. apply fails_bind_l. by apply fails_config_get.
  - cbn [app fetch_config fmap list_fmap].
    change (ConfigRead k0 :: (ConfigRead <$> (before ++ [k])%list))
      with ([ConfigRead k0] ++ (ConfigRead <$> (before ++ [k])%list))%list.
    eapply fails_bind_r; [apply runs_config_get, Hcm; left|].
    apply IH; [|done]. intros k' Hk'. apply Hcm. by right.
Qed.

(** X7. [getProviderConfig] does not catch a failing configuration read:
    if the keys before [k] in the entry of a loaded provider can be read
    and the read of [k] raises, the call raises that exception after
    reading exactly those keys, and the later keys are not read. *)
Theorem getProviderConfig_propagates_read_failure (m : t) (provider : string)
    (before after : list string) (k : string) (f : string → string) (e : exn) :
  provider ∈ dict_keys (sources m) →
  dict_get provider config_keys_map = Some (before ++ k :: after)%list →
  (∀ k', k' ∈ before → _config_manager m k' "" = Returned (f k')) →
  _config_manager m k "" = Raised e →
  getProviderConfig provider m = Run (Raised e) m (ConfigRead <$> (before ++ [k])%list).
Proof.
  intros Hin%dict_contains_true Htable Hcm Hk.
  change (fails (getProviderConfig provider) m e m ([] ++ (ConfigRead <$> (before ++ [k])%list))%list).
  unfold getProviderConfig.
  eapply fails_bind_r; [apply runs_get_self|].
  rewrite Hin. cbn [negb]. rewrite Htable.
  apply fails_bind_l. by apply (fetch_config_fails m f).
Qed.
End ProviderConfig.

(** ** Routed operations on a loaded source *)

Section Routed.
Import MetadataSourceManager.

Lemma call_method_run {B} (m : t) (provider name : string) (f : method B)
    (npos : nat) (kws : list string) (run_body : B → outcome pyval) :
  call_method provider name f npos kws run_body m =
    match bind_error (qualname f) (params f) npos kws with
    | Some e => Run (Raised e) m []
    | None => Run (run_body (body f)) m [Invoked provider name]
    end.
Proof.
  unfold call_method. destruct (bind_error _ _ _ _); [done|].
  rewrite bind_run. cbn. by destruct (run_body (body f)).
Qed.

(** X8. On a loaded source whose method accepts the call, [search],
    [get_details] and [execute_action] hand back exactly the outcome of the
    source's method, a value or an exception, without catching or wrapping
    it; the method is invoked once and the manager is unchanged. *)
Theorem routed_call_passes_outcome_through (m : t) (provider : string)
    (source_instance : Source.t) (keyword item_id action_name : string)
    (payload : Payload) (user : User) (mediaType : option string) (request : Request) :
  dict_get provider (sources m) = Some source_instance →
  (bind_error (qualname (Source.search source_instance))
     (params (Source.search source_instance)) 2 ["mediaType"] = None →
   search provider keyword user mediaType m =
     Run (body (Source.search source_instance) keyword user mediaType) m
         [Invoked provider "search"])
  ∧ (bind_error (qualname (Source.get_details source_instance))
       (params (Source.get_details source_instance)) 2 ["mediaType"] = None →
     get_details provider item_id user mediaType m =
       Run (body (Source.get_details source_instance) item_id user mediaType) m
           [Invoked provider "get_details"])
  ∧ (bind_error (qualname (Source.execute_action source_instance))
       (params (Source.execute_action source_instance)) 3 ["request"] = None →
     execute_action provider action_name payload user request m =
       Run (body (Source.execute_action source_instance) action_name payload user request) m
           [Invoked provider "execute_action"]).
Proof.
  intros Hloaded. unfold search, get_details, execute_action.
  rewrite !bind_run. cbn [get_self value final trace]. rewrite Hloaded.
  rewrite !call_method_run.
  repeat split; intros ->; reflexivity.
Qed.

(** X9. [update_tmdb_mappings] delegates only to a loaded tmdb source
    that has the method: then it logs, invokes the method once and returns
    [None], or raises what the method raises.  Otherwise it logs one
    warning and invokes nothing.  The manager is unchanged either way. *)
Theorem update_tmdb_mappings_delegates_or_warns (m : t)
    (update_tmdb_mappings_of : capability (Z → string → User → outcome pyval))
    (tmdb_tv_id : Z) (group_id : string) (user : User) :
  let r := update_tmdb_mappings update_tmdb_mappings_of tmdb_tv_id group_id user m in
  final r = m
  ∧ (∀ tmdb_source f,
       dict_get "tmdb" (sources m) = Some tmdb_source →
       update_tmdb_mappings_of tmdb_source = Some f →
       value r = match f tmdb_tv_id group_id user with
                 | Returned _ => Returned tt
                 | Raised e => Raised e
                 end
       ∧ trace r = [Logged INFO ("管理器: 正在为 TMDB TV ID " +:+ pretty tmdb_tv_id
                                 +:+ " 和 Group ID " +:+ group_id +:+ " 委派映射更新。");
                    Invoked "tmdb" "update_tmdb_mappings"])
  ∧ ((dict_get "tmdb" (sources m) = None
      ∨ ∃ tmdb_source, dict_get "tmdb" (sources m) = Some tmdb_source
                       ∧ update_tmdb_mappings_of tmdb_source = None) →
     value r = Returned tt
     ∧ trace r = [Logged WARNING "TMDB 元数据源未加载或不支持 `update_tmdb_mappings` 方法。"]).
Proof.
  cbn zeta. unfold update_tmdb_mappings. rewrite bind_run. cbn [get_self value final trace].
  destruct (dict_get "tmdb" (sources m)) as [src|] eqn:Hsrc; cbn [mbind option_bind].
  - destruct (update_tmdb_mappings_of src) as [f|] eqn:Hcap.
    + split; [|split].
      * rewrite !bind_run. cbn. by destruct (f tmdb_tv_id group_id user).
      * intros src' f' [= <-] Hf'. rewrite Hcap in Hf'. injection Hf' as <-.
        rewrite !bind_run. cbn. by destruct (f tmdb_tv_id group_id user).
      * intros [?|(src' & [= <-] & Hnone)]; [done | congruence].
    + split; [done|]. split; [|done].
      intros src' f' [= <-] Hf'. congruence.
  - split; [done|]. split; [|done]. by intros src' f' [=].
Qed.

Lemma mount_routers_runs `{Runtime} (m : t) (api_router_of : capability APIRouter)
    (items : list (string * Source.t)) (app : list Mount) :
  ∃ logs, runs (mount_routers api_router_of items app) m
               (app ++ omap (mount_of api_router_of) items)%list m logs
          ∧ Forall (λ ev, is_logged ev = true) logs.
Proof.
  revert app. induction items as [|[name src] items IH]; intros app.
  { exists []. split; [|done]. cbn. rewrite app_nil_r. apply runs_mret. }
  cbn [mount_routers omap list_omap]. unfold mount_of at 1. cbn [fst snd].
  destruct (api_router_of src) as [router|]; cbn [fmap option_fmap option_map]; [|apply IH].
  destruct (IH (app ++ [ {| mount_router := router;
                            mount_prefix := "/api/metadata/" +:+ name;
                            mount_tags := ["Metadata - " +:+ str_capitalize name] |} ])%list)
    as (logs & Hrun & Hlogs).
  exists ([Logged INFO ("已为源 '" +:+ name +:+ "' 挂载API路由，前缀: "
                        +:+ ("/api/metadata/" +:+ name))] ++ logs)%list.
  split; [|by constructor].
  eapply runs_bind; [apply runs_logger|].
  rewrite <- app_assoc in Hrun. exact Hrun.
Qed.

(** The whole run of [register_source_routers]. *)
Lemma register_source_routers_run `{Runtime} (m : t)
    (api_router_of : capability APIRouter) (app : list Mount) :
  ∃ logs,
    register_source_routers api_router_of app m =
      Run (Returned (app ++ omap (mount_of api_router_of) (sources m))%list) m logs
    ∧ Forall (λ ev, is_logged ev = true) logs.
Proof.
  destruct (mount_routers_runs m api_router_of (sources m) app) as (logs & Hrun & Hlogs).
  exists ([Logged INFO "正在注册元数据源提供的API路由..."] ++ [] ++ logs)%list.
  split; [|by constructor].
  unfold register_source_routers.
  eapply runs_bind; [apply runs_logger|].
  eapply runs_bind; [apply runs_get_self | exact Hrun].
Qed.

(** X10. [register_source_routers] never raises and leaves the manager
    unchanged; it keeps the mounts the application already has and adds,
    in the order of the map, one mount for every loaded source that has a
    router, under the prefix [/api/metadata/] followed by the provider
    name and with the tag [Metadata - ] followed by what [str.capitalize]
    makes of the name; it invokes no operation of a source. *)
Theorem register_source_routers_mounts_each_router `{Runtime} (m : t)
    (api_router_of : capability APIRouter) (app : list Mount) :
  ∃ logs,
    register_source_routers api_router_of app m =
      Run (Returned (app ++ omap (mount_of api_router_of) (sources m))%list) m logs
    ∧ Forall (λ ev, is_logged ev = true) logs.
Proof. apply register_source_routers_run. Qed.
End Routed.

(** ** [load_and_sync_sources] *)

Section Reload.
Import MetadataSourceManager.

Lemma runs_try_except {S A} (c : M S A) (h : exn → M S A) (s s' : S) a tr :
  runs c s a s' tr → runs (try_except c h) s a s' tr.
Proof. unfold runs, try_except. by intros ->. Qed.

Lemma runs_try_except_handled {S A} (c : M S A) (h : exn → M S A) (s s1 s2 : S) e a tr1 tr2 :
  fails c s e s1 tr1 → runs (h e) s1 a s2 tr2 → runs (try_except c h) s a s2 (tr1 ++ tr2).
Proof. unfold runs, fails, try_except. intros -> Hh. cbn. by rewrite Hh. Qed.

Lemma runs_on_manager {A} (c : M t A) (s : Registry.t) a m' tr :
  runs c (Registry.manager s) a m' tr →
  runs (on_manager c) s a
       {| Registry.manager := m'; Registry._source_classes := Registry._source_classes s |} tr.
Proof. unfold runs, on_manager. by intros ->. Qed.

Lemma scan_classes_runs (name module_name : string) (members : list PluginClass)
    (acc : list string) (s : Registry.t) :
  ∃ logs,
    runs (scan_classes name module_name members acc) s
         (acc ++ (plugins_in module_name members).*1)%list
         (set_source_classes
            (dict_of_assignments (Registry._source_classes s) (plugins_in module_name members)) s)
         logs
    ∧ Forall (λ ev, is_logged ev = true) logs.
Proof.
  revert acc s. induction members as [|obj members IH]; intros acc s.
  { exists []. split; [|done]. unfold runs. cbn. rewrite app_nil_r. by destruct s. }
  cbn [scan_classes]. unfold plugins_in in *. cbn [omap list_omap].
  destruct (class_provider_name obj) as [p|] eqn:Hp; [|destruct (is_plugin _ _); apply IH].
  destruct (is_plugin module_name obj); [|apply IH]. cbn [fmap option_fmap option_map].
  destruct (IH (acc ++ [p])%list
              (set_source_classes (dict_set p obj (Registry._source_classes s)) s))
    as (logs & Hrun & Hlogs).
  set (warn := if dict_contains p (Registry._source_classes s)
               then [Logged WARNING ("发现重复的元数据源 '" +:+ p +:+ "'。将被覆盖。")]
               else []).
  exists ([] ++ warn ++ [] ++ [Logged INFO ("元数据源 '" +:+ p +:+ "' (来自模块 " +:+ name
                                          +:+ ") 已发现。")] ++ logs)%list.
  split.
  - eapply runs_bind; [apply runs_get_self|].
    eapply runs_bind.
    { unfold warn. destruct (dict_contains p _); [apply runs_logger | apply runs_mret]. }
    eapply runs_bind; [apply runs_modify_self|].
    eapply runs_bind; [apply runs_logger|].
    cbn [fmap list_fmap fst]. rewrite <- app_assoc in Hrun. exact Hrun.
  - unfold warn. destruct (dict_contains p _); by repeat constructor.
Qed.

Lemma dict_of_assignments_app {V} (d : pydict V) (l1 l2 : list (string * V)) :
  dict_of_assignments d (l1 ++ l2) = dict_of_assignments (dict_of_assignments d l1) l2.
Proof. unfold dict_of_assignments. apply foldl_app. Qed.

Lemma discover_runs (modules : list PluginModule) (acc : list string) (s : Registry.t) :
  ∃ logs,
    runs (discover modules acc) s
         (acc ++ (discovered_plugins modules).*1)%list
         (set_source_classes
            (dict_of_assignments (Registry._source_classes s) (discovered_plugins modules)) s)
         logs
    ∧ Forall (λ ev, is_logged ev = true) logs.
Proof.
  revert acc s. induction modules as [|md modules IH]; intros acc s.
  { exists []. split; [|done]. unfold runs. cbn. rewrite app_nil_r. by destruct s. }
  cbn [discover]. unfold discovered_plugins in *. cbn [fmap list_fmap concat].
  unfold plugins_of at 1 3.
  destruct (String.prefix "_" (iter_name md) || bool_decide (iter_name md = "base")).
  { cbn [app]. apply IH. }
  destruct (import_module md) as [members|e] eqn:Himport.
  - destruct (scan_classes_runs (iter_name md) ("src.metadata_sources." +:+ iter_name md)
                members acc s) as (logs1 & Hscan & Hlogs1).
    set (found := plugins_in ("src.metadata_sources." +:+ iter_name md) members) in *.
    destruct (IH (acc ++ found.*1)%list
                (set_source_classes (dict_of_assignments (Registry._source_classes s) found) s))
      as (logs2 & Hrest & Hlogs2).
    exists (([] ++ logs1) ++ logs2)%list. split; [|by apply Forall_app].
    rewrite fmap_app, app_assoc, dict_of_assignments_app.
    eapply runs_bind; [|exact Hrest].
    apply runs_try_except. eapply runs_bind; [by apply runs_lift | exact Hscan].
  - destruct (IH acc s) as (logs2 & Hrest & Hlogs2).
    exists (([] ++ [Logged ERROR ("从模块 " +:+ iter_name md +:+ " 加载元数据源失败: "
                                 +:+ exn_str e)] ++ []) ++ logs2)%list.
    split; [|by constructor].
    eapply (runs_bind _ _ s s); [|exact Hrest].
    eapply (runs_try_except_handled _ _ s s s e acc [] [_]).
    + apply fails_bind_l. by apply fails_lift.
    + rewrite <- (app_nil_r [_]). eapply runs_bind; [apply runs_logger | apply runs_mret].
Qed.

Lemma instantiate_all_runs (items : list (string * PluginClass)) (inst : PluginClass → Source.t)
    (s : Registry.t) :
  (∀ item, item ∈ items →
     instantiate item.2 (_session_factory (Registry.manager s))
       (_config_manager (Registry.manager s)) = Returned (inst item.2)) →
  ∃ logs,
    runs (instantiate_all items) s tt
         (on_manager_state
            (λ m, set_sources (dict_of_assignments (sources m) ((λ kv, (kv.1, inst kv.2)) <$> items))
                              m) s)
         logs
    ∧ Forall (λ ev, is_logged ev = true) logs.
Proof.
  revert s. induction items as [|[p cls] items IH]; intros s Hinst.
  { exists []. split; [|done]. unfold runs. cbn. by destruct s as [[] ?]. }
  destruct (IH (on_manager_state (λ m, set_sources (dict_set p (inst cls) (sources m)) m) s))
    as (logs & Hrun & Hlogs).
  { intros item Hitem. cbn. apply Hinst. by right. }
  exists ([] ++ [] ++ [] ++ [Logged INFO ("已加载元数据源 '" +:+ p +:+ "'。")] ++ logs)%list.
  split; [|by constructor].
  cbn [instantiate_all].
  eapply runs_bind; [apply runs_get_self|].
  eapply runs_bind; [apply runs_lift, (Hinst (p, cls)); left|].
  eapply runs_bind; [apply runs_modify_self|].
  eapply runs_bind; [apply runs_logger | exact Hrun].
Qed.
End Reload.

(** ** Dictionaries filled by assignments *)

Lemma dict_set_keys {V} (k : string) (v : V) (d : pydict V) (x : string) :
  x ∈ dict_keys (dict_set k v d) ↔ x = k ∨ x ∈ dict_keys d.
Proof.
  induction d as [|[k' v'] d IH]; cbn.
  - rewrite elem_of_cons. tauto.
  - destruct (decide (k = k')) as [->|Hne]; cbn; rewrite !elem_of_cons.
    + tauto.
    + fold (dict_keys (dict_set k v d)). fold (dict_keys d). rewrite IH. tauto.
Qed.

Lemma dict_set_NoDup {V} (k : string) (v : V) (d : pydict V) :
  NoDup (dict_keys d) → NoDup (dict_keys (dict_set k v d)).
Proof.
  induction d as [|[k' v'] d IH]; cbn; intros Hnd.
  - apply NoDup_singleton.
  - apply NoDup_cons in Hnd as [Hk' Hnd].
    destruct (decide (k = k')) as [->|Hne]; cbn; apply NoDup_cons.
    + done.
    + split; [|by apply IH].
      fold (dict_keys (dict_set k v d)). rewrite dict_set_keys.
      intros [->|Hin]; [done | by apply Hk'].
Qed.

Lemma dict_of_assignments_NoDup {V} (d : pydict V) (pairs : list (string * V)) :
  NoDup (dict_keys d) → NoDup (dict_keys (dict_of_assignments d pairs)).
Proof.
  revert d. induction pairs as [|kv pairs IH]; intros d Hnd; [done|].
  cbn. apply IH. by apply dict_set_NoDup.
Qed.

Lemma dict_of_assignments_fresh {V} (d : pydict V) (pairs : list (string * V)) :
  NoDup (dict_keys d ++ pairs.*1) → dict_of_assignments d pairs = (d ++ pairs)%list.
Proof.
  revert d. induction pairs as [|[k v] pairs IH]; intros d Hnd; cbn.
  { by rewrite app_nil_r. }
  cbn in Hnd. apply NoDup_app in Hnd as (Hd & Hdisj & Hkeys).
  apply NoDup_cons in Hkeys as [Hk Hkeys].
  rewrite dict_set_fresh by (intros Hin; apply (Hdisj k Hin); left).
  fold (dict_of_assignments (d ++ [(k, v)])%list pairs). rewrite IH.
  - by rewrite <- app_assoc.
  - unfold dict_keys. rewrite fmap_app. cbn. rewrite <- app_assoc. cbn.
    apply NoDup_app. split; [done|]. split; [|by apply NoDup_cons].
    intros x Hx. by apply Hdisj.
Qed.

Lemma dict_get_dict_set {V} (k k' : string) (v : V) (d : pydict V) :
  dict_get k' (dict_set k v d) = if decide (k' = k) then Some v else dict_get k' d.
Proof.
  induction d as [|[k0 v0] d IH]; cbn.
  - by destruct (decide (k' = k)).
  - destruct (decide (k = k0)) as [->|Hne]; cbn.
    + by destruct (decide (k' = k0)).
    + rewrite IH. destruct (decide (k' = k0)) as [->|]; [|done].
      by rewrite decide_False by done.
Qed.

(** In a dictionary filled by assignments the last assignment to a key
    is the one that counts. *)
Lemma dict_get_assignments {V} (d : pydict V) (pairs : list (string * V)) (p : string) :
  dict_get p (dict_of_assignments d pairs)
  = match last (filter (λ kv, kv.1 = p) pairs) with
    | Some kv => Some kv.2
    | None => dict_get p d
    end.
Proof.
  revert d. induction pairs as [|[k v] pairs IH]; intros d; [done|].
  change (dict_of_assignments d ((k, v) :: pairs))
    with (dict_of_assignments (dict_set k v d) pairs).
  rewrite IH, filter_cons. cbn [fst snd].
  destruct (decide (k = p)) as [->|Hne].
  - rewrite last_cons. destruct (last (filter _ pairs)); [done|].
    rewrite dict_get_dict_set. by rewrite decide_True.
  - destruct (last (filter _ pairs)); [done|].
    rewrite dict_get_dict_set. by rewrite decide_False.
Qed.

Lemma dict_get_fmap {V W} (g : V → W) (d : pydict V) (p : string) :
  dict_get p ((λ kv, (kv.1, g kv.2)) <$> d) = g <$> dict_get p d.
Proof.
  induction d as [|[k v] d IH]; [done|]. cbn. by destruct (decide (p = k)).
Qed.

Lemma value_final_bind {S A B} (c : M S A) (k : A → M S B) (s s1 : S) a tr :
  runs c s a s1 tr →
  value ((c ≫= k) s) = value (k a s1) ∧ final ((c ≫= k) s) = final (k a s1).
Proof. unfold runs. intros Hc. by rewrite bind_run, Hc. Qed.

Lemma logged_not_invoked (logs : list event) :
  Forall (λ ev, is_logged ev = true) logs → Forall (λ ev, is_invoked ev = false) logs.
Proof. intros Hlogs. eapply Forall_impl; [exact Hlogs|]. by intros []. Qed.

(** ** What a reload leaves behind *)

Section ReloadTheorems.
Import MetadataSourceManager.

Lemma reinstantiated_sources (plugins : list (string * PluginClass))
    (inst : PluginClass → Source.t) :
  dict_of_assignments [] ((λ kv, (kv.1, inst kv.2)) <$> dict_of_assignments [] plugins)
  = (λ kv, (kv.1, inst kv.2)) <$> dict_of_assignments [] plugins.
Proof.
  rewrite dict_of_assignments_fresh; [done|]. cbn.
  rewrite <- list_fmap_compose.
  change (NoDup (dict_keys (dict_of_assignments [] plugins))).
  apply dict_of_assignments_NoDup. constructor.
Qed.

(** The whole run of a reload that goes through. *)
Lemma load_and_sync_sources_run (s : Registry.t) (modules : list PluginModule)
    (sync : Database → list string → outcome Database) (db : Database)
    (settings_list : list SourceSetting) (inst : PluginClass → Source.t) :
  sync (_session_factory (Registry.manager s)) (discovered_plugins modules).*1 = Returned db →
  get_all_metadata_source_settings db = Returned settings_list →
  (∀ item, item ∈ dict_of_assignments [] (discovered_plugins modules) →
     instantiate item.2 db (_config_manager (Registry.manager s)) = Returned (inst item.2)) →
  ∃ logs,
    load_and_sync_sources modules sync s =
      Run (Returned tt) (reloaded s db settings_list (discovered_plugins modules) inst)
          (trace (close_all (Registry.manager s)) ++ logs)
    ∧ Forall (λ ev, is_invoked ev = false) logs.
Proof.
  intros Hsync Hread Hinst. destruct s as [m classes]. cbn [Registry.manager] in *.
  destruct (close_all_run m) as (clogs & Hclose & _).
  rewrite Hclose. cbn [trace].
  set (s0 := {| Registry.manager := set_source_settings [] (set_sources [] m);
                Registry._source_classes := [] |}).
  destruct (discover_runs modules [] s0) as (dlogs & Hdisc & Hdlogs).
  set (plugins := discovered_plugins modules) in *.
  set (s3 := on_manager_state (set_source_settings (settings_by_name settings_list))
               (on_manager_state (set_session_factory db)
                  (set_source_classes (dict_of_assignments [] plugins) s0))).
  destruct (instantiate_all_runs (dict_of_assignments [] plugins) inst s3)
    as (ilogs & Hirun & Hilogs); [exact Hinst|].
  assert (on_manager_state
            (λ m0, set_sources
                     (dict_of_assignments (sources m0)
                        ((λ kv, (kv.1, inst kv.2)) <$> dict_of_assignments [] plugins)) m0) s3
          = reloaded {| Registry.manager := m; Registry._source_classes := classes |}
              db settings_list plugins inst) as Hfinal.
  { unfold reloaded, on_manager_state, set_sources. cbn. by rewrite reinstantiated_sources. }
  rewrite Hfinal in Hirun.
  eexists. split.
  - unfold load_and_sync_sources.
    eapply runs_bind; [apply (runs_on_manager close_all _ tt m), Hclose|].
    eapply runs_bind; [apply runs_modify_self|].
    eapply runs_bind; [apply runs_modify_self|].
    eapply runs_bind; [apply runs_modify_self|].
    eapply runs_bind; [exact Hdisc|].
    eapply runs_bind; [apply runs_get_self|].
    eapply runs_bind.
    { eapply runs_bind; [apply runs_emit | apply runs_lift, Hsync]. }
    eapply runs_bind; [apply runs_modify_self|].
    eapply runs_bind.
    { eapply runs_bind; [apply runs_emit | apply runs_lift, Hread]. }
    eapply runs_bind; [apply runs_modify_self|].
    eapply runs_bind; [apply runs_get_self|].
    exact Hirun.
  - apply logged_not_invoked in Hdlogs, Hilogs.
    repeat (apply Forall_app; split); try done; by repeat constructor.
Qed.

(** X11. A reload that goes through (the synchronisation and the settings
    read return, every discovered class can be instantiated) first closes
    the sources loaded before, as [close_all] does, and invokes no source
    operation afterwards.  It leaves one instance per discovered provider
    name, the settings keyed by provider name and the discovered classes;
    nothing of the sources and settings held before the reload remains. *)
Theorem reload_installs_discovered_plugins (s : Registry.t) (modules : list PluginModule)
    (sync : Database → list string → outcome Database) (db : Database)
    (settings_list : list SourceSetting) (inst : PluginClass → Source.t) :
  sync (_session_factory (Registry.manager s)) (discovered_plugins modules).*1 = Returned db →
  get_all_metadata_source_settings db = Returned settings_list →
  (∀ item, item ∈ dict_of_assignments [] (discovered_plugins modules) →
     instantiate item.2 db (_config_manager (Registry.manager s)) = Returned (inst item.2)) →
  ∃ logs,
    load_and_sync_sources modules sync s =
      Run (Returned tt) (reloaded s db settings_list (discovered_plugins modules) inst)
          (trace (close_all (Registry.manager s)) ++ logs)
    ∧ Forall (λ ev, is_invoked ev = false) logs.
Proof. apply load_and_sync_sources_run. Qed.
End ReloadTheorems.

Section ReloadOutcomes.
Import MetadataSourceManager.

(** X12. After a reload that goes through, the loaded sources have
    pairwise distinct names, the same names in the same order as the
    discovered classes, and under each name the instance of the class that
    was discovered last with that name: a duplicate provider name
    overwrites, it does not add. *)
Theorem reload_last_discovered_class_wins (s : Registry.t) (modules : list PluginModule)
    (sync : Database → list string → outcome Database) (db : Database)
    (settings_list : list SourceSetting) (inst : PluginClass → Source.t) :
  sync (_session_factory (Registry.manager s)) (discovered_plugins modules).*1 = Returned db →
  get_all_metadata_source_settings db = Returned settings_list →
  (∀ item, item ∈ dict_of_assignments [] (discovered_plugins modules) →
     instantiate item.2 db (_config_manager (Registry.manager s)) = Returned (inst item.2)) →
  let s' := final (load_and_sync_sources modules sync s) in
  NoDup (dict_keys (sources (Registry.manager s')))
  ∧ dict_keys (sources (Registry.manager s')) = dict_keys (Registry._source_classes s')
  ∧ ∀ p, dict_get p (sources (Registry.manager s'))
         = (λ kv, inst kv.2) <$> last (filter (λ kv, kv.1 = p) (discovered_plugins modules)).
Proof.
  intros Hsync Hread Hinst.
  destruct (load_and_sync_sources_run s modules sync db settings_list inst
              Hsync Hread Hinst) as (logs & -> & _).
  cbn. unfold dict_keys. rewrite <- list_fmap_compose.
  split; [|split; [done|]].
  - change (NoDup (dict_keys (dict_of_assignments [] (discovered_plugins modules)))).
    apply dict_of_assignments_NoDup. constructor.
  - intros p. rewrite dict_get_fmap, dict_get_assignments.
    by destruct (last _).
Qed.

(** X13. A reload that fails at the database raises the exception of the
    database call, after closing the old sources and clearing both maps:
    the manager is left with no loaded source and an empty settings cache,
    whatever it held before. *)
Theorem reload_failure_leaves_manager_empty (s : Registry.t) (modules : list PluginModule)
    (sync : Database → list string → outcome Database) (e : exn) :
  (sync (_session_factory (Registry.manager s)) (discovered_plugins modules).*1 = Raised e →
   ∃ logs,
     load_and_sync_sources modules sync s =
       Run (Raised e) (emptied s (discovered_plugins modules))
           (trace (close_all (Registry.manager s)) ++ logs))
  ∧ (∀ db,
       sync (_session_factory (Registry.manager s)) (discovered_plugins modules).*1
         = Returned db →
       get_all_metadata_source_settings db = Raised e →
       ∃ logs,
         load_and_sync_sources modules sync s =
           Run (Raised e)
               (on_manager_state (set_session_factory db)
                  (emptied s (discovered_plugins modules)))
               (trace (close_all (Registry.manager s)) ++ logs)).
Proof.
  destruct s as [m classes]. cbn [Registry.manager].
  destruct (close_all_run m) as (clogs & Hclose & _).
  rewrite Hclose. cbn [trace].
  set (s0 := {| Registry.manager := set_source_settings [] (set_sources [] m);
                Registry._source_classes := [] |}).
  destruct (discover_runs modules [] s0) as (dlogs & Hdisc & Hdlogs).
  split.
  - intros Hsync. eexists. unfold load_and_sync_sources.
    eapply fails_bind_r; [apply (runs_on_manager close_all _ tt m), Hclose|].
    eapply fails_bind_r; [apply runs_modify_self|].
    eapply fails_bind_r; [apply runs_modify_self|].
    eapply fails_bind_r; [apply runs_modify_self|].
    eapply fails_bind_r; [exact Hdisc|].
    eapply fails_bind_r; [apply runs_get_self|].
    apply fails_bind_l.
    eapply fails_bind_r; [apply runs_emit | apply fails_lift, Hsync].
  - intros db Hsync Hread. eexists. unfold load_and_sync_sources.
    eapply fails_bind_r; [apply (runs_on_manager close_all _ tt m), Hclose|].
    eapply fails_bind_r; [apply runs_modify_self|].
    eapply fails_bind_r; [apply runs_modify_self|].
    eapply fails_bind_r; [apply runs_modify_self|].
    eapply fails_bind_r; [exact Hdisc|].
    eapply fails_bind_r; [apply runs_get_self|].
    eapply fails_bind_r.
    { eapply runs_bind; [apply runs_emit | apply runs_lift, Hsync]. }
    eapply fails_bind_r; [apply runs_modify_self|].
    apply fails_bind_l.
    eapply fails_bind_r; [apply runs_emit | apply fails_lift, Hread].
Qed.

Lemma value_final_bind_congr {S A B} (c : M S A) (k1 k2 : A → M S B) (s : S) :
  (∀ a s', value (k1 a s') = value (k2 a s') ∧ final (k1 a s') = final (k2 a s')) →
  value ((c ≫= k1) s) = value ((c ≫= k2) s) ∧ final ((c ≫= k1) s) = final ((c ≫= k2) s).
Proof. intros Hk. rewrite !bind_run. destruct (value (c s)); cbn; [apply Hk | done]. Qed.

Lemma discovered_plugins_skip (before after : list PluginModule) (md : PluginModule) :
  plugins_of md = [] →
  discovered_plugins (before ++ md :: after) = discovered_plugins (before ++ after).
Proof.
  intros Hmd. unfold discovered_plugins.
  rewrite !fmap_app, !concat_app. cbn. by rewrite Hmd.
Qed.

(** X14. A module whose name starts with an underscore, or is [base], or
    whose import raises, does not affect a reload: the reload ends with the
    same result and the same manager as if the module were not there. *)
Theorem reload_ignores_unusable_module (s : Registry.t) (before after : list PluginModule)
    (md : PluginModule) (sync : Database → list string → outcome Database) :
  (String.prefix "_" (iter_name md) = true ∨ iter_name md = "base"
   ∨ ∃ e, import_module md = Raised e) →
  value (load_and_sync_sources (before ++ md :: after) sync s)
    = value (load_and_sync_sources (before ++ after) sync s)
  ∧ final (load_and_sync_sources (before ++ md :: after) sync s)
    = final (load_and_sync_sources (before ++ after) sync s).
Proof.
  intros Hmd.
  assert (plugins_of md = []) as Hnone.
  { unfold plugins_of. destruct Hmd as [->|[->|[e ->]]]; [done| |].
    - by rewrite orb_true_r.
    - by destruct (_ || _). }
  unfold load_and_sync_sources.
  do 3 (apply value_final_bind_congr; intros _ ?).
  apply value_final_bind_congr; intros _ s0.
  destruct (discover_runs (before ++ md :: after) [] s0) as (logs1 & Hrun1 & _).
  destruct (discover_runs (before ++ after) [] s0) as (logs2 & Hrun2 & _).
  rewrite discovered_plugins_skip in Hrun1 by done.
  match goal with
  | |- context [discover (before ++ after) [] ≫= ?k] =>
      destruct (value_final_bind _ k _ _ _ _ Hrun1) as [-> ->];
      destruct (value_final_bind _ k _ _ _ _ Hrun2) as [-> ->]
  end.
  done.
Qed.
End ReloadOutcomes.

(** ** More on the TVDB source *)

Lemma bind_returned_inv {S A B} (c : M S A) (k : A → M S B) (s : S) b :
  value ((c ≫= k) s) = Returned b →
  ∃ a, value (c s) = Returned a ∧ value (k a (final (c s))) = Returned b.
Proof.
  rewrite bind_run. destruct (value (c s)) as [a|e]; cbn; [|done]. intros Hk. by exists a.
Qed.

Lemma config_get_returned_inv {S} (cm : ConfigManager) key dflt (s : S) v :
  value (config_get cm key dflt s) = Returned v → cm key dflt = Returned v.
Proof. unfold config_get. rewrite bind_run. cbn. by destruct (cm key dflt). Qed.

Lemma final_config_get {S} (cm : ConfigManager) key dflt (s : S) :
  final (config_get cm key dflt s) = s.
Proof. apply stateless_config_get. Qed.

Lemma try_except_returned_inv {S A} (c : M S A) (h : exn → M S A) (s : S) a :
  (∀ e s', ∃ e', value (h e s') = Raised e') →
  value (try_except c h s) = Returned a → value (c s) = Returned a.
Proof.
  intros Hh. unfold try_except. destruct (value (c s)) as [a'|e] eqn:Hc; [by rewrite Hc|].
  cbn. destruct (Hh e (final (c s))) as [e' ->]. done.
Qed.

Lemma try_except_fails_run {S A} (c : M S A) (h : exn → M S A) (s s1 : S) e tr1 :
  fails c s e s1 tr1 →
  try_except c h s = Run (value (h e s1)) (final (h e s1)) (tr1 ++ trace (h e s1)).
Proof. unfold fails, try_except. by intros ->. Qed.

Section MoreTvdb.
Import TvdbMetadataSource.
Context `{Runtime}.

Lemma create_client_unconfigured_run (self : t) :
  config_manager self "tvdbApiKey" "" = Returned "" →
  fails _create_client self (ValueError "TVDB API Key not configured.") self
        [ConfigRead "tvdbApiKey"].
Proof.
  intros Hkey. unfold _create_client.
  change [ConfigRead "tvdbApiKey"] with ([] ++ [ConfigRead "tvdbApiKey"] ++ [])%list.
  eapply fails_bind_r; [apply runs_get_self|].
  eapply fails_bind_r; [by apply runs_config_get|].
  done.
Qed.

(** X15. Without an API key the TVDB source makes no request and no
    database read: [search] raises the 412 failure, [get_details] returns
    [None] and [check_connectivity] returns the "not configured" text, each
    after the single read of the key. *)
Theorem tvdb_unconfigured_makes_no_request (self : t) (keyword item_id : string)
    (user : User) (mediaType : option string) :
  config_manager self "tvdbApiKey" "" = Returned "" →
  search keyword user mediaType self =
    Run (Raised (HTTPException 412 "TVDB API Key not configured.")) self
        [ConfigRead "tvdbApiKey"]
  ∧ get_details item_id user mediaType self =
    Run (Returned None) self
        [ConfigRead "tvdbApiKey";
         Logged ERROR ("TVDB获取详情失败: " +:+ "TVDB API Key not configured.")]
  ∧ check_connectivity self =
    Run (Returned ("未配置: " +:+ "TVDB API Key not configured.")) self
        [ConfigRead "tvdbApiKey"].
Proof.
  intros Hkey. pose proof (create_client_unconfigured_run self Hkey) as Hclient.
  repeat split.
  - assert (fails (search_try keyword) self (ValueError "TVDB API Key not configured.") self
              [ConfigRead "tvdbApiKey"]) as Htry by apply fails_bind_l, Hclient.
    unfold search. by rewrite (try_except_fails_run _ _ _ _ _ _ Htry).
  - assert (fails (get_details_try item_id) self (ValueError "TVDB API Key not configured.")
              self [ConfigRead "tvdbApiKey"]) as Htry by apply fails_bind_l, Hclient.
    unfold get_details. by rewrite (try_except_fails_run _ _ _ _ _ _ Htry).
  - unfold check_connectivity.
    by rewrite (try_except_fails_run _ _ _ _ _ _ (fails_bind_l _ _ _ _ _ _ Hclient)).
Qed.

Lemma try_except_value {S A} (c : M S A) (h : exn → M S A) (s : S) :
  value (try_except c h s) =
    match value (c s) with
    | Returned a => Returned a
    | Raised e => value (h e (final (c s)))
    end.
Proof. unfold try_except. by destruct (value (c s)) eqn:Hc. Qed.

(** X16. [check_connectivity] of the TVDB source never raises: it always
    returns a text.  When the client can be built and the upstream answers,
    the text tells the status: success for 200, an invalid key for 401, the
    status code otherwise; when the request itself raises, the text carries
    the exception.  When the client cannot be built, no request is judged:
    the text is the "not configured" one for a [ValueError], as the
    constructor raises on a proxy it cannot use, and the "failed" one
    otherwise. *)
Theorem tvdb_check_connectivity_never_raises (self : t) :
  (∃ text, value (check_connectivity self) = Returned text)
  ∧ (∀ client response,
       returns _create_client self client →
       http_get self client "/search" [("query", "test")] = Returned response →
       value (check_connectivity self) =
         Returned (if status_code response =? 200 then "连接成功"
                   else if status_code response =? 401 then "连接失败 (API Key无效)"
                   else "连接失败 (状态码: " +:+ pretty (status_code response) +:+ ")"))
  ∧ (∀ client e,
       returns _create_client self client →
       http_get self client "/search" [("query", "test")] = Raised e →
       is_ValueError e = false →
       value (check_connectivity self) = Returned ("连接失败: " +:+ exn_str e))
  ∧ (∀ e, raises _create_client self e →
          value (check_connectivity self) =
            Returned (if is_ValueError e then "未配置: " +:+ exn_str e
                      else "连接失败: " +:+ exn_str e)).
Proof.
  unfold check_connectivity. repeat split.
  - rewrite try_except_value. destruct (value _) as [text|e]; [by eexists|].
    destruct (is_ValueError e); by eexists.
  - intros client response Hclient Hget. apply try_except_returned.
    eapply returns_bind; [exact Hclient|].
    eapply returns_bind; [by apply returns_client_get|].
    destruct (status_code response =? 200), (status_code response =? 401);
      apply returns_mret.
  - intros client e Hclient Hget Hv.
    rewrite (try_except_raised _ _ _ e).
    + by rewrite Hv.
    + eapply raises_bind_r; [exact Hclient|]. apply raises_bind_l. unfold client_get.
      eapply raises_bind_r; [apply returns_get_self|].
      eapply raises_bind_r; [apply returns_emit | by apply raises_lift].
  - intros e Hclient.
    rewrite (try_except_raised _ _ _ e) by (by apply raises_bind_l).
    by destruct (is_ValueError e).
Qed.

(** X17. A client that [_create_client] returns carries the configured,
    non-empty API key as bearer token and the TVDB base URL, and the
    constructor accepted it; it has a proxy only if the proxy URL is not
    empty, [proxy_enabled] is [true] up to letter case, and the settings
    row of tvdb has [use_proxy] set. *)
Theorem tvdb_client_configuration (self : t) (client : AsyncClient) :
  value (_create_client self) = Returned client →
  ∃ api_key,
    config_manager self "tvdbApiKey" "" = Returned api_key
    ∧ api_key ≠ ""
    ∧ headers client = [("Authorization", "Bearer " +:+ api_key)]
    ∧ base_url client = "https://api4.thetvdb.com/v4"
    ∧ AsyncClient_error (base_url client) (headers client) (proxy client) = None
    ∧ ∀ proxy_url,
        proxy client = Some proxy_url →
        proxy_url ≠ ""
        ∧ config_manager self "proxy_url" "" = Returned proxy_url
        ∧ (∃ flag, config_manager self "proxy_enabled" "false" = Returned flag
                   ∧ lower flag = "true")
        ∧ ∃ rows row,
            get_all_metadata_source_settings (_session_factory self) = Returned rows
            ∧ List.find (λ s, bool_decide (providerName s = "tvdb")) rows = Some row
            ∧ use_proxy row = Some true.
Proof.
  unfold _create_client. intros Hrun.
  apply bind_returned_inv in Hrun as (self' & [= <-] & Hrun). cbn [get_self final] in Hrun.
  apply bind_returned_inv in Hrun as (api_key & Hkey%config_get_returned_inv & Hrun).
  rewrite final_config_get in Hrun.
  case_bool_decide as Hne; [done|].
  apply bind_returned_inv in Hrun as (proxy_url & Hurl%config_get_returned_inv & Hrun).
  rewrite final_config_get in Hrun.
  apply bind_returned_inv in Hrun as (flag & Hflag%config_get_returned_inv & Hrun).
  rewrite final_config_get in Hrun.
  apply bind_returned_inv in Hrun as (rows & Hrows & Hrun).
  rewrite bind_run in Hrows. cbn in Hrows, Hrun.
  destruct (get_all_metadata_source_settings (_session_factory self)) as [rows'|] eqn:Hdb;
    [|done]. cbn in Hrows, Hrun. injection Hrows as ->.
  destruct (AsyncClient_error _ _ _) eqn:Hctor; [done|]. injection Hrun as <-.
  exists api_key. repeat split; try done. cbn [proxy] in *.
  all: destruct (bool_decide (lower flag = "true")) eqn:Hflag'; [|done];
       destruct (List.find _ rows) as [row|] eqn:Hrow; [|done];
       destruct (use_proxy row) as [[]|] eqn:Huse; try done;
       cbn in *; case_bool_decide; [done|]; cbn in *; simplify_eq.
  - done.
  - done.
  - exists flag. split; [done|]. by apply bool_decide_eq_true in Hflag'.
  - by exists rows, row.
Qed.
End MoreTvdb.

Lemma lift_returned_inv {S A} (o : outcome A) (s : S) a :
  value (lift o s) = Returned a → o = Returned a.
Proof. done. Qed.

Section TvdbResults.
Import TvdbMetadataSource.
Context `{Runtime}.

Lemma search_results_returned (self : t) (items : list json)
    (l : list MetadataDetailsResponse.t) :
  value (search_results items self) = Returned l →
  length l = length (filter (λ item, is_series item = true) items)
  ∧ ∀ item, item ∈ items → is_series item = true →
            ∃ v, py_subscript item "tvdb_id" = Returned v.
Proof.
  revert l. induction items as [|item items IH]; intros l Hrun.
  { injection Hrun as <-. split; [done|]. by intros item Hin%elem_of_nil. }
  cbn [search_results] in Hrun.
  apply bind_returned_inv in Hrun as (ty & Hty%lift_returned_inv & Hrun). cbn [lift final] in Hrun.
  assert (is_series item = json_is_str ty "series") as Hseries
    by (unfold is_series; by rewrite Hty).
  rewrite filter_cons. destruct (json_is_str ty "series") eqn:Hstr; cbn [negb] in Hrun.
  - apply bind_returned_inv in Hrun as (tvdb_id & Hid%lift_returned_inv & Hrun).
    apply bind_returned_inv in Hrun as (name & _ & Hrun).
    apply bind_returned_inv in Hrun as (image_url & _ & Hrun).
    apply bind_returned_inv in Hrun as (year & _ & Hrun).
    apply bind_returned_inv in Hrun as (r & _ & Hrun).
    apply bind_returned_inv in Hrun as (rest & Hrest & Hrun).
    cbn [lift final] in Hrest. injection Hrun as <-.
    destruct (IH rest Hrest) as [Hlen Hids].
    rewrite decide_True by done. cbn. rewrite Hlen. split; [done|].
    intros item' [->|Hin]%elem_of_cons Hs; [by exists tvdb_id | by apply Hids].
  - destruct (IH l Hrun) as [Hlen Hids].
    rewrite decide_False by (rewrite Hseries; done). split; [done|].
    intros item' [->|Hin]%elem_of_cons Hs; [congruence | by apply Hids].
Qed.

Lemma client_get_returned_inv (self : t) client path query response :
  value (client_get client path query self) = Returned response →
  http_get self client path query = Returned response.
Proof.
  unfold client_get. rewrite !bind_run. cbn.
  by destruct (http_get self client path query).
Qed.

Lemma final_client_get (self : t) client path query :
  final (client_get client path query self) = self.
Proof.
  unfold client_get. rewrite !bind_run. cbn.
  by destruct (http_get self client path query).
Qed.

Lemma raise_for_status_returned_inv (self : t) (response : Response) u :
  value (raise_for_status response self) = Returned u →
  200 ≤ status_code response < 300 ∧ final (raise_for_status response self) = self.
Proof.
  unfold raise_for_status.
  destruct (Z.leb_spec 200 (status_code response)),
           (Z.ltb_spec (status_code response) 300); cbn; try done.
  all: intros _; split; [lia | done].
Qed.

(** X18. If [search] of the TVDB source returns, the client was built, the
    upstream answered the search request with a 2xx status and a JSON
    object, and the result has exactly one record per item whose [type] is
    [series]; every such item has a [tvdb_id].  So one series item without
    identifier makes the whole search fail, and items of other types never
    do. *)
Theorem tvdb_search_keeps_series_only (self : t) (keyword : string) (user : User)
    (mediaType : option string) (l : list MetadataDetailsResponse.t) :
  value (search keyword user mediaType self) = Returned l →
  ∃ client response decoded data items,
    value (_create_client self) = Returned client
    ∧ http_get self client "/search" [("query", keyword)] = Returned response
    ∧ 200 ≤ status_code response < 300
    ∧ body_json response = Returned decoded
    ∧ py_get decoded "data" (JList []) = Returned data
    ∧ py_iter data = Returned items
    ∧ length l = length (filter (λ item, is_series item = true) items)
    ∧ ∀ item, item ∈ items → is_series item = true →
              ∃ v, py_subscript item "tvdb_id" = Returned v.
Proof.
  unfold search. intros Hrun.
  apply try_except_returned_inv in Hrun;
    [|intros e s'; eexists; apply search_except_value].
  unfold search_try in Hrun.
  apply bind_returned_inv in Hrun as (client & Hclient & Hrun).
  rewrite stateless_create_client in Hrun.
  apply bind_returned_inv in Hrun as (response & Hget%client_get_returned_inv & Hrun).
  rewrite final_client_get in Hrun.
  apply bind_returned_inv in Hrun as (u & [Hcode Hfin]%raise_for_status_returned_inv & Hrun).
  rewrite Hfin in Hrun.
  apply bind_returned_inv in Hrun as (decoded & Hjson%lift_returned_inv & Hrun).
  apply bind_returned_inv in Hrun as (data & Hdata%lift_returned_inv & Hrun).
  apply bind_returned_inv in Hrun as (items & Hitems%lift_returned_inv & Hrun).
  cbn [lift final] in Hrun.
  destruct (search_results_returned self items l Hrun) as [Hlen Hids].
  by exists client, response, decoded, data, items.
Qed.

Lemma returns_raise_for_status (self : t) (response : Response) :
  200 ≤ status_code response < 300 → returns (raise_for_status response) self tt.
Proof.
  intros Hcode. unfold raise_for_status.
  destruct (Z.leb_spec 200 (status_code response)),
           (Z.ltb_spec (status_code response) 300); cbn; first [lia | apply returns_mret].
Qed.

(** X19. On a 2xx answer whose JSON object has no [data] entry the two
    lookups differ: [search] returns the empty list, while [get_details]
    returns [None], because the missing [id] raises inside its [try]. *)
Theorem tvdb_answer_without_data (self : t) (keyword item_id : string) (user : User)
    (mediaType : option string) (client : AsyncClient) (response : Response)
    (d : list (string * json)) :
  returns _create_client self client →
  200 ≤ status_code response < 300 →
  body_json response = Returned (JDict d) →
  dict_get "data" d = None →
  (http_get self client "/search" [("query", keyword)] = Returned response →
   value (search keyword user mediaType self) = Returned [])
  ∧ (http_get self client ("/series/" +:+ item_id +:+ "/extended") [] = Returned response →
     value (get_details item_id user mediaType self) = Returned None).
Proof.
  intros Hclient Hcode Hjson Hdata. split; intros Hget.
  - unfold search. apply try_except_returned.
    assert (returns (search_try keyword) self []) as [Hv _]; [|done].
    unfold search_try.
    eapply returns_bind; [exact Hclient|].
    eapply returns_bind; [by apply returns_client_get|].
    eapply returns_bind; [by apply returns_raise_for_status|].
    eapply returns_bind; [by apply returns_lift|].
    eapply returns_bind; [apply returns_lift; cbn; by rewrite Hdata|].
    eapply returns_bind; [by apply returns_lift|].
    apply returns_mret.
  - unfold get_details. rewrite (try_except_raised _ _ _ (KeyError "id")); [done|].
    unfold get_details_try.
    eapply raises_bind_r; [exact Hclient|].
    eapply raises_bind_r; [by apply returns_client_get|].
    destruct (status_code response =? 404) eqn:H404; [lia|].
    eapply raises_bind_r; [by apply returns_raise_for_status|].
    eapply raises_bind_r; [by apply returns_lift|].
    eapply raises_bind_r; [apply returns_lift; cbn; by rewrite Hdata|].
    eapply raises_bind_r; [by apply returns_lift|].
    cbn [json_truthy].
    eapply raises_bind_r; [apply returns_mret|].
    apply raises_bind_l. by apply raises_lift.
Qed.

Lemma first_imdb_dicts (rids : list json) :
  Forall (λ rid, is_dict rid = true) rids →
  first_imdb rids = Returned (default JNull (List.find is_imdb rids)).
Proof.
  induction 1 as [|rid rids Hrid _ IH]; [done|].
  destruct rid; try done. cbn. unfold is_imdb. cbn.
  by destruct (json_is_str _ "IMDB").
Qed.

(** X20. On a 2xx answer other than 404 whose [data] is an object with an
    [id] and whose [remoteIds], if present, is a list of objects,
    [get_details] builds the record from that object: [id] and [tvdbId]
    are the text of the identifier, [imdbId] is the [id] of the first
    remote id whose [sourceName] is [IMDB], or [None] if there is none.
    The record is returned if the model accepts it, else [None]. *)
Theorem tvdb_get_details_record (self : t) (item_id : string) (user : User)
    (mediaType : option string) (client : AsyncClient) (response : Response)
    (decoded : json) (details : list (string * json)) (identifier : json)
    (rids : list json) :
  returns _create_client self client →
  http_get self client ("/series/" +:+ item_id +:+ "/extended") [] = Returned response →
  200 ≤ status_code response < 300 →
  body_json response = Returned decoded →
  py_get decoded "data" (JDict []) = Returned (JDict details) →
  dict_get "id" details = Some identifier →
  default (JList []) (dict_get "remoteIds" details) = JList rids →
  Forall (λ rid, is_dict rid = true) rids →
  value (get_details item_id user mediaType self) =
    Returned
      match new_MetadataDetailsResponse {|
              MetadataDetailsResponse.id := JStr (py_str identifier);
              MetadataDetailsResponse.tvdbId := JStr (py_str identifier);
              MetadataDetailsResponse.title := default JNull (dict_get "name" details);
              MetadataDetailsResponse.imageUrl := default JNull (dict_get "image" details);
              MetadataDetailsResponse.details := default JNull (dict_get "overview" details);
              MetadataDetailsResponse.imdbId := imdb_of rids |} with
      | Returned r => Some r
      | Raised _ => None
      end.
Proof.
  intros Hclient Hget Hcode Hjson Hdata Hid Hrids Hdicts.
  set (record := {| MetadataDetailsResponse.id := JStr (py_str identifier);
                    MetadataDetailsResponse.tvdbId := JStr (py_str identifier);
                    MetadataDetailsResponse.title := default JNull (dict_get "name" details);
                    MetadataDetailsResponse.imageUrl := default JNull (dict_get "image" details);
                    MetadataDetailsResponse.details := default JNull (dict_get "overview" details);
                    MetadataDetailsResponse.imdbId := imdb_of rids |}).
  assert (returns (if json_truthy (default JNull (dict_get "remoteIds" details))
                   then
                     rids' ← lift (py_iter (default JNull (dict_get "remoteIds" details)));
                     imdb_entry ← lift (first_imdb rids');
                     if json_truthy imdb_entry then lift (py_get imdb_entry "id" JNull)
                     else mret JNull
                   else mret JNull) self (imdb_of rids)) as Himdb.
  { destruct (dict_get "remoteIds" details) as [remote|] eqn:Hremote; cbn in Hrids |- *.
    - subst remote. cbn [json_truthy]. unfold imdb_of.
      destruct rids as [|rid rids]; [apply returns_mret|].
      rewrite bool_decide_eq_false_2 by done. cbn [negb].
      eapply returns_bind; [by apply returns_lift|].
      eapply returns_bind; [apply returns_lift, first_imdb_dicts, Hdicts|].
      destruct (List.find is_imdb (rid :: rids)) as [entry|] eqn:Hfind; [|apply returns_mret].
      apply find_some in Hfind as [_ Himdb]. cbn [default].
      unfold is_imdb in Himdb. destruct entry as [| | | | | |entry]; try done.
      cbn in Himdb. destruct entry as [|kv entry]; [done|].
      unfold id. cbn [json_truthy]. rewrite bool_decide_eq_false_2 by done. cbn [negb].
      by apply returns_lift.
    - injection Hrids as <-. apply returns_mret. }
  unfold get_details.
  destruct (new_MetadataDetailsResponse record) as [r|e] eqn:Hnew.
  - apply try_except_returned.
    assert (returns (get_details_try item_id) self (Some r)) as [Hv _]; [|done].
    unfold get_details_try.
    eapply returns_bind; [exact Hclient|].
    eapply returns_bind; [by apply returns_client_get|].
    destruct (status_code response =? 404) eqn:H404; [lia|].
    eapply returns_bind; [by apply returns_raise_for_status|].
    eapply returns_bind; [by apply returns_lift|].
    eapply returns_bind; [by apply returns_lift|].
    eapply returns_bind; [by apply returns_lift|].
    eapply returns_bind; [exact Himdb|].
    eapply returns_bind; [apply returns_lift; cbn; by rewrite Hid|].
    eapply returns_bind; [by apply returns_lift|].
    eapply returns_bind; [by apply returns_lift|].
    eapply returns_bind; [by apply returns_lift|].
    eapply returns_bind; [apply returns_lift, Hnew|].
    apply returns_mret.
  - rewrite (try_except_raised _ _ _ e); [done|].
    unfold get_details_try.
    eapply raises_bind_r; [exact Hclient|].
    eapply raises_bind_r; [by apply returns_client_get|].
    destruct (status_code response =? 404) eqn:H404; [lia|].
    eapply raises_bind_r; [by apply returns_raise_for_status|].
    eapply raises_bind_r; [by apply returns_lift|].
    eapply raises_bind_r; [by apply returns_lift|].
    eapply raises_bind_r; [by apply returns_lift|].
    eapply raises_bind_r; [exact Himdb|].
    eapply raises_bind_r; [apply returns_lift; cbn; by rewrite Hid|].
    eapply raises_bind_r; [by apply returns_lift|].
    eapply raises_bind_r; [by apply returns_lift|].
    eapply raises_bind_r; [by apply returns_lift|].
    apply raises_bind_l, raises_lift, Hnew.
Qed.
End TvdbResults.

(** ** The TVDB source behind the manager, and start-up *)

Section TvdbBehindManager.
Import MetadataSourceManager.
Context `{Runtime}.

Lemma tvdb_search_raises_http_only (self : TvdbMetadataSource.t) keyword user mediaType e :
  value (TvdbMetadataSource.search keyword user mediaType self) = Raised e →
  ∃ code detail, e = HTTPException code detail ∧ code ∈ [412; 503; 500].
Proof.
  unfold TvdbMetadataSource.search. rewrite try_except_value.
  destruct (value _) as [l|e']; [done|]. rewrite search_except_value. intros [= <-].
  unfold search_failure.
  destruct (is_ValueError e'); [|destruct e'];
    eexists _, _; (split; [done|]); rewrite !elem_of_cons; tauto.
Qed.

Lemma tvdb_get_details_returns (self : TvdbMetadataSource.t) item_id user mediaType :
  ∃ r, value (TvdbMetadataSource.get_details item_id user mediaType self) = Returned r.
Proof.
  unfold TvdbMetadataSource.get_details. rewrite try_except_value.
  destruct (value _) as [r|e]; by eexists.
Qed.

Lemma tvdb_get_details_binds (self : TvdbMetadataSource.t) :
  bind_error (qualname (Source.get_details (TvdbMetadataSource.as_source self)))
    (params (Source.get_details (TvdbMetadataSource.as_source self))) 2 ["mediaType"] = None.
Proof. reflexivity. Qed.

(** X21. With the TVDB source loaded under a name, the manager's [search]
    and [get_details] on that name invoke the source once and leave the
    manager unchanged; [search] returns the list of the source or raises an
    [HTTPException] with status 412, 503 or 500 and nothing else;
    [get_details] never raises and returns a record or [None]. *)
Theorem tvdb_behind_manager (m : t) (provider : string) (self : TvdbMetadataSource.t)
    (keyword item_id : string) (user : User) (mediaType : option string) :
  dict_get provider (sources m) = Some (TvdbMetadataSource.as_source self) →
  search provider keyword user mediaType m =
    Run (match value (TvdbMetadataSource.search keyword user mediaType self) with
         | Returned l => Returned (VList l)
         | Raised e => Raised e
         end) m [Invoked provider "search"]
  ∧ (∀ e, value (search provider keyword user mediaType m) = Raised e →
          ∃ code detail, e = HTTPException code detail ∧ code ∈ [412; 503; 500])
  ∧ ∃ v, get_details provider item_id user mediaType m =
           Run (Returned v) m [Invoked provider "get_details"]
         ∧ (v = VNone ∨ ∃ r, v = VDetails r).
Proof.
  intros Hloaded.
  assert (search provider keyword user mediaType m =
            Run (match value (TvdbMetadataSource.search keyword user mediaType self) with
                 | Returned l => Returned (VList l)
                 | Raised e => Raised e
                 end) m [Invoked provider "search"]) as Hsearch.
  { unfold search. rewrite bind_run. cbn [get_self value final trace].
    rewrite Hloaded, call_method_run. reflexivity. }
  split; [exact Hsearch|]. split.
  - rewrite Hsearch. cbn [value]. intros e He.
    apply (tvdb_search_raises_http_only self keyword user mediaType).
    revert He. destruct (value (TvdbMetadataSource.search keyword user mediaType self));
      [done | by intros [= ->]].
  - destruct (tvdb_get_details_returns self item_id user mediaType) as [r Hr].
    exists (match r with Some r' => VDetails r' | None => VNone end). split.
    + unfold get_details. rewrite bind_run. cbn [get_self value final trace].
      rewrite Hloaded, call_method_run, tvdb_get_details_binds. cbn. rewrite Hr.
      by destruct r.
    + destruct r; [right; by eexists | by left].
Qed.
End TvdbBehindManager.

Section Initialize.
Import MetadataSourceManager.
Context `{Runtime}.

(** X22. When the reload goes through, [initialize] returns the
    application with one more mount for every reloaded source that has a
    router, and leaves the manager as the reload left it; when the reload
    raises, [initialize] raises the same exception and registers no
    router. *)
Theorem initialize_reloads_then_mounts (s : Registry.t) (modules : list PluginModule)
    (sync : Database → list string → outcome Database)
    (api_router_of : capability APIRouter) (app : list Mount) :
  (∀ db settings_list inst,
     sync (_session_factory (Registry.manager s)) (discovered_plugins modules).*1
       = Returned db →
     get_all_metadata_source_settings db = Returned settings_list →
     (∀ item, item ∈ dict_of_assignments [] (discovered_plugins modules) →
        instantiate item.2 db (_config_manager (Registry.manager s)) = Returned (inst item.2)) →
     let s' := reloaded s db settings_list (discovered_plugins modules) inst in
     value (initialize modules sync api_router_of app s)
       = Returned (app ++ omap (mount_of api_router_of) (sources (Registry.manager s')))%list
     ∧ final (initialize modules sync api_router_of app s) = s')
  ∧ (∀ e, value (load_and_sync_sources modules sync s) = Raised e →
          value (initialize modules sync api_router_of app s) = Raised e
          ∧ final (initialize modules sync api_router_of app s)
            = final (load_and_sync_sources modules sync s)
          ∧ trace (initialize modules sync api_router_of app s)
            = trace (load_and_sync_sources modules sync s)).
Proof.
  split.
  - intros db settings_list inst Hsync Hread Hinst s'.
    destruct (load_and_sync_sources_run s modules sync db settings_list inst Hsync Hread Hinst)
      as (logs & Hload & _).
    destruct (register_source_routers_run (Registry.manager s') api_router_of app)
      as (rlogs & Hreg & _).
    assert (runs (initialize modules sync api_router_of app) s
              (app ++ omap (mount_of api_router_of) (sources (Registry.manager s')))%list s'
              ((trace (close_all (Registry.manager s)) ++ logs)
               ++ rlogs ++ [Logged INFO "元数据源管理器已初始化。"] ++ [])) as Hrun.
    { unfold initialize.
      eapply runs_bind; [exact Hload|].
      eapply runs_bind; [apply (runs_on_manager _ s' _ _ _ Hreg)|].
      eapply runs_bind; [apply runs_logger | apply runs_mret]. }
    unfold runs in Hrun. by rewrite Hrun.
  - intros e Hraised.
    assert (initialize modules sync api_router_of app s =
              Run (Raised e) (final (load_and_sync_sources modules sync s))
                  (trace (load_and_sync_sources modules sync s))) as ->; [|done].
    unfold initialize. rewrite bind_run. by rewrite Hraised.
Qed.
End Initialize.

(** ** The further properties at concrete inputs *)

Lemma status_reports_connectivity_witness :
  ∃ rows,
    value (MetadataSourceManager.get_sources_with_status unreachable_manager) = Returned rows
    ∧ {| MetadataSourceManager.row_providerName := "A";
         MetadataSourceManager.row_isAuxSearchEnabled := true;
         MetadataSourceManager.row_displayOrder := 1;
         MetadataSourceManager.row_status := default_status;
         MetadataSourceManager.row_useProxy := false |} ∈ rows.
Proof.
  apply (status_reports_connectivity unreachable_manager "A" (setting_row "A" true 1)
           unreachable_source); [left | reflexivity].
Defined.

Lemma alias_search_calls_enabled_loaded_only_witness :
  ∃ logs,
    MetadataSourceManager.search_aliases_from_enabled_sources "x" alice scenario_manager =
      Run (Returned (strip_falsy (⋃ alias_sets_of_successful_calls scenario_manager "x" alice
                                      [setting_row "A" true 1]))) scenario_manager
          (DbRead "get_enabled_aux_metadata_sources"
           :: concat (alias_task_events scenario_manager <$> [setting_row "A" true 1]) ++ logs)
    ∧ Forall (λ ev, is_logged ev = true) logs.
Proof.
  apply (alias_search_calls_enabled_loaded_only scenario_manager "x" alice
           [setting_row "A" true 1]).
  reflexivity.
Defined.

Lemma getProviderConfig_reads_table_keys_witness :
  MetadataSourceManager.getProviderConfig "tvdb" tvdb_manager =
    Run (Returned [("value", "")]) tvdb_manager [ConfigRead "tvdbApiKey"].
Proof.
  apply (getProviderConfig_reads_table_keys tvdb_manager "tvdb" ["tvdbApiKey"] (λ _, "")).
  - by_decide.
  - reflexivity.
  - intros k _. reflexivity.
Defined.

Lemma getProviderConfig_propagates_read_failure_witness :
  MetadataSourceManager.getProviderConfig "tvdb" broken_config_manager =
    Run (Raised (RuntimeError "config store down")) broken_config_manager
        [ConfigRead "tvdbApiKey"].
Proof.
  apply (getProviderConfig_propagates_read_failure broken_config_manager "tvdb" []
           [] "tvdbApiKey" (λ _, "") (RuntimeError "config store down")).
  - by_decide.
  - reflexivity.
  - intros k Hk. by apply elem_of_nil in Hk.
  - reflexivity.
Defined.

Lemma routed_call_passes_outcome_through_witness :
  MetadataSourceManager.search "A" "x" alice None scenario_manager =
    Run (Returned (VList [])) scenario_manager [Invoked "A" "search"].
Proof.
  apply (routed_call_passes_outcome_through scenario_manager "A"
           (plain_source (Returned (VSet {[Some "foo"; Some "Foo"; Some ""]})) (Returned VNone))
           "x" "1" "refresh" [] alice None a_request eq_refl).
  reflexivity.
Defined.

Lemma update_tmdb_mappings_delegates_or_warns_witness :
  value (update_tmdb_mappings (λ _, None) 1399 "5b11ba820e0a265c530050a8" alice
           scenario_manager) = Returned tt.
Proof.
  apply (update_tmdb_mappings_delegates_or_warns scenario_manager (λ _, None) 1399
           "5b11ba820e0a265c530050a8" alice).
  left. reflexivity.
Defined.

Lemma a_registry_plugins :
  dict_of_assignments [] (discovered_plugins [tvdb_module; broken_module; base_module])
  = [("tvdb", tvdb_class)].
Proof. reflexivity. Defined.

Lemma reload_installs_discovered_plugins_witness :
  ∃ logs,
    load_and_sync_sources [tvdb_module; broken_module; base_module] sync_defaults a_registry =
      Run (Returned tt)
          (reloaded a_registry (database_of_rows [setting_row "tvdb" false 99])
             [setting_row "tvdb" false 99]
             (discovered_plugins [tvdb_module; broken_module; base_module])
             (λ _, plain_source (Returned (VSet ∅)) (Returned VNone)))
          (trace (MetadataSourceManager.close_all (Registry.manager a_registry)) ++ logs)
    ∧ Forall (λ ev, is_invoked ev = false) logs.
Proof.
  apply (reload_installs_discovered_plugins a_registry
           [tvdb_module; broken_module; base_module] sync_defaults
           (database_of_rows [setting_row "tvdb" false 99]) [setting_row "tvdb" false 99]
           (λ _, plain_source (Returned (VSet ∅)) (Returned VNone))).
  - reflexivity.
  - reflexivity.
  - intros item Hitem. rewrite a_registry_plugins in Hitem.
    apply list_elem_of_singleton in Hitem as ->. reflexivity.
Defined.

Lemma mirrored_plugins :
  dict_of_assignments [] (discovered_plugins [tvdb_module; mirror_module])
  = [("tvdb", mirror_class)].
Proof. reflexivity. Defined.

Lemma reload_last_discovered_class_wins_witness :
  discovered_plugins [tvdb_module; mirror_module]
    = [("tvdb", tvdb_class); ("tvdb", mirror_class)]
  ∧ NoDup (dict_keys (MetadataSourceManager.sources (Registry.manager
             (final (load_and_sync_sources [tvdb_module; mirror_module]
                       sync_defaults a_registry)))))
  ∧ dict_get "tvdb" (MetadataSourceManager.sources (Registry.manager
       (final (load_and_sync_sources [tvdb_module; mirror_module]
                 sync_defaults a_registry))))
    = Some unreachable_source
  ∧ instance_of tvdb_class ≠ unreachable_source.
Proof.
  destruct (reload_last_discovered_class_wins a_registry
              [tvdb_module; mirror_module] sync_defaults
              (database_of_rows [setting_row "tvdb" false 99; setting_row "tvdb" false 99])
              [setting_row "tvdb" false 99; setting_row "tvdb" false 99]
              instance_of) as (Hdistinct & _ & Hlast).
  - reflexivity.
  - reflexivity.
  - intros item Hitem. rewrite mirrored_plugins in Hitem.
    apply list_elem_of_singleton in Hitem as ->. reflexivity.
  - split; [reflexivity|]. split; [exact Hdistinct|]. split; [|discriminate].
    rewrite (Hlast "tvdb"). reflexivity.
Defined.

Lemma reload_failure_leaves_manager_empty_witness :
  ∃ logs,
    load_and_sync_sources [tvdb_module; broken_module; base_module] sync_offline a_registry =
      Run (Raised (RuntimeError "connection refused"))
          (emptied a_registry (discovered_plugins [tvdb_module; broken_module; base_module]))
          (trace (MetadataSourceManager.close_all (Registry.manager a_registry)) ++ logs).
Proof.
  destruct (reload_failure_leaves_manager_empty a_registry
              [tvdb_module; broken_module; base_module] sync_offline
              (RuntimeError "connection refused")) as [Hsync _].
  apply Hsync. reflexivity.
Defined.

Lemma reload_ignores_unusable_module_witness :
  final (load_and_sync_sources ([tvdb_module] ++ broken_module :: [base_module])
           sync_defaults a_registry)
  = final (load_and_sync_sources ([tvdb_module] ++ [base_module]) sync_defaults a_registry).
Proof.
  apply (reload_ignores_unusable_module a_registry [tvdb_module] [base_module] broken_module
           sync_defaults).
  right. right. by eexists.
Defined.

Lemma tvdb_unconfigured_makes_no_request_witness :
  @TvdbMetadataSource.search plain_runtime "x" alice None tvdb_unconfigured =
    Run (Raised (HTTPException 412 "TVDB API Key not configured.")) tvdb_unconfigured
        [ConfigRead "tvdbApiKey"].
Proof.
  apply (@tvdb_unconfigured_makes_no_request plain_runtime tvdb_unconfigured "x" "121361"
           alice None).
  reflexivity.
Defined.

Lemma tvdb_check_connectivity_never_raises_witness :
  value (@TvdbMetadataSource.check_connectivity plain_runtime tvdb_empty_answer)
    = Returned "连接成功"
  ∧ value (@TvdbMetadataSource.check_connectivity plain_runtime tvdb_bad_proxy)
    = Returned ("未配置: " +:+ "Unknown scheme for proxy URL URL('ftp://bad')").
Proof.
  split.
  - destruct (@tvdb_check_connectivity_never_raises plain_runtime tvdb_empty_answer)
      as (_ & Hanswer & _).
    apply (Hanswer a_client (a_response 200 (Returned (JDict [])))).
    + split; reflexivity.
    + reflexivity.
  - destruct (@tvdb_check_connectivity_never_raises plain_runtime tvdb_bad_proxy)
      as (_ & _ & _ & Hclient).
    apply (Hclient (ValueError "Unknown scheme for proxy URL URL('ftp://bad')")).
    reflexivity.
Defined.

Lemma tvdb_client_configuration_witness :
  ∃ api_key,
    TvdbMetadataSource.config_manager tvdb_not_json "tvdbApiKey" "" = Returned api_key
    ∧ api_key ≠ ""
    ∧ TvdbMetadataSource.headers a_client = [("Authorization", "Bearer " +:+ api_key)].
Proof.
  destruct (@tvdb_client_configuration plain_runtime tvdb_not_json a_client eq_refl)
    as (api_key & Hkey & Hne & Hheaders & _).
  by exists api_key.
Defined.

Lemma tvdb_search_keeps_series_only_witness :
  ∃ items,
    py_iter (JList [ JDict [("type", JStr "series"); ("tvdb_id", JStr "121361");
                            ("name", JStr "Game of Thrones"); ("year", JStr "2011")];
                     JDict [("type", JStr "movie"); ("name", JStr "Dune")] ]) = Returned items
    ∧ length (filter (λ item, is_series item = true) items) = 1%nat.
Proof.
  destruct (@tvdb_search_keeps_series_only plain_runtime tvdb_searching "x" alice None
              [ {| MetadataDetailsResponse.id := JStr "121361";
                   MetadataDetailsResponse.tvdbId := JStr "121361";
                   MetadataDetailsResponse.title := JStr "Game of Thrones";
                   MetadataDetailsResponse.imageUrl := JNull;
                   MetadataDetailsResponse.details := JStr "Year: 2011";
                   MetadataDetailsResponse.imdbId := JNull |} ] eq_refl)
    as (client & response & decoded & data & items & _ & Hget & _ & Hjson & Hdata & Hitems
        & Hlen & _).
  injection Hget as <-. injection Hjson as <-. injection Hdata as <-.
  exists items. split; [exact Hitems | by rewrite <- Hlen].
Defined.

Lemma tvdb_answer_without_data_witness :
  value (@TvdbMetadataSource.search plain_runtime "x" alice None tvdb_empty_answer)
    = Returned []
  ∧ value (@TvdbMetadataSource.get_details plain_runtime "121361" alice None tvdb_empty_answer)
    = Returned None.
Proof.
  destruct (@tvdb_answer_without_data plain_runtime tvdb_empty_answer "x" "121361" alice None
              a_client (a_response 200 (Returned (JDict []))) [])
    as [Hsearch Hdetails].
  - split; reflexivity.
  - cbn. lia.
  - reflexivity.
  - reflexivity.
  - split; [by apply Hsearch | by apply Hdetails].
Defined.

Lemma tvdb_get_details_record_witness :
  value (@TvdbMetadataSource.get_details plain_runtime "121361" alice None tvdb_detailing) =
    Returned (Some {| MetadataDetailsResponse.id := JStr "121361";
                      MetadataDetailsResponse.tvdbId := JStr "121361";
                      MetadataDetailsResponse.title := JStr "Game of Thrones";
                      MetadataDetailsResponse.imageUrl := JNull;
                      MetadataDetailsResponse.details := JNull;
                      MetadataDetailsResponse.imdbId := JStr "tt0944947" |}).
Proof.
  apply (@tvdb_get_details_record plain_runtime tvdb_detailing "121361" alice None a_client
           (a_response 200 (Returned (JDict [("data", JDict series_details)])))
           (JDict [("data", JDict series_details)]) series_details (JInt 121361)
           [ JDict [("id", JStr "1399"); ("sourceName", JStr "TheMovieDB.com")];
             JDict [("id", JStr "tt0944947"); ("sourceName", JStr "IMDB")] ]).
  - split; reflexivity.
  - reflexivity.
  - cbn. lia.
  - reflexivity.
  - reflexivity.
  - reflexivity.
  - reflexivity.
  - by repeat constructor.
Defined.

Lemma tvdb_behind_manager_witness :
  MetadataSourceManager.search "tvdb" "x" alice None tvdb_manager =
    Run (Raised (HTTPException 412 "Expecting value")) tvdb_manager [Invoked "tvdb" "search"].
Proof.
  apply (@tvdb_behind_manager plain_runtime tvdb_manager "tvdb" tvdb_not_json "x" "121361"
           alice None).
  reflexivity.
Defined.

Lemma initialize_reloads_then_mounts_witness :
  value (@initialize plain_runtime [tvdb_module; broken_module; base_module] sync_defaults
           (λ _, Some {| router_name := "tvdb" |}) [] a_registry)
    = Returned [ {| mount_router := {| router_name := "tvdb" |};
                    mount_prefix := "/api/metadata/tvdb";
                    mount_tags := ["Metadata - Tvdb"] |} ]
  ∧ value (@initialize plain_runtime [tvdb_module; broken_module; base_module] sync_offline
             (λ _, Some {| router_name := "tvdb" |}) [] a_registry)
    = Raised (RuntimeError "connection refused").
Proof.
  split.
  - destruct (@initialize_reloads_then_mounts plain_runtime a_registry
                [tvdb_module; broken_module; base_module] sync_defaults
                (λ _, Some {| router_name := "tvdb" |}) []) as [Hloaded _].
    destruct (Hloaded (database_of_rows [setting_row "tvdb" false 99])
                [setting_row "tvdb" false 99]
                (λ _, plain_source (Returned (VSet ∅)) (Returned VNone))) as [Hvalue _].
    + reflexivity.
    + reflexivity.
    + intros item Hitem. rewrite a_registry_plugins in Hitem.
      apply list_elem_of_singleton in Hitem as ->. reflexivity.
    + rewrite Hvalue. reflexivity.
  - apply (@initialize_reloads_then_mounts plain_runtime a_registry
             [tvdb_module; broken_module; base_module] sync_offline
             (λ _, Some {| router_name := "tvdb" |}) []).
    reflexivity.
Defined.
